(** * jira_handler: a shallow embedding of the [Jira] class

    The Python class [Jira] of [jira_handler.py] talks to the tracker's
    REST API.  Its methods are embedded as functions in a small monad that
    threads the state of the remote tracker, records every HTTP request that
    is sent, and propagates Python exceptions.  Calls to [logging] have no
    effect on control flow and are left out, except where formatting the log
    line evaluates an expression that may raise.  The methods take the
    attributes of a constructed object; the constructor, with the probe of
    the credentials, is embedded on its own after them.

    The first part gives the data and the methods, the second the
    vocabulary in which the properties are stated together with the inputs
    of the examples, the third the properties and their proofs, the fourth
    further properties of the transport, the lookups, the constructor, the
    translation of fields, the creation of one issue and the walk. *)

From Stdlib Require Import String Ascii List ZArith Bool Lia Arith.
Import ListNotations.
Open Scope string_scope.
Open Scope list_scope.

Set Warnings "-register-all".

(** ** Python values *)

(** The values that [json] / [yaml] loading produces and that the code
    passes around.  Dictionaries keep insertion order and have string keys. *)
Inductive value : Type :=
| VNone
| VBool (b : bool)
| VNum (z : Z)
| VStr (s : string)
| VList (l : list value)
| VDict (d : list (string * value)).

Definition dict : Type := list (string * value).

(** Python exceptions the code can raise. *)
Inductive exn : Type :=
| KeyError (key : string)
| ValueError (msg : string)
| TypeError (msg : string)
| AttributeError (msg : string)
| RuntimeError (msg : string)
| UnboundLocalError (var : string)
| HTTPError (status : Z)
| RecursionError.

Inductive result (A : Type) : Type :=
| Ok (a : A)
| Raise (e : exn).
Arguments Ok {A} a.
Arguments Raise {A} e.

Definition is_ok {A} (r : result A) : bool :=
  match r with Ok _ => true | Raise _ => false end.

Definition bind_result {A B} (r : result A) (f : A -> result B) : result B :=
  match r with
  | Ok a => f a
  | Raise e => Raise e
  end.

Declare Scope result_scope.
Delimit Scope result_scope with res.
Notation "x <~ r ;; k" := (bind_result r (fun x => k))
  (at level 100, r at next level, right associativity) : result_scope.
Open Scope result_scope.

(** ** Dictionaries and lists of names *)

Section Assoc.
Context {A : Type}.

Fixpoint dict_get (d : list (string * A)) (k : string) : option A :=
  match d with
  | [] => None
  | (k', v) :: d' => if String.eqb k k' then Some v else dict_get d' k
  end.

(** [d[k] = v]: an existing key keeps its position, a new key goes last. *)
Fixpoint dict_set (d : list (string * A)) (k : string) (v : A)
  : list (string * A) :=
  match d with
  | [] => [(k, v)]
  | (k', v') :: d' =>
      if String.eqb k k' then (k, v) :: d' else (k', v') :: dict_set d' k v
  end.

Definition dict_keys (d : list (string * A)) : list string := map fst d.
End Assoc.

(** [x in names] for a list (or set) of strings. *)
Definition mem (x : string) (names : list string) : bool :=
  existsb (String.eqb x) names.

(** [k in d] for a dictionary. *)
Definition dict_mem {A} (d : list (string * A)) (k : string) : bool :=
  mem k (dict_keys d).

(** ** Python primitives on values *)

Definition is_dict (v : value) : bool :=
  match v with VDict _ => true | _ => false end.

(** Truth value of an object in a condition. *)
Definition truthy (v : value) : bool :=
  match v with
  | VNone => false
  | VBool b => b
  | VNum z => negb (Z.eqb z 0)
  | VStr s => negb (String.eqb s EmptyString)
  | VList l => match l with [] => false | _ => true end
  | VDict d => match d with [] => false | _ => true end
  end.

(** [a == b].  Booleans compare equal to the integers 0 and 1 and
    dictionaries compare without regard to order. *)
Fixpoint py_eq (a b : value) {struct a} : bool :=
  match a, b with
  | VNone, VNone => true
  | VBool x, VBool y => Bool.eqb x y
  | VBool x, VNum z => Z.eqb (if x then 1 else 0) z
  | VNum z, VBool x => Z.eqb z (if x then 1 else 0)
  | VNum x, VNum y => Z.eqb x y
  | VStr x, VStr y => String.eqb x y
  | VList la, VList lb =>
      (fix go (la lb : list value) {struct la} : bool :=
         match la, lb with
         | [], [] => true
         | x :: la', y :: lb' => py_eq x y && go la' lb'
         | _, _ => false
         end) la lb
  | VDict da, VDict db =>
      Nat.eqb (length da) (length db) &&
      (fix all (da : list (string * value)) : bool :=
         match da with
         | [] => true
         | (k, va) :: da' =>
             match dict_get db k with
             | Some vb => py_eq va vb
             | None => false
             end && all da'
         end) da
  | _, _ => false
  end.

(** [v[k]] with a string [k]. *)
Definition getitem (v : value) (k : string) : result value :=
  match v with
  | VDict d =>
      match dict_get d k with
      | Some x => Ok x
      | None => Raise (KeyError k)
      end
  | _ => Raise (TypeError "indices must be integers or object is not subscriptable")
  end.

(** [v.get(k, default)]: only dictionaries have the method. *)
Definition get_method (v : value) (k : string) (default : value) : result value :=
  match v with
  | VDict d =>
      match dict_get d k with
      | Some x => Ok x
      | None => Ok default
      end
  | _ => Raise (AttributeError "object has no attribute get")
  end.

Fixpoint chars (s : string) : list value :=
  match s with
  | EmptyString => []
  | String c s' => VStr (String c EmptyString) :: chars s'
  end.

(** The elements a [for] loop over [v] visits. *)
Definition iter (v : value) : result (list value) :=
  match v with
  | VList l => Ok l
  | VDict d => Ok (map VStr (dict_keys d))
  | VStr s => Ok (chars s)
  | _ => Raise (TypeError "object is not iterable")
  end.

(** [str.lower()] on ASCII letters. *)
Definition lower_ascii (c : ascii) : ascii :=
  let n := nat_of_ascii c in
  if (65 <=? n)%nat && (n <=? 90)%nat then ascii_of_nat (n + 32) else c.

Fixpoint lower (s : string) : string :=
  match s with
  | EmptyString => EmptyString
  | String c s' => String (lower_ascii c) (lower s')
  end.

(** ** HTTP *)

Inductive http_method : Type := GET | POST | PUT.

(** The URLs the class builds with f-strings, kept as their parts:
    [{jira_api_base_url}/{api_type}] with an optional [/{issue_key}], and
    the two agile URLs under [{jira_url}/rest/agile/1.0]. *)
Inductive url : Type :=
| ApiUrl (api_type : option string) (issue_key : option value)
| BoardSearchUrl (project_id : value)
| BoardSprintsUrl (board_id : value).

Record request : Type := mkRequest {
  req_method : http_method;
  req_url : url;
  req_data : option value   (* [json=] for POST and PUT, [params=] for GET *)
}.

(** What [requests] hands back.  [json] is the outcome of
    [response.json()], [None] standing for its [ValueError]. *)
Record response : Type := mkResponse {
  status_code : Z;
  text : string;
  json : option value
}.

(** A call either gets a response or fails before one exists. *)
Inductive outcome : Type :=
| Answer (r : response)
| NoResponse.

(** What [send_request] returns: a parsed body, or the [Response] object
    itself, which it returns only when [response.text] is empty. *)
Inductive pyobj : Type :=
| Json (v : value)
| RawResponse (status : Z).

(** ** Configuration *)

(** An entry of [custom_field_mapping]: a wire field id, or one of the two
    nested tables from field name to wire field id. *)
Inductive cfm_entry : Type :=
| WireId (id : string)
| Table (t : list (string * string)).

(** The attributes [__init__] reads from [jira_special_fields]. *)
Record Jira : Type := mkJira {
  name_format_fields : list string;
  key_format_fields : list string;
  custom_field_mapping : list (string * cfm_entry);
  post_creation_update_fields : list string
}.

(** Storing under a key taken from [custom_field_mapping]: a nested table
    is a dict, which is unhashable. *)
Definition as_key (e : cfm_entry) : result string :=
  match e with
  | WireId id => Ok id
  | Table _ => Raise (TypeError "unhashable type: dict")
  end.

(** ** The monad: tracker state, request trace, exceptions *)

Section Tracker.
Variable W : Type.
Variable serve : W -> request -> outcome * W.

Definition M (A : Type) : Type := W -> result A * list request * W.

Definition ret {A} (a : A) : M A := fun s => (Ok a, [], s).
Definition raise {A} (e : exn) : M A := fun s => (Raise e, [], s).
Definition lift {A} (r : result A) : M A := fun s => (r, [], s).

Definition bind {A B} (m : M A) (f : A -> M B) : M B :=
  fun s =>
    match m s with
    | (Ok a, t1, s1) =>
        match f a s1 with
        | (r, t2, s2) => (r, t1 ++ t2, s2)
        end
    | (Raise e, t1, s1) => (Raise e, t1, s1)
    end.

(** One round trip: the request is recorded and the tracker answers. *)
Definition http (r : request) : M outcome :=
  fun s => match serve s r with (o, s') => (Ok o, [r], s') end.

Definition outcome_of {A} (x : result A * list request * W) : result A :=
  fst (fst x).
Definition trace_of {A} (x : result A * list request * W) : list request :=
  snd (fst x).
End Tracker.

Arguments M W A : clear implicits.
Arguments ret {W A} a.
Arguments raise {W A} e.
Arguments lift {W A} r.
Arguments bind {W A B} m f.
Arguments http {W} serve r.
Arguments outcome_of {W A} x.
Arguments trace_of {W A} x.

Declare Scope py_scope.
Delimit Scope py_scope with py.
Notation "x <- m ;; k" := (bind m (fun x => k))
  (at level 100, m at next level, right associativity) : py_scope.
Notation "m ;;; k" := (bind m (fun _ => k))
  (at level 100, right associativity) : py_scope.
Open Scope py_scope.

(** ** The methods of [Jira] *)

Section Methods.
Variable W : Type.
Variable serve : W -> request -> outcome * W.
Variable self : Jira.

Definition http_method_of (m : string) : http_method :=
  if String.eqb m "post" then POST
  else if String.eqb m "put" then PUT
  else GET.

(** [response.raise_for_status()] raises for 4xx and 5xx codes. *)
Definition raises_for_status (r : response) : bool :=
  (400 <=? status_code r)%Z && (status_code r <? 600)%Z.

(** The URL [send_request] builds: the custom one if given, else the API
    resource, with the issue key appended for PUT and GET. *)
Definition request_url (api_type : option string)
           (custom_jira_api_base_url : option url)
           (issue_key : value) (method : string) : url :=
  match custom_jira_api_base_url with
  | Some u => u
  | None =>
      if mem (lower method) ["put"; "get"] && truthy issue_key
      then ApiUrl api_type (Some issue_key)
      else ApiUrl api_type None
  end.

(** What [send_request] makes of the outcome of the call.  When the call
    itself fails, the handler of [RequestException] reads the local
    [response], which was never bound. *)
Definition handle_outcome (o : outcome) : result pyobj :=
  match o with
  | NoResponse => Raise (UnboundLocalError "response")
  | Answer response =>
      if raises_for_status response then
        Raise (HTTPError (status_code response))
      else if negb (String.eqb (text response) EmptyString) then
        match json response with
        | Some response_json => Ok (Json response_json)
        | None => Ok (Json (VDict [("response_text", VStr (text response))]))
        end
      else Ok (RawResponse (status_code response))
  end.

Definition send_request
           (api_type : option string)
           (custom_jira_api_base_url : option url)
           (issue_key : value)
           (jira_request_data : option value)
           (method : string) : M W pyobj :=
  if negb (mem (lower method) ["post"; "put"; "get"]) then
    raise (ValueError "Invalid HTTP method")
  else
    o <- http serve (mkRequest (http_method_of (lower method))
                               (request_url api_type custom_jira_api_base_url
                                            issue_key method)
                               jira_request_data) ;;
    lift (handle_outcome o).

(** [for x in obj] on what [send_request] returned.  Iterating a
    [Response] yields the chunks of its body, which is empty. *)
Definition iter_obj (o : pyobj) : result (list value) :=
  match o with
  | Json v => iter v
  | RawResponse _ => Ok []
  end.

(** [obj[k]] on what [send_request] returned. *)
Definition getitem_obj (o : pyobj) (k : string) : result value :=
  match o with
  | Json v => getitem v k
  | RawResponse _ => Raise (TypeError "Response object is not subscriptable")
  end.

(** [obj.get(k, default)] on what [send_request] returned. *)
Definition get_method_obj (o : pyobj) (k : string) (default : value)
  : result value :=
  match o with
  | Json v => get_method v k default
  | RawResponse _ => Raise (AttributeError "Response object has no attribute get")
  end.

(** The loop of [get_project_id_by_key]. *)
Fixpoint find_project (projects : list value) (project_key : string)
  : result value :=
  match projects with
  | [] => Raise (RuntimeError "Project key not found")
  | project :: rest =>
      match getitem project "key" with
      | Raise e => Raise e
      | Ok k =>
          if py_eq k (VStr project_key) then getitem project "id"
          else find_project rest project_key
      end
  end.

Definition get_project_id_by_key (project_key : string) : M W value :=
  response <- send_request (Some "project") None VNone None "get" ;;
  projects <- lift (iter_obj response) ;;
  lift (find_project projects project_key).

Definition get_board_id_by_project_key (project_key : string) : M W value :=
  project_id <- get_project_id_by_key project_key ;;
  response <- send_request None (Some (BoardSearchUrl project_id)) VNone
                           None "get" ;;
  values <- lift (get_method_obj response "values" (VList [])) ;;
  boards <- lift (iter values) ;;
  match boards with
  | board :: _ => lift (getitem board "id")
  | [] => raise (RuntimeError "No boards found for project key")
  end.

(** The loop of [get_sprint_id]; falling off its end returns [None]. *)
Fixpoint find_sprint (sprints : list value) (sprint_name : value)
  : result value :=
  match sprints with
  | [] => Ok VNone
  | sprint :: rest =>
      match getitem sprint "name" with
      | Raise e => Raise e
      | Ok n =>
          if py_eq n sprint_name then getitem sprint "id"
          else find_sprint rest sprint_name
      end
  end.

Definition get_sprint_id (board_id : value) (sprint_name : value) : M W value :=
  response <- send_request None (Some (BoardSprintsUrl board_id)) VNone
                           None "get" ;;
  values <- lift (get_method_obj response "values" (VList [])) ;;
  sprints <- lift (iter values) ;;
  lift (find_sprint sprints sprint_name).

Definition link_data (issue_key issue_parent_key link_type : value) : value :=
  VDict [("type", VDict [("name", link_type)]);
         ("inwardIssue", VDict [("key", issue_key)]);
         ("outwardIssue", VDict [("key", issue_parent_key)])].

Definition link_jira_issues (issue_key issue_parent_key link_type : value)
  : M W pyobj :=
  send_request (Some "issueLink") None VNone
               (Some (link_data issue_key issue_parent_key link_type)) "post".

(** *** Field translation *)

(** [key, val = k] for a dictionary key [k]: a string unpacks into its
    characters, so it must have exactly two. *)
Definition unpack_pair (k : string) : result (string * value) :=
  match k with
  | String a (String b EmptyString) =>
      Ok (String a EmptyString, VStr (String b EmptyString))
  | _ => Raise (ValueError "wrong number of values to unpack")
  end.

(** [[{key: val} for key, val in field_value]]: the loop runs over the
    dictionary itself, that is, over its keys. *)
Fixpoint key_objects (keys : list string) : result (list value) :=
  match keys with
  | [] => Ok []
  | k :: rest =>
      kv <~ unpack_pair k ;;
      objs <~ key_objects rest ;;
      Ok (VDict [(fst kv, snd kv)] :: objs)
  end.

Definition transform_field_value (field_value : value) (key_type : string)
  : result value :=
  match field_value with
  | VDict d => objs <~ key_objects (dict_keys d) ;; Ok (VList objs)
  | _ => Ok (VDict [(key_type, field_value)])
  end.

(** The body of the loop of [_build_issue_data]: [issue_fields] is
    [issue_data['fields']] before the iteration, the result is that
    dictionary after it. *)
Definition build_field (jira_project : string) (exclude_fields : list string)
           (issue_fields : dict) (field_name : string) (field_value : value)
  : M W dict :=
  if String.eqb field_name "issues" then ret issue_fields
  else if mem field_name exclude_fields then ret issue_fields
  else if String.eqb field_name "issuelinks" then ret issue_fields
  else if mem field_name (key_format_fields self) then
    v <- lift (transform_field_value field_value "key") ;;
    ret (dict_set issue_fields field_name v)
  else if mem field_name (name_format_fields self) then
    v <- lift (transform_field_value field_value "name") ;;
    ret (dict_set issue_fields field_name v)
  else
    match dict_get (custom_field_mapping self) field_name with
    | Some entry =>
        if String.eqb field_name "sprint" then
          project_board_id <- get_board_id_by_project_key jira_project ;;
          sprint_id <- get_sprint_id project_board_id field_value ;;
          custom_field_name <- lift (as_key entry) ;;
          ret (dict_set issue_fields custom_field_name sprint_id)
        else
          custom_field_name <- lift (as_key entry) ;;
          ret (dict_set issue_fields custom_field_name field_value)
    | None =>
        match dict_get (custom_field_mapping self) "key_format_fields" with
        | None => raise (KeyError "key_format_fields")
        | Some (WireId _) => raise (AttributeError "str object has no attribute keys")
        | Some (Table key_table) =>
            match dict_get key_table field_name with
            | Some custom_field_name =>
                v <- lift (transform_field_value field_value "key") ;;
                ret (dict_set issue_fields custom_field_name v)
            | None =>
                match dict_get (custom_field_mapping self) "name_format_fields" with
                | None => raise (KeyError "name_format_fields")
                | Some (WireId _) =>
                    raise (AttributeError "str object has no attribute keys")
                | Some (Table name_table) =>
                    match dict_get name_table field_name with
                    | Some custom_field_name =>
                        v <- lift (transform_field_value field_value "name") ;;
                        ret (dict_set issue_fields custom_field_name v)
                    | None => ret (dict_set issue_fields field_name field_value)
                    end
                end
            end
        end
    end.

(** The loop over [fields.items()]. *)
Fixpoint build_fields (jira_project : string) (exclude_fields : list string)
         (items : dict) (issue_fields : dict) : M W dict :=
  match items with
  | [] => ret issue_fields
  | (field_name, field_value) :: rest =>
      issue_fields' <- build_field jira_project exclude_fields issue_fields
                                   field_name field_value ;;
      build_fields jira_project exclude_fields rest issue_fields'
  end.

(** [_build_issue_data] returns [{'fields': ...}]; the embedding returns
    the inner dictionary and [issue_data] puts the wrapper around it. *)
Definition _build_issue_data (jira_project : string) (fields : dict)
           (exclude_fields : list string) : M W dict :=
  build_fields jira_project exclude_fields fields [].

Definition issue_data (issue_fields : dict) : value :=
  VDict [("fields", VDict issue_fields)].

(** *** Creating one issue *)

(** [d.get(k)] on a dictionary. *)
Definition dict_get_default (d : dict) (k : string) (default : value) : value :=
  match dict_get d k with
  | Some v => v
  | None => default
  end.

(** The epic link or parent written into the creation body. *)
Definition set_epic_or_parent (jira_issue initial_fields : dict)
           (epic_key parent_key : value) : result dict :=
  if truthy epic_key
     && negb (py_eq (dict_get_default jira_issue "issuetype" VNone) (VStr "Sub-task"))
  then
    match dict_get (custom_field_mapping self) "epicLink" with
    | None => Raise (KeyError "epicLink")
    | Some entry =>
        epic_link <~ as_key entry ;;
        Ok (dict_set initial_fields epic_link epic_key)
    end
  else if py_eq (dict_get_default jira_issue "issuetype" VNone) (VStr "Sub-task")
          && truthy parent_key
  then Ok (dict_set initial_fields "parent" (VDict [("key", parent_key)]))
  else Ok initial_fields.

(** The loop over [jira_issue['issuelinks']]: each iteration only rebinds
    the locals [link_type] and [issue_parent_key]. *)
Fixpoint scan_issuelinks (links : list value) (bound : option (value * value))
  : result (option (value * value)) :=
  match links with
  | [] => Ok bound
  | link :: rest =>
      ty <~ getitem link "type" ;;
      link_type <~ get_method ty "name" (VStr "Related") ;;
      outward <~ getitem link "outwardIssue" ;;
      issue_parent_key <~ get_method outward "key" (VStr EmptyString) ;;
      scan_issuelinks rest (Some (link_type, issue_parent_key))
  end.

(** The [if 'issuelinks' in jira_issue.keys()] block: the call of
    [link_jira_issues] stands after the loop. *)
Definition link_issuelinks (jira_issue : dict) (issue_key : value) : M W unit :=
  match dict_get jira_issue "issuelinks" with
  | None => ret tt
  | Some issuelinks =>
      links <- lift (iter issuelinks) ;;
      bound <- lift (scan_issuelinks links None) ;;
      match bound with
      | None => raise (UnboundLocalError "link_type")
      | Some (link_type, issue_parent_key) =>
          link_jira_issues issue_key issue_parent_key link_type ;;; ret tt
      end
  end.

(** [set(jira_issue.keys()) - set(self.post_creation_update_fields)] *)
Definition fields_set_during_issue_creation (jira_issue : dict) : list string :=
  filter (fun k => negb (mem k (post_creation_update_fields self)))
         (dict_keys jira_issue).

(** The first block of [create_new_jira_issue]: the creation body, built
    without the post-creation fields, with the project and the epic link or
    parent written in. *)
Definition initial_issue_data (jira_project : string) (jira_issue : dict)
           (epic_key parent_key : value) : M W dict :=
  initial_fields <- _build_issue_data jira_project jira_issue
                                      (post_creation_update_fields self) ;;
  lift (set_epic_or_parent jira_issue
          (dict_set initial_fields "project" (VDict [("key", VStr jira_project)]))
          epic_key parent_key).

(** The block after the creation: the update with the post-creation
    fields, sent only if there is something to update. *)
Definition update_post_creation_fields (jira_project : string)
           (jira_issue : dict) (issue_key : value) : M W unit :=
  update_fields <- _build_issue_data jira_project jira_issue
                     (fields_set_during_issue_creation jira_issue) ;;
  if truthy (VDict update_fields) then
    send_request (Some "issue") None issue_key
                 (Some (issue_data update_fields)) "put" ;;; ret tt
  else ret tt.

Definition create_new_jira_issue (jira_project : string) (jira_issue : dict)
           (epic_key parent_key : value) : M W pyobj :=
  initial_fields <- initial_issue_data jira_project jira_issue
                                       epic_key parent_key ;;
  response_data <- send_request (Some "issue") None VNone
                                (Some (issue_data initial_fields)) "post" ;;
  issue_key <- lift (getitem_obj response_data "key") ;;
  if negb (truthy issue_key) then
    raise (ValueError "Failed to retrieve issue key from the Jira response")
  else
    update_post_creation_fields jira_project jira_issue issue_key ;;;
    link_issuelinks jira_issue issue_key ;;;
    ret response_data.

(** *** Walking the tree *)

Fixpoint for_each {A : Type} (l : list A) (body : A -> M W unit) : M W unit :=
  match l with
  | [] => ret tt
  | x :: rest => body x ;;; for_each rest body
  end.

(** [create_list_of_jira_issues].  [fuel] bounds the depth of the
    recursion, as the interpreter's recursion limit does. *)
Fixpoint create_list_of_jira_issues (fuel : nat) (jira_project : string)
         (jira_issues : value) (epic_key issue_parent_key : value)
  : M W unit :=
  match fuel with
  | O => raise RecursionError
  | Datatypes.S fuel' =>
      issues <- lift (iter jira_issues) ;;
      for_each issues (fun issue =>
        match issue with
        | VDict d =>
            (* the log line reads issue["issuetype"] and issue["summary"] *)
            issuetype <- lift (getitem issue "issuetype") ;;
            lift (getitem issue "summary") ;;;
            issue_create_response <-
              create_new_jira_issue jira_project d epic_key issue_parent_key ;;
            issue_key <- lift (getitem_obj issue_create_response "key") ;;
            (if truthy issue_parent_key
                && negb (py_eq issuetype (VStr "Sub-task"))
             then
               link_jira_issues issue_key issue_parent_key
                 (dict_get_default d "linkType" (VStr "Related")) ;;; ret tt
             else ret tt) ;;;
            match dict_get d "issues" with
            | Some children =>
                create_list_of_jira_issues fuel' jira_project children
                                           epic_key issue_key
            | None => ret tt
            end
        | _ => lift (getitem issue "issuetype") ;;; ret tt
        end)
  end.

(** [create_epics_and_issues]; its handler of [KeyError] logs and raises
    the same exception again. *)
Definition create_epics_and_issues (fuel : nat) (jira_project : string)
           (epics : value) : M W unit :=
  epic_list <- lift (iter epics) ;;
  for_each epic_list (fun epic =>
    match epic with
    | VDict d =>
        lift (getitem epic "epicName") ;;;
        epic_create_response <-
          create_new_jira_issue jira_project d VNone VNone ;;
        epic_key <- lift (getitem_obj epic_create_response "key") ;;
        match dict_get d "issues" with
        | Some children =>
            create_list_of_jira_issues fuel jira_project children epic_key VNone
        | None => ret tt
        end
    | _ => lift (getitem epic "epicName") ;;; ret tt
    end).
End Methods.

Arguments send_request {W} serve api_type custom_jira_api_base_url issue_key
  jira_request_data method.
Arguments get_project_id_by_key {W} serve project_key.
Arguments get_board_id_by_project_key {W} serve project_key.
Arguments get_sprint_id {W} serve board_id sprint_name.
Arguments link_jira_issues {W} serve issue_key issue_parent_key link_type.
Arguments build_field {W} serve self jira_project exclude_fields issue_fields
  field_name field_value.
Arguments build_fields {W} serve self jira_project exclude_fields items
  issue_fields.
Arguments _build_issue_data {W} serve self jira_project fields exclude_fields.
Arguments link_issuelinks {W} serve jira_issue issue_key.
Arguments initial_issue_data {W} serve self jira_project jira_issue
  epic_key parent_key.
Arguments update_post_creation_fields {W} serve self jira_project jira_issue
  issue_key.
Arguments create_new_jira_issue {W} serve self jira_project jira_issue
  epic_key parent_key.
Arguments for_each {W A} l body.
Arguments create_list_of_jira_issues {W} serve self fuel jira_project
  jira_issues epic_key issue_parent_key.
Arguments create_epics_and_issues {W} serve self fuel jira_project epics.

(** ** Vocabulary of the properties *)

(** Requests by kind. *)
Definition is_create_request (r : request) : bool :=
  match req_method r, req_url r with
  | POST, ApiUrl (Some api_type) None => String.eqb api_type "issue"
  | _, _ => false
  end.

Definition is_update_request (r : request) : bool :=
  match req_method r, req_url r with
  | PUT, ApiUrl (Some api_type) (Some _) => String.eqb api_type "issue"
  | _, _ => false
  end.

Definition is_link_request (r : request) : bool :=
  match req_method r, req_url r with
  | POST, ApiUrl (Some api_type) None => String.eqb api_type "issueLink"
  | _, _ => false
  end.

(** The three requests [create_new_jira_issue] can send on its own
    account. *)
Definition create_request (issue_fields : dict) : request :=
  mkRequest POST (ApiUrl (Some "issue") None) (Some (issue_data issue_fields)).

Definition update_request (issue_key : value) (issue_fields : dict) : request :=
  mkRequest PUT (ApiUrl (Some "issue") (Some issue_key))
            (Some (issue_data issue_fields)).

Definition link_request (issue_key issue_parent_key link_type : value) : request :=
  mkRequest POST (ApiUrl (Some "issueLink") None)
            (Some (link_data issue_key issue_parent_key link_type)).

(** A lookup: a GET without parameters. *)
Definition reads (r : request) : Prop :=
  req_method r = GET /\ req_data r = None.

(** The [fields] map a request body carries, if it carries one. *)
Definition body_fields (r : request) : option dict :=
  match req_data r with
  | Some (VDict body) =>
      match dict_get body "fields" with
      | Some (VDict issue_fields) => Some issue_fields
      | _ => None
      end
  | _ => None
  end.

(** The [fields] map of the first request of a kind in a trace. *)
Definition first_body (kind : request -> bool) (trace : list request)
  : option dict :=
  match filter kind trace with
  | r :: _ => body_fields r
  | [] => None
  end.

(** The first three tests of the loop of [_build_issue_data]. *)
Definition skipped (exclude_fields : list string) (field_name : string) : bool :=
  String.eqb field_name "issues"
  || mem field_name exclude_fields
  || String.eqb field_name "issuelinks".

Definition structural (field_name : string) : bool :=
  String.eqb field_name "issues" || String.eqb field_name "issuelinks".

(** A specification without its two structural entries. *)
Definition without_structural (fields : dict) : dict :=
  filter (fun entry => negb (structural (fst entry))) fields.

(** The key of [issue_data['fields']] under which a field that is not
    skipped is stored, when the configuration lets the loop reach a store. *)
Definition wire_key (self : Jira) (field_name : string) : option string :=
  if mem field_name (key_format_fields self) then Some field_name
  else if mem field_name (name_format_fields self) then Some field_name
  else
    match dict_get (custom_field_mapping self) field_name with
    | Some (WireId id) => Some id
    | Some (Table _) => None
    | None =>
        match dict_get (custom_field_mapping self) "key_format_fields" with
        | Some (Table key_table) =>
            match dict_get key_table field_name with
            | Some id => Some id
            | None =>
                match dict_get (custom_field_mapping self) "name_format_fields" with
                | Some (Table name_table) =>
                    match dict_get name_table field_name with
                    | Some id => Some id
                    | None => Some field_name
                    end
                | _ => None
                end
            end
        | _ => None
        end
    end.

(** The fourth and fifth tests of the loop: the wrapper a field listed in
    [key_format_fields] or, failing that, in [name_format_fields] gets. *)
Definition format_rule (self : Jira) (field_name : string) : option string :=
  if mem field_name (key_format_fields self) then Some "key"
  else if mem field_name (name_format_fields self) then Some "name"
  else None.

(** One single-entry object per entry of a mapping, [{entryKey: entryValue}]:
    the list the specification describes for a dict-valued field. *)
Definition spec_entry_objects (d : dict) : list value :=
  map (fun entry => VDict [(fst entry, snd entry)]) d.

(** A field counts as sent in a request body when the body has an entry
    under the field's wire key. *)
Definition sent_in (self : Jira) (body : option dict) (field_name : string)
  : bool :=
  match body, wire_key self field_name with
  | Some issue_fields, Some k => dict_mem issue_fields k
  | _, _ => false
  end.

(** No other field of the specification is stored under the wire key of
    [field_name]. *)
Definition unshared (self : Jira) (jira_issue : dict) (field_name : string)
  : Prop :=
  forall g, In g (dict_keys jira_issue) -> g <> field_name ->
            structural g = false ->
            wire_key self g <> wire_key self field_name.

(** Every wire field id the configuration can map a field to. *)
Definition wire_ids (self : Jira) : list string :=
  flat_map (fun entry =>
              match snd entry with
              | WireId id => [id]
              | Table t => map snd t
              end) (custom_field_mapping self).

(** The configuration maps no field to a wire field id that is one of the
    two structural keys. *)
Definition wire_ids_proper (self : Jira) : bool :=
  negb (mem "issues" (wire_ids self)) && negb (mem "issuelinks" (wire_ids self)).

(** The keys [create_new_jira_issue] itself writes into the creation body. *)
Definition injected_keys (self : Jira) : list string :=
  "project" :: "parent" ::
  match dict_get (custom_field_mapping self) "epicLink" with
  | Some (WireId id) => [id]
  | _ => []
  end.

(** A field matched by none of the tests that precede the two nested
    tables of [custom_field_mapping]. *)
Definition reaches_nested_tables (self : Jira) (exclude_fields : list string)
           (field_name : string) : bool :=
  negb (skipped exclude_fields field_name)
  && negb (mem field_name (key_format_fields self))
  && negb (mem field_name (name_format_fields self))
  && negb (dict_mem (custom_field_mapping self) field_name).

(** The nested table that the loop indexes for such a field and that the
    configuration does not have. *)
Definition missing_nested_table (self : Jira) (field_name : string)
  : option string :=
  match dict_get (custom_field_mapping self) "key_format_fields" with
  | None => Some "key_format_fields"
  | Some (Table key_table) =>
      match dict_get key_table field_name,
            dict_get (custom_field_mapping self) "name_format_fields" with
      | None, None => Some "name_format_fields"
      | _, _ => None
      end
  | Some (WireId _) => None
  end.

(** A sprint named [name] with id [id], as the agile API lists it. *)
Definition is_sprint (name : string) (id : value) (sprint : value) : Prop :=
  exists d, sprint = VDict d
            /\ dict_get d "name" = Some (VStr name)
            /\ dict_get d "id" = Some id.

(** A response whose non-empty body parses as JSON. *)
Definition json_response (status : Z) (body : value) : response :=
  mkResponse status "(json)" (Some body).

(** A request body is free of the two structural keys. *)
Definition clean (r : request) : Prop :=
  forall issue_fields,
    body_fields r = Some issue_fields ->
    dict_mem issue_fields "issues" = false
    /\ dict_mem issue_fields "issuelinks" = false.

(** A run that does not stop for lack of recursion depth. *)
Definition within_depth {W A : Type} (run : result A * list request * W) : Prop :=
  outcome_of run <> Raise RecursionError.

(** *** The nesting of a specification *)

(** The tree that the [issues] keys of a specification spell out. *)
Inductive tree : Type :=
| Node (spec : dict) (children : list tree).

Fixpoint all_some {A : Type} (l : list (option A)) : option (list A) :=
  match l with
  | [] => Some []
  | Some x :: rest => option_map (cons x) (all_some rest)
  | None :: _ => None
  end.

(** The forest under a list of specifications, for nesting of depth at
    most [fuel]. *)
Fixpoint forest_of (fuel : nat) (specs : value) : option (list tree) :=
  match fuel with
  | O => None
  | Datatypes.S fuel' =>
      match iter specs with
      | Raise _ => None
      | Ok items =>
          all_some
            (map (fun item =>
                    match item with
                    | VDict d =>
                        match dict_get d "issues" with
                        | Some children =>
                            option_map (Node d) (forest_of fuel' children)
                        | None => Some (Node d [])
                        end
                    | _ => None
                    end) items)
      end
  end.

(** Depth-first order, a node before its children, children in list order. *)
Fixpoint preorder (t : tree) : list dict :=
  match t with
  | Node spec children => spec :: flat_map preorder children
  end.

(** *** Relations between specifications and requests *)

Section Readings.
Variable W : Type.
Variable serve : W -> request -> outcome * W.
Variable self : Jira.

(** [r] is the request that creates the issue specified by [node], for
    some epic, some parent and some state of the tracker. *)
Definition creates (jira_project : string) (node : dict) (r : request) : Prop :=
  exists epic_key parent_key s issue_fields t s',
    initial_issue_data serve self jira_project node epic_key parent_key s
    = (Ok issue_fields, t, s')
    /\ r = create_request issue_fields.

(** The creation requests of a run are made, in order, for the first
    nodes of [nodes], and for all of them if the run succeeds. *)
Definition follows {A : Type} (jira_project : string) (nodes : list dict)
           (run : result A * list request * W) : Prop :=
  exists done rest,
    nodes = done ++ rest
    /\ Forall2 (creates jira_project) done
                (filter is_create_request (trace_of run))
    /\ (is_ok (outcome_of run) = true -> rest = []).

(** The split between creation and update as the specification words it:
    every field of the input that is listed in
    [post_creation_update_fields] is left out of the creation body and is
    in the update body, and every other field is in the creation body and
    is left out of the update body. *)
Definition deferral_as_stated (jira_project : string) (jira_issue : dict)
           (epic_key parent_key : value) (s : W) : Prop :=
  let trace :=
    trace_of (create_new_jira_issue serve self jira_project jira_issue
                                    epic_key parent_key s) in
  forall f, In f (dict_keys jira_issue) ->
    if mem f (post_creation_update_fields self) then
      sent_in self (first_body is_create_request trace) f = false
      /\ sent_in self (first_body is_update_request trace) f = true
    else
      sent_in self (first_body is_create_request trace) f = true
      /\ sent_in self (first_body is_update_request trace) f = false.
End Readings.

Arguments creates {W} serve self jira_project node r.
Arguments follows {W} serve self {A} jira_project nodes run.
Arguments deferral_as_stated {W} serve self jira_project jira_issue
  epic_key parent_key s.

(** ** The constructor *)

(** [jira_special_fields], as far as [__init__] reads it: each of the four
    entries may be missing. *)
Record special_fields : Type := mkSpecialFields {
  sf_name_format_fields : option (list string);
  sf_key_format_fields : option (list string);
  sf_custom_field_mapping : option (list (string * cfm_entry));
  sf_post_creation_update_fields : option (list string)
}.

(** The object [__init__] builds: the two URLs, the headers, and the four
    attributes the methods read. *)
Record jira_object : Type := mkJiraObject {
  jira_url : string;
  jira_api_base_url : string;
  headers : list (string * string);
  attributes : Jira
}.

(** How a construction ends: with the object, with an exception the class
    raises, or with the exception of [requests.get] itself, which is not
    caught. *)
Inductive construction : Type :=
| Constructed (self : jira_object)
| Failed (e : exn)
| TransportFailure.

(** [d.get(k, default)] for an entry that may be missing. *)
Definition get_or {A : Type} (entry : option A) (default : A) : A :=
  match entry with
  | Some a => a
  | None => default
  end.

Section Constructor.
Variable W : Type.
Variable serve : W -> request -> outcome * W.

(** [f'{self.jira_api_base_url}/myself'] *)
Definition validate_request : request :=
  mkRequest GET (ApiUrl (Some "myself") None) None.

(** [_validate_credentials]: one GET, made with [requests.get] directly;
    any status other than 200 is a failure. *)
Definition _validate_credentials (s : W) : option (result unit) * list request * W :=
  match serve s validate_request with
  | (Answer response, s') =>
      if negb (Z.eqb (status_code response) 200) then
        (Some (Raise (RuntimeError
                        "Failed to validate Jira URL or token. Check log for details.")),
         [validate_request], s')
      else (Some (Ok tt), [validate_request], s')
  | (NoResponse, s') => (None, [validate_request], s')
  end.

Definition __init__ (url api_base_url token : string)
           (jira_special_fields : special_fields) (s : W)
  : construction * list request * W :=
  let self :=
    mkJiraObject
      url
      (if String.prefix "/" api_base_url
       then (url ++ api_base_url)%string
       else (url ++ "/" ++ api_base_url)%string)
      [("Accept", "application/json");
       ("Authorization", ("Bearer " ++ token)%string);
       ("Content-Type", "application/json")]
      (mkJira (get_or (sf_name_format_fields jira_special_fields) [])
              (get_or (sf_key_format_fields jira_special_fields) [])
              (get_or (sf_custom_field_mapping jira_special_fields) [])
              (get_or (sf_post_creation_update_fields jira_special_fields) [])) in
  match _validate_credentials s with
  | (Some (Ok _), t, s') => (Constructed self, t, s')
  | (Some (Raise e), t, s') => (Failed e, t, s')
  | (None, t, s') => (TransportFailure, t, s')
  end.
End Constructor.

Arguments _validate_credentials {W} serve s.
Arguments __init__ {W} serve url api_base_url token jira_special_fields s.

Definition trace_of_construction {W : Type}
           (run : construction * list request * W) : list request :=
  snd (fst run).

(** ** Further vocabulary *)

(** A project with key [key] and id [id], as the project list has it. *)
Definition is_project (key : string) (id : value) (project : value) : Prop :=
  exists d, project = VDict d
            /\ dict_get d "key" = Some (VStr key)
            /\ dict_get d "id" = Some id.

(** The key under which the loop of [_build_issue_data] stores a field
    together with its value as it is: the wire id of a field mapped at the
    top level of [custom_field_mapping] (other than [sprint]), or the
    field's own name when no rule matches.  [None] for the fields that are
    skipped, wrapped, looked up, or that make the loop raise. *)
Definition verbatim_key (self : Jira) (exclude_fields : list string)
           (field_name : string) : option string :=
  if skipped exclude_fields field_name then None
  else
    match format_rule self field_name with
    | Some _ => None
    | None =>
        match dict_get (custom_field_mapping self) field_name with
        | Some (WireId id) =>
            if String.eqb field_name "sprint" then None else Some id
        | Some (Table _) => None
        | None =>
            match dict_get (custom_field_mapping self) "key_format_fields",
                  dict_get (custom_field_mapping self) "name_format_fields" with
            | Some (Table key_table), Some (Table name_table) =>
                if dict_mem key_table field_name || dict_mem name_table field_name
                then None
                else Some field_name
            | _, _ => None
            end
        end
    end.

(** The fields of a specification under their verbatim keys. *)
Fixpoint renamed (self : Jira) (exclude_fields : list string) (fields : dict)
  : dict :=
  match fields with
  | [] => []
  | (field_name, field_value) :: rest =>
      match verbatim_key self exclude_fields field_name with
      | Some k => (k, field_value) :: renamed self exclude_fields rest
      | None => renamed self exclude_fields rest
      end
  end.

(** The loop reaches the lookup of the sprint for this input. *)
Definition looks_up_sprint (self : Jira) (exclude_fields : list string)
           (fields : dict) : bool :=
  dict_mem fields "sprint"
  && negb (mem "sprint" exclude_fields)
  && match format_rule self "sprint" with Some _ => false | None => true end
  && dict_mem (custom_field_mapping self) "sprint".

Definition is_subtask (jira_issue : dict) : bool :=
  py_eq (dict_get_default jira_issue "issuetype" VNone) (VStr "Sub-task").

(** The link requests a completed walk makes for a node and what is
    nested in it: one for its [issuelinks], if it has the key, and one to
    its parent, if it has a parent and is not a Sub-task. *)
Fixpoint expected_links (has_parent : bool) (t : tree) : nat :=
  match t with
  | Node spec children =>
      (if has_parent && negb (is_subtask spec) then 1 else 0)
      + (if dict_mem spec "issuelinks" then 1 else 0)
      + list_sum (map (expected_links true) children)
  end.

(** The same for an epic, which has no parent and whose issues have
    none. *)
Definition expected_epic_links (t : tree) : nat :=
  match t with
  | Node spec children =>
      (if dict_mem spec "issuelinks" then 1 else 0)
      + list_sum (map (expected_links false) children)
  end.

(** Every request the walk can send is of one of six kinds. *)
Definition known_request (r : request) : Prop :=
  r = mkRequest GET (ApiUrl (Some "project") None) None
  \/ (exists project_id, r = mkRequest GET (BoardSearchUrl project_id) None)
  \/ (exists board_id, r = mkRequest GET (BoardSprintsUrl board_id) None)
  \/ (exists issue_fields, r = create_request issue_fields)
  \/ (exists issue_key issue_fields,
         truthy issue_key = true /\ r = update_request issue_key issue_fields)
  \/ (exists issue_key issue_parent_key link_type,
         r = link_request issue_key issue_parent_key link_type).

(** ** Trackers and inputs for the examples *)

(** A tracker that answers from a script. *)
Definition scripted (script : list outcome) (r : request)
  : outcome * list outcome :=
  match script with
  | o :: script' => (o, script')
  | [] => (NoResponse, [])
  end.

Definition created (key : string) : outcome :=
  Answer (json_response 201 (VDict [("id", VStr "10000"); ("key", VStr key)])).

Definition no_content (status : Z) : outcome :=
  Answer (mkResponse status EmptyString None).

Definition example_config : Jira :=
  mkJira ["assignee"; "priority"] ["components"]
         [("epicLink", WireId "customfield_10100");
          ("sprint", WireId "customfield_10104");
          ("key_format_fields", Table []);
          ("name_format_fields", Table [])]
         ["labels"].

(** A configuration without the two nested tables. *)
Definition bare_config : Jira :=
  mkJira ["assignee"; "priority"] ["components"]
         [("epicLink", WireId "customfield_10100")]
         ["labels"].

Definition two_links : value :=
  VList [VDict [("type", VDict [("name", VStr "Blocks")]);
                ("outwardIssue", VDict [("key", VStr "PROJ-1")])];
         VDict [("type", VDict [("name", VStr "Relates")]);
                ("outwardIssue", VDict [("key", VStr "PROJ-2")])]].

Definition linked_task : dict :=
  [("summary", VStr "Fix the build");
   ("issuetype", VStr "Task");
   ("issuelinks", two_links)].

Definition subtask_S : dict :=
  [("summary", VStr "S"); ("issuetype", VStr "Sub-task")].

Definition issue_I1 : dict :=
  [("summary", VStr "I1"); ("issuetype", VStr "Task");
   ("issues", VList [VDict subtask_S])].

Definition issue_I2 : dict :=
  [("summary", VStr "I2"); ("issuetype", VStr "Task")].

Definition epic_E : dict :=
  [("epicName", VStr "E"); ("summary", VStr "E"); ("issuetype", VStr "Epic");
   ("issues", VList [VDict issue_I1; VDict issue_I2])].

Definition example_epics : value := VList [VDict epic_E].

Definition example_forest : list tree :=
  [Node epic_E [Node issue_I1 [Node subtask_S []]; Node issue_I2 []]].

(** The summaries in the bodies of the creation requests of a trace. *)
Definition created_summaries (trace : list request) : list (option value) :=
  map (fun r => match body_fields r with
                | Some issue_fields => dict_get issue_fields "summary"
                | None => None
                end)
      (filter is_create_request trace).

Definition example_task : dict :=
  [("summary", VStr "Write the report");
   ("issuetype", VStr "Task");
   ("assignee", VStr "bob");
   ("labels", VList [VStr "docs"])].

Definition sprint_1 : value :=
  VDict [("id", VStr "10"); ("name", VStr "Sprint 1"); ("state", VStr "active")].

Definition sprint_board : outcome :=
  Answer (json_response 200 (VDict [("maxResults", VNum 50);
                                    ("values", VList [sprint_1])])).

(** A configuration that maps a field at the top level. *)
Definition mapped_config : Jira :=
  mkJira [] []
         [("storyPoints", WireId "customfield_10016");
          ("key_format_fields", Table []);
          ("name_format_fields", Table [])]
         [].

(** A configuration with entries in the two nested tables. *)
Definition nested_config : Jira :=
  mkJira [] []
         [("key_format_fields", Table [("team", "customfield_10200")]);
          ("name_format_fields", Table [("team", "customfield_10300");
                                        ("reviewer", "customfield_10301")])]
         [].

Definition project_list : outcome :=
  Answer (json_response 200
            (VList [VDict [("id", VStr "10001"); ("key", VStr "PROJ")]])).

Definition board_list : outcome :=
  Answer (json_response 200
            (VDict [("values", VList [VDict [("id", VNum 7)];
                                      VDict [("id", VNum 8)]])])).

(** [r] creates an issue under the epic [epic_key]: its body is the
    creation body built, with that epic key, for a specification that has
    the [issuetype] and [summary] keys, and the body carries the epic link
    when the rule for it applies. *)
Definition created_under {W : Type} (serve : W -> request -> outcome * W)
           (self : Jira) (jira_project : string) (epic_key : value)
           (r : request) : Prop :=
  exists node parent_key s issue_fields t s',
    dict_mem node "issuetype" = true
    /\ dict_mem node "summary" = true
    /\ initial_issue_data serve self jira_project node epic_key parent_key s
       = (Ok issue_fields, t, s')
    /\ r = create_request issue_fields
    /\ (truthy epic_key = true -> is_subtask node = false ->
        exists id,
          dict_get (custom_field_mapping self) "epicLink" = Some (WireId id)
          /\ dict_get issue_fields id = Some epic_key).

(** [r] creates an epic: its body is built without epic and parent for a
    specification that has the [epicName] key. *)
Definition creates_epic {W : Type} (serve : W -> request -> outcome * W)
           (self : Jira) (jira_project : string) (r : request) : Prop :=
  exists epic s issue_fields t s',
    dict_mem epic "epicName" = true
    /\ initial_issue_data serve self jira_project epic VNone VNone s
       = (Ok issue_fields, t, s')
    /\ r = create_request issue_fields.

(** An epic with a story, and under the story a task with links and a
    Sub-task. *)
Definition task_B : dict :=
  [("summary", VStr "B"); ("issuetype", VStr "Task");
   ("issuelinks", two_links)].

Definition story_A : dict :=
  [("summary", VStr "A"); ("issuetype", VStr "Story");
   ("issues", VList [VDict task_B; VDict subtask_S])].

Definition epic_N : dict :=
  [("epicName", VStr "N"); ("summary", VStr "N"); ("issuetype", VStr "Epic");
   ("issues", VList [VDict story_A])].

Definition nested_forest : list tree :=
  [Node epic_N [Node story_A [Node task_B []; Node subtask_S []]]].

(** [r] links an issue that is not a Sub-task to the issue it is nested
    in, with the [linkType] of its specification or [Related]. *)
Definition parent_link (r : request) : Prop :=
  exists node issue_key issue_parent_key,
    truthy issue_parent_key = true
    /\ is_subtask node = false
    /\ r = link_request issue_key issue_parent_key
                        (dict_get_default node "linkType" (VStr "Related")).

(** [r] is the link request made for the [issuelinks] of a
    specification: it carries what the loop over the links bound last. *)
Definition issuelinks_link (r : request) : Prop :=
  exists node issuelinks links issue_key issue_parent_key link_type,
    dict_get node "issuelinks" = Some issuelinks
    /\ iter issuelinks = Ok links
    /\ scan_issuelinks links None = Ok (Some (link_type, issue_parent_key))
    /\ r = link_request issue_key issue_parent_key link_type.

(** * Properties *)

(** ** The monad *)

Section MonadFacts.
Variable W : Type.

Lemma bind_ok_run {A B} (m : M W A) (f : A -> M W B) s a t1 s1 :
  m s = (Ok a, t1, s1) ->
  bind m f s = (fst (fst (f a s1)), t1 ++ snd (fst (f a s1)), snd (f a s1)).
Proof.
  intros H. unfold bind. rewrite H.
  destruct (f a s1) as [[r t2] s2]. reflexivity.
Qed.

Lemma bind_lift_ok {A B} (r : result A) (f : A -> M W B) s a :
  r = Ok a -> bind (lift r) f s = f a s.
Proof.
  intros ->. unfold bind, lift.
  destruct (f a s) as [[r t] s']. reflexivity.
Qed.

Lemma bind_lift_raise {A B} (r : result A) (f : A -> M W B) s e :
  r = Raise e -> bind (lift r) f s = (Raise e, [], s).
Proof. intros ->. reflexivity. Qed.

(** A successful sequence is made of two successful halves. *)
Lemma bind_ok_inv {A B} (m : M W A) (f : A -> M W B) s b t s' :
  bind m f s = (Ok b, t, s') ->
  exists a t1 s1 t2,
    m s = (Ok a, t1, s1) /\ f a s1 = (Ok b, t2, s') /\ t = t1 ++ t2.
Proof.
  unfold bind. destruct (m s) as [[[a|e] t1] s1]; [|discriminate].
  destruct (f a s1) as [[r t2] s2] eqn:E. intros H. inversion H; subst.
  exists a, t1, s1, t2. auto.
Qed.
End MonadFacts.

Arguments bind_ok_run {W A B} m f s a t1 s1.
Arguments bind_lift_ok {W A B} r f s a.
Arguments bind_lift_raise {W A B} r f s e.
Arguments bind_ok_inv {W A B} m f s b t s'.

(** ** Transport *)

Section Transport.
Variable W : Type.
Variable serve : W -> request -> outcome * W.

(** A request with one of the three allowed methods reaches the tracker,
    and the answer decides the outcome. *)
Lemma send_request_answer api_type custom issue_key data method s r s' :
  mem (lower method) ["post"; "put"; "get"] = true ->
  serve s (mkRequest (http_method_of (lower method))
                     (request_url api_type custom issue_key method) data)
  = (Answer r, s') ->
  send_request serve api_type custom issue_key data method s =
  (handle_outcome (Answer r),
   [mkRequest (http_method_of (lower method))
              (request_url api_type custom issue_key method) data], s').
Proof.
  intros Hm Hs. unfold send_request. rewrite Hm. cbn [negb].
  unfold bind, http, lift. rewrite Hs. reflexivity.
Qed.

(** Whatever happens, [send_request] sends at most the one request it was
    asked to send. *)
Lemma send_request_trace api_type custom issue_key data method s :
  trace_of (send_request serve api_type custom issue_key data method s) = []
  \/ trace_of (send_request serve api_type custom issue_key data method s)
     = [mkRequest (http_method_of (lower method))
                  (request_url api_type custom issue_key method) data].
Proof.
  unfold send_request.
  destruct (negb (mem (lower method) ["post"; "put"; "get"]));
    [left; reflexivity|].
  right. unfold bind, http, lift, trace_of.
  destruct (serve s _) as [o s1]. reflexivity.
Qed.

Lemma success_status_passes r :
  (200 <= status_code r < 300)%Z -> raises_for_status r = false.
Proof.
  intros H. unfold raises_for_status.
  apply andb_false_iff. left. apply Z.leb_gt. lia.
Qed.

(** C9, as the code has it.  A response with a success status and an
    empty body does not raise, and what [send_request] returns for it is
    the [Response] object of the transport itself: neither an empty
    dictionary nor [None]. *)
Theorem send_request_empty_body_returns_response
        api_type custom issue_key data method s r s' :
  mem (lower method) ["post"; "put"; "get"] = true ->
  serve s (mkRequest (http_method_of (lower method))
                     (request_url api_type custom issue_key method) data)
  = (Answer r, s') ->
  (200 <= status_code r < 300)%Z ->
  text r = EmptyString ->
  outcome_of (send_request serve api_type custom issue_key data method s)
  = Ok (RawResponse (status_code r)).
Proof.
  intros Hm Hs Hst Htxt.
  rewrite (send_request_answer _ _ _ _ _ _ _ _ Hm Hs).
  unfold outcome_of, handle_outcome. simpl.
  rewrite (success_status_passes _ Hst), Htxt. reflexivity.
Qed.
End Transport.

Lemma send_request_empty_body_witness :
  outcome_of (send_request scripted (Some "issueLink") None VNone
                (Some (link_data (VStr "PROJ-2") (VStr "PROJ-1") (VStr "Related")))
                "post" [no_content 201])
  = Ok (RawResponse 201).
Proof.
  apply (send_request_empty_body_returns_response
           (list outcome) scripted (Some "issueLink") None VNone
           (Some (link_data (VStr "PROJ-2") (VStr "PROJ-1") (VStr "Related")))
           "post" [no_content 201] (mkResponse 201 EmptyString None) []).
  - reflexivity.
  - reflexivity.
  - simpl. lia.
  - reflexivity.
Defined.

(** ** Lookups *)

Section Lookups.
Variable W : Type.
Variable serve : W -> request -> outcome * W.

Lemma getitem_sprint name id sprint :
  is_sprint name id sprint ->
  getitem sprint "name" = Ok (VStr name) /\ getitem sprint "id" = Ok id.
Proof.
  intros (d & -> & Hn & Hi). simpl. now rewrite Hn, Hi.
Qed.

(** The scan stops at the first sprint whose name is the one asked for. *)
Lemma find_sprint_first described before name id after sprints :
  Forall2 (fun sp v => is_sprint (fst sp) (snd sp) v) described sprints ->
  described = before ++ (name, id) :: after ->
  ~ In name (map fst before) ->
  find_sprint sprints (VStr name) = Ok id.
Proof.
  intros HF. revert before.
  induction HF as [|[n i] v described sprints Hv HF IH]; intros before Heq Hnot.
  - destruct before; discriminate.
  - destruct (getitem_sprint _ _ _ Hv) as [Hn Hi]. simpl in Hn, Hi.
    destruct before as [|[n' i'] before]; simpl in Heq; inversion Heq; subst.
    + simpl. rewrite Hn. simpl. rewrite String.eqb_refl. exact Hi.
    + simpl. rewrite Hn. simpl.
      destruct (String.eqb_spec n' name) as [->|Hne].
      * exfalso. apply Hnot. now left.
      * apply (IH before); [reflexivity|].
        intros Hin. apply Hnot. now right.
Qed.

Lemma find_sprint_absent described name sprints :
  Forall2 (fun sp v => is_sprint (fst sp) (snd sp) v) described sprints ->
  ~ In name (map fst described) ->
  find_sprint sprints (VStr name) = Ok VNone.
Proof.
  induction 1 as [|[n i] v described sprints Hv HF IH]; intros Hnot.
  - reflexivity.
  - destruct (getitem_sprint _ _ _ Hv) as [Hn _]. simpl in Hn.
    simpl. rewrite Hn. simpl.
    destruct (String.eqb_spec n name) as [->|Hne].
    + exfalso. apply Hnot. now left.
    + apply IH. intros Hin. apply Hnot. now right.
Qed.

Lemma in_first_occurrence (name : string) (l : list (string * value)) :
  In name (map fst l) ->
  exists before id after,
    l = before ++ (name, id) :: after /\ ~ In name (map fst before).
Proof.
  induction l as [|[n i] l IH]; intros Hin; [contradiction|].
  destruct (String.eqb_spec n name) as [->|Hne].
  - exists [], i, l. split; [reflexivity|]. intros [].
  - destruct Hin as [Heq|Hin]; [contradiction|].
    destruct (IH Hin) as (before & id & after & -> & Hnot).
    exists ((n, i) :: before), id, after. split; [reflexivity|].
    intros [Heq|Hin']; [contradiction|]. now apply Hnot.
Qed.

Lemma get_sprint_id_run board_id sprint_name s r body sprints s' :
  serve s (mkRequest GET (BoardSprintsUrl board_id) None) = (Answer r, s') ->
  (200 <= status_code r < 300)%Z ->
  text r <> EmptyString ->
  json r = Some (VDict body) ->
  dict_get body "values" = Some (VList sprints) ->
  get_sprint_id serve board_id sprint_name s
  = (find_sprint sprints sprint_name,
     [mkRequest GET (BoardSprintsUrl board_id) None], s').
Proof.
  intros Hs Hst Htxt Hjson Hv. unfold get_sprint_id.
  erewrite bind_ok_run.
  2:{ erewrite send_request_answer; [|reflexivity|exact Hs].
      unfold handle_outcome. rewrite success_status_passes by exact Hst.
      apply String.eqb_neq in Htxt. rewrite Htxt, Hjson. reflexivity. }
  simpl. rewrite Hv. reflexivity.
Qed.

(** C7.  On a board whose sprint list the tracker returns, looking up a
    name that a sprint of the list carries returns the id of such a
    sprint, the first one with that name; looking up a name that no
    sprint carries returns [None] and raises nothing.  Names are compared
    as strings, character by character. *)
Theorem get_sprint_id_by_exact_name board_id name s r body described
        sprints s' :
  serve s (mkRequest GET (BoardSprintsUrl board_id) None) = (Answer r, s') ->
  (200 <= status_code r < 300)%Z ->
  text r <> EmptyString ->
  json r = Some (VDict body) ->
  dict_get body "values" = Some (VList sprints) ->
  Forall2 (fun sp v => is_sprint (fst sp) (snd sp) v) described sprints ->
  (In name (map fst described) ->
   exists before id after,
     described = before ++ (name, id) :: after
     /\ ~ In name (map fst before)
     /\ outcome_of (get_sprint_id serve board_id (VStr name) s) = Ok id)
  /\ (~ In name (map fst described) ->
      outcome_of (get_sprint_id serve board_id (VStr name) s) = Ok VNone).
Proof.
  intros Hs Hst Htxt Hjson Hv HF.
  rewrite (get_sprint_id_run _ _ _ _ _ _ _ Hs Hst Htxt Hjson Hv).
  unfold outcome_of. simpl. split.
  - intros Hin.
    destruct (in_first_occurrence _ _ Hin) as (before & id & after & Heq & Hnot).
    exists before, id, after. repeat split; auto.
    eapply find_sprint_first; eauto.
  - intros Hnot. eapply find_sprint_absent; eauto.
Qed.
End Lookups.

Lemma get_sprint_id_witness :
  outcome_of (get_sprint_id scripted (VNum 7) (VStr "Sprint 1") [sprint_board])
  = Ok (VStr "10")
  /\ outcome_of (get_sprint_id scripted (VNum 7) (VStr "Sprint 9") [sprint_board])
     = Ok VNone.
Proof.
  assert (HF : Forall2 (fun sp v => is_sprint (fst sp) (snd sp) v)
                       [("Sprint 1", VStr "10")] [sprint_1]).
  { constructor; [|constructor]. eexists. repeat split; reflexivity. }
  split.
  - destruct (get_sprint_id_by_exact_name
                (list outcome) scripted (VNum 7) "Sprint 1" [sprint_board]
                (json_response 200 (VDict [("maxResults", VNum 50);
                                           ("values", VList [sprint_1])]))
                [("maxResults", VNum 50); ("values", VList [sprint_1])]
                [("Sprint 1", VStr "10")] [sprint_1] [])
      as [Hfound _];
      [reflexivity | simpl; lia | discriminate | reflexivity | reflexivity
       | exact HF |].
    destruct Hfound as (before & id & after & Heq & _ & Hrun); [now left|].
    rewrite Hrun. f_equal.
    destruct before as [|x [|y before]]; inversion Heq; subst; reflexivity.
  - destruct (get_sprint_id_by_exact_name
                (list outcome) scripted (VNum 7) "Sprint 9" [sprint_board]
                (json_response 200 (VDict [("maxResults", VNum 50);
                                           ("values", VList [sprint_1])]))
                [("maxResults", VNum 50); ("values", VList [sprint_1])]
                [("Sprint 1", VStr "10")] [sprint_1] [])
      as [_ Habsent];
      [reflexivity | simpl; lia | discriminate | reflexivity | reflexivity
       | exact HF |].
    apply Habsent. simpl. intros [H|[]]. discriminate.
Defined.

(** The comparison of names distinguishes upper and lower case. *)
Example get_sprint_id_is_case_sensitive :
  outcome_of (get_sprint_id scripted (VNum 7) (VStr "sprint 1") [sprint_board])
  = Ok VNone.
Proof. reflexivity. Qed.

(** ** Traces *)

Section Traces.
Variable W : Type.
Variable serve : W -> request -> outcome * W.
Variable P : request -> Prop.

(** A property of requests holds along a sequence when it holds along
    both halves. *)
Lemma bind_Forall {A B} (m : M W A) (f : A -> M W B) s :
  Forall P (trace_of (m s)) ->
  (forall a t1 s1, m s = (Ok a, t1, s1) -> Forall P (trace_of (f a s1))) ->
  Forall P (trace_of (bind m f s)).
Proof.
  intros Hm Hf. unfold bind.
  destruct (m s) as [[[a|e] t1] s1] eqn:E; [|exact Hm].
  specialize (Hf a t1 s1 eq_refl).
  destruct (f a s1) as [[r t2] s2]. unfold trace_of in *. simpl in *.
  apply Forall_app. auto.
Qed.

Lemma lift_Forall {A} (r : result A) (s : W) : Forall P (trace_of (lift r s)).
Proof. constructor. Qed.

Lemma ret_Forall {A} (a : A) (s : W) : Forall P (trace_of (ret a s)).
Proof. constructor. Qed.

Lemma raise_Forall {A} (e : exn) (s : W) :
  Forall P (trace_of (@raise W A e s)).
Proof. constructor. Qed.

Lemma send_request_Forall api_type custom issue_key data method s :
  P (mkRequest (http_method_of (lower method))
               (request_url api_type custom issue_key method) data) ->
  Forall P (trace_of (send_request serve api_type custom issue_key data method s)).
Proof.
  intros H.
  destruct (send_request_trace W serve api_type custom issue_key data method s)
    as [-> | ->]; repeat constructor; exact H.
Qed.

Lemma for_each_Forall {A} (l : list A) (body : A -> M W unit) s :
  (forall x s1, In x l -> Forall P (trace_of (body x s1))) ->
  Forall P (trace_of (for_each l body s)).
Proof.
  revert s. induction l as [|x l IH]; intros s H; simpl.
  - constructor.
  - apply bind_Forall.
    + apply H. now left.
    + intros _ t1 s1 _. apply IH. intros y s2 Hy. apply H. now right.
Qed.
End Traces.

Arguments bind_Forall {W} P {A B} m f s.
Arguments lift_Forall {W} P {A} r s.
Arguments ret_Forall {W} P {A} a s.
Arguments raise_Forall {W} P {A} e s.
Arguments send_request_Forall {W} serve P api_type custom issue_key data method s.
Arguments for_each_Forall {W} P {A} l body s.

(** ** Dictionaries *)

Section DictFacts.
Context {A : Type}.
Implicit Types d : list (string * A).

Lemma dict_get_set_same d k v : dict_get (dict_set d k v) k = Some v.
Proof.
  induction d as [|[k' v'] d IH]; simpl.
  - now rewrite String.eqb_refl.
  - destruct (String.eqb_spec k k') as [->|Hne]; simpl.
    + now rewrite String.eqb_refl.
    + destruct (String.eqb_spec k k'); [contradiction|exact IH].
Qed.

Lemma dict_get_set_other d k v k' :
  k' <> k -> dict_get (dict_set d k v) k' = dict_get d k'.
Proof.
  intros Hne. induction d as [|[k0 v0] d IH]; simpl.
  - destruct (String.eqb_spec k' k); [contradiction|reflexivity].
  - destruct (String.eqb_spec k k0) as [->|Hk]; simpl.
    + destruct (String.eqb_spec k' k0); [contradiction|reflexivity].
    + destruct (String.eqb_spec k' k0); [reflexivity|exact IH].
Qed.

Lemma dict_mem_get d k :
  dict_mem d k = match dict_get d k with Some _ => true | None => false end.
Proof.
  unfold dict_mem, mem, dict_keys.
  induction d as [|[k' v'] d IH]; simpl; [reflexivity|].
  destruct (String.eqb k k'); [reflexivity|exact IH].
Qed.

Lemma dict_mem_set d k v k' :
  dict_mem (dict_set d k v) k' = String.eqb k' k || dict_mem d k'.
Proof.
  rewrite !dict_mem_get.
  destruct (String.eqb_spec k' k) as [->|Hne].
  - now rewrite dict_get_set_same.
  - now rewrite dict_get_set_other.
Qed.
End DictFacts.

Lemma mem_In x names : mem x names = true <-> In x names.
Proof.
  unfold mem. rewrite existsb_exists. split.
  - intros (y & Hy & Heq). apply String.eqb_eq in Heq. now subst.
  - intros H. exists x. split; [exact H|apply String.eqb_refl].
Qed.

(** ** Field translation *)

Section Translation.
Variable W : Type.
Variable serve : W -> request -> outcome * W.
Variable self : Jira.

Lemma get_project_id_by_key_reads project_key s :
  Forall reads (trace_of (get_project_id_by_key serve project_key s)).
Proof.
  unfold get_project_id_by_key.
  apply bind_Forall; [apply send_request_Forall; split; reflexivity|].
  intros response _ s1 _.
  apply bind_Forall; [apply lift_Forall|].
  intros projects _ s2 _. apply lift_Forall.
Qed.

Lemma get_board_id_by_project_key_reads project_key s :
  Forall reads (trace_of (get_board_id_by_project_key serve project_key s)).
Proof.
  unfold get_board_id_by_project_key.
  apply bind_Forall; [apply get_project_id_by_key_reads|].
  intros project_id _ s1 _.
  apply bind_Forall; [apply send_request_Forall; split; reflexivity|].
  intros response _ s2 _.
  apply bind_Forall; [apply lift_Forall|].
  intros values _ s3 _.
  apply bind_Forall; [apply lift_Forall|].
  intros [|board boards] _ s4 _; [apply raise_Forall|apply lift_Forall].
Qed.

Lemma get_sprint_id_reads board_id sprint_name s :
  Forall reads (trace_of (get_sprint_id serve board_id sprint_name s)).
Proof.
  unfold get_sprint_id.
  apply bind_Forall; [apply send_request_Forall; split; reflexivity|].
  intros response _ s1 _.
  apply bind_Forall; [apply lift_Forall|].
  intros values _ s2 _.
  apply bind_Forall; [apply lift_Forall|].
  intros sprints _ s3 _. apply lift_Forall.
Qed.

Ltac store_reads :=
  apply bind_Forall; [apply lift_Forall|]; intros; apply ret_Forall.

(** Translating a field only reads from the tracker. *)
Lemma build_field_reads jira_project exclude_fields issue_fields field_name
      field_value s :
  Forall reads (trace_of (build_field serve self jira_project exclude_fields
                                      issue_fields field_name field_value s)).
Proof.
  unfold build_field.
  destruct (field_name =? "issues")%string; [apply ret_Forall|].
  destruct (mem field_name exclude_fields); [apply ret_Forall|].
  destruct (field_name =? "issuelinks")%string; [apply ret_Forall|].
  destruct (mem field_name (key_format_fields self)); [store_reads|].
  destruct (mem field_name (name_format_fields self)); [store_reads|].
  destruct (dict_get (custom_field_mapping self) field_name) as [entry|].
  - destruct (field_name =? "sprint")%string; [|store_reads].
    apply bind_Forall; [apply get_board_id_by_project_key_reads|].
    intros board _ s1 _.
    apply bind_Forall; [apply get_sprint_id_reads|].
    intros sprint_id _ s2 _. store_reads.
  - destruct (dict_get (custom_field_mapping self) "key_format_fields")
      as [[id|key_table]|]; try apply raise_Forall.
    destruct (dict_get key_table field_name); [store_reads|].
    destruct (dict_get (custom_field_mapping self) "name_format_fields")
      as [[id|name_table]|]; try apply raise_Forall.
    destruct (dict_get name_table field_name); [store_reads|apply ret_Forall].
Qed.

Lemma build_fields_reads jira_project exclude_fields items issue_fields s :
  Forall reads (trace_of (build_fields serve self jira_project exclude_fields
                                       items issue_fields s)).
Proof.
  revert issue_fields s.
  induction items as [|[n v] items IH]; intros issue_fields s; simpl.
  - apply ret_Forall.
  - apply bind_Forall; [apply build_field_reads|].
    intros acc _ s1 _. apply IH.
Qed.

(** A skipped field leaves [issue_data['fields']] as it is and sends
    nothing. *)
Lemma build_field_skipped jira_project exclude_fields issue_fields field_name
      field_value s :
  skipped exclude_fields field_name = true ->
  build_field serve self jira_project exclude_fields issue_fields field_name
              field_value s
  = (Ok issue_fields, [], s).
Proof.
  unfold skipped, build_field. intros H.
  destruct (field_name =? "issues")%string; [reflexivity|].
  destruct (mem field_name exclude_fields); [reflexivity|].
  destruct (field_name =? "issuelinks")%string; [reflexivity|discriminate].
Qed.

Lemma store_ok_inv (r : result value) (issue_fields : dict) (k : string)
      (s : W) out t s' :
  bind (lift r) (fun v => ret (dict_set issue_fields k v)) s = (Ok out, t, s') ->
  exists v, r = Ok v /\ out = dict_set issue_fields k v /\ t = [] /\ s' = s.
Proof.
  destruct r as [v|e]; unfold bind, lift, ret; simpl; intros H;
    inversion H; subst. eauto.
Qed.

Lemma store_under_entry_inv entry (x : value) (issue_fields : dict) (s : W)
      out t s' :
  bind (lift (as_key entry)) (fun k => ret (dict_set issue_fields k x)) s
  = (Ok out, t, s') ->
  exists k, entry = WireId k /\ out = dict_set issue_fields k x.
Proof.
  destruct entry as [k|tbl]; unfold bind, lift, ret; simpl; intros H;
    inversion H; subst. eauto.
Qed.

(** A field that is not skipped and whose translation succeeds is stored
    under its wire key. *)
Lemma build_field_stores jira_project exclude_fields issue_fields field_name
      field_value s out t s' :
  build_field serve self jira_project exclude_fields issue_fields field_name
              field_value s = (Ok out, t, s') ->
  skipped exclude_fields field_name = false ->
  exists k v, wire_key self field_name = Some k
              /\ out = dict_set issue_fields k v.
Proof.
  unfold skipped, build_field, wire_key. intros H Hskip.
  destruct (field_name =? "issues")%string; [discriminate|].
  destruct (mem field_name exclude_fields); [discriminate|].
  destruct (field_name =? "issuelinks")%string; [discriminate|].
  clear Hskip.
  destruct (mem field_name (key_format_fields self)).
  { apply store_ok_inv in H. destruct H as (v & _ & -> & _). eauto. }
  destruct (mem field_name (name_format_fields self)).
  { apply store_ok_inv in H. destruct H as (v & _ & -> & _). eauto. }
  destruct (dict_get (custom_field_mapping self) field_name) as [entry|].
  - destruct (field_name =? "sprint")%string.
    + apply bind_ok_inv in H. destruct H as (board & t1 & s1 & t2 & _ & H & _).
      apply bind_ok_inv in H. destruct H as (sid & t3 & s2 & t4 & _ & H & _).
      apply store_under_entry_inv in H. destruct H as (k & -> & ->). eauto.
    + apply store_under_entry_inv in H. destruct H as (k & -> & ->). eauto.
  - destruct (dict_get (custom_field_mapping self) "key_format_fields")
      as [[id|key_table]|]; try discriminate.
    destruct (dict_get key_table field_name) as [k|].
    { apply store_ok_inv in H. destruct H as (v & _ & -> & _). eauto. }
    destruct (dict_get (custom_field_mapping self) "name_format_fields")
      as [[id|name_table]|]; try discriminate.
    destruct (dict_get name_table field_name) as [k|].
    { apply store_ok_inv in H. destruct H as (v & _ & -> & _). eauto. }
    inversion H; subst. eauto.
Qed.

(** The keys of a successful translation: those it started from and the
    wire keys of the fields it did not skip. *)
Lemma build_fields_keys jira_project exclude_fields items :
  forall issue_fields s out t s',
    build_fields serve self jira_project exclude_fields items issue_fields s
    = (Ok out, t, s') ->
    forall k,
      dict_mem out k = true <->
      (dict_mem issue_fields k = true
       \/ exists g, In g (dict_keys items)
                    /\ skipped exclude_fields g = false
                    /\ wire_key self g = Some k).
Proof.
  induction items as [|[n v] items IH]; intros acc s out t s' H k; simpl in H.
  - inversion H; subst. split; [auto|]. intros [Hk|(g & [] & _)]. exact Hk.
  - apply bind_ok_inv in H. destruct H as (acc1 & t1 & s1 & t2 & H1 & H2 & _).
    rewrite (IH _ _ _ _ _ H2 k). clear IH H2.
    destruct (skipped exclude_fields n) eqn:Hskip.
    + rewrite build_field_skipped in H1 by exact Hskip. inversion H1; subst.
      split.
      * intros [Hk|(g & Hg & Hs & Hw)]; [now left|].
        right. exists g. simpl. auto.
      * intros [Hk|(g & [Hg|Hg] & Hs & Hw)]; [now left| |].
        -- simpl in Hg. subst g. congruence.
        -- right. exists g. auto.
    + destruct (build_field_stores _ _ _ _ _ _ _ _ _ H1 Hskip)
        as (k1 & x & Hw1 & ->).
      rewrite dict_mem_set. split.
      * intros [Hk|(g & Hg & Hs & Hw)].
        -- apply orb_true_iff in Hk. destruct Hk as [Hk|Hk]; [|now left].
           apply String.eqb_eq in Hk. subst k1.
           right. exists n. simpl. auto.
        -- right. exists g. simpl. auto.
      * intros [Hk|(g & [Hg|Hg] & Hs & Hw)].
        -- left. rewrite Hk. apply orb_true_r.
        -- simpl in Hg. subst g. left.
           assert (k1 = k) by congruence. subst.
           now rewrite String.eqb_refl.
        -- right. exists g. auto.
Qed.

(** Fields that are not stored under [k] leave the entry for [k] alone. *)
Lemma build_fields_frame jira_project exclude_fields items k :
  forall issue_fields s out t s',
    build_fields serve self jira_project exclude_fields items issue_fields s
    = (Ok out, t, s') ->
    (forall g, In g (dict_keys items) -> skipped exclude_fields g = false ->
               wire_key self g <> Some k) ->
    dict_get out k = dict_get issue_fields k.
Proof.
  induction items as [|[n v] items IH]; intros acc s out t s' H Hfree; simpl in H.
  - inversion H; subst. reflexivity.
  - apply bind_ok_inv in H. destruct H as (acc1 & t1 & s1 & t2 & H1 & H2 & _).
    rewrite (IH _ _ _ _ _ H2).
    2:{ intros g Hg. apply Hfree. now right. }
    destruct (skipped exclude_fields n) eqn:Hskip.
    + rewrite build_field_skipped in H1 by exact Hskip. now inversion H1.
    + destruct (build_field_stores _ _ _ _ _ _ _ _ _ H1 Hskip)
        as (k1 & x & Hw1 & ->).
      apply dict_get_set_other. intros ->.
      apply (Hfree n); [now left|exact Hskip|exact Hw1].
Qed.

Lemma structural_skipped exclude_fields k :
  structural k = true -> skipped exclude_fields k = true.
Proof.
  unfold structural, skipped.
  destruct (k =? "issues")%string; [reflexivity|].
  destruct (k =? "issuelinks")%string; [|discriminate].
  intros _. apply orb_true_r.
Qed.

(** The entries under [issues] and [issuelinks] play no part in a
    translation. *)
Lemma build_fields_ignores_structural jira_project exclude_fields items :
  forall issue_fields s,
    build_fields serve self jira_project exclude_fields items issue_fields s
    = build_fields serve self jira_project exclude_fields
                   (without_structural items) issue_fields s.
Proof.
  induction items as [|[n v] items IH]; intros acc s; [reflexivity|].
  unfold without_structural. cbn [filter fst build_fields].
  destruct (structural n) eqn:Hn; cbn [negb].
  - unfold bind at 1.
    rewrite build_field_skipped by now apply structural_skipped.
    rewrite IH. unfold without_structural.
    now destruct (build_fields _ _ _ _ _ _ _) as [[r t] s'].
  - cbn [build_fields]. unfold bind.
    destruct (build_field _ _ _ _ _ _ _ _) as [[[acc1|e] t1] s1];
      [|reflexivity].
    now rewrite IH.
Qed.

(** What the loop does with a field of [key_format_fields] or
    [name_format_fields]. *)
Lemma build_field_format jira_project exclude_fields issue_fields field_name
      field_value key_type s :
  skipped exclude_fields field_name = false ->
  format_rule self field_name = Some key_type ->
  build_field serve self jira_project exclude_fields issue_fields field_name
              field_value s
  = (v <~ transform_field_value field_value key_type ;;
     Ok (dict_set issue_fields field_name v), [], s).
Proof.
  unfold skipped, format_rule, build_field. intros Hskip Hrule.
  destruct (field_name =? "issues")%string; [discriminate|].
  destruct (mem field_name exclude_fields); [discriminate|].
  destruct (field_name =? "issuelinks")%string; [discriminate|].
  destruct (mem field_name (key_format_fields self)).
  - inversion Hrule; subst.
    destruct (transform_field_value field_value "key"); reflexivity.
  - destruct (mem field_name (name_format_fields self)); [|discriminate].
    inversion Hrule; subst.
    destruct (transform_field_value field_value "name"); reflexivity.
Qed.

Lemma transform_scalar field_value key_type :
  is_dict field_value = false ->
  transform_field_value field_value key_type
  = Ok (VDict [(key_type, field_value)]).
Proof. destruct field_value; simpl; intros H; try reflexivity. discriminate. Qed.

(** The last field stored under a key decides the entry for that key. *)
Lemma build_fields_writer jira_project exclude_fields k x f v items :
  (forall acc s,
      build_field serve self jira_project exclude_fields acc f v s
      = (Ok (dict_set acc k x), [], s)) ->
  NoDup (dict_keys items) ->
  In (f, v) items ->
  (forall g, In g (dict_keys items) -> g <> f ->
             skipped exclude_fields g = false -> wire_key self g <> Some k) ->
  forall issue_fields s out t s',
    build_fields serve self jira_project exclude_fields items issue_fields s
    = (Ok out, t, s') ->
    dict_get out k = Some x.
Proof.
  intros Hstore. induction items as [|[n w] items IH];
    intros Hnd Hin Hfree acc s out t s' H; [contradiction|].
  simpl in H. apply bind_ok_inv in H.
  destruct H as (acc1 & t1 & s1 & t2 & H1 & H2 & _).
  inversion Hnd as [|? ? Hnot Hnd']; subst.
  destruct Hin as [Heq|Hin].
  - inversion Heq; subst. rewrite Hstore in H1. inversion H1; subst.
    rewrite (build_fields_frame _ _ _ _ _ _ _ _ _ H2).
    + apply dict_get_set_same.
    + intros g Hg. apply Hfree; [now right|].
      intros ->. now apply Hnot.
  - apply (IH Hnd' Hin) with (issue_fields := acc1) (s := s1) (t := t2) (s' := s');
      [|exact H2].
    intros g Hg. apply Hfree. now right.
Qed.

(** C5.  A field listed in [key_format_fields] with a value that is not a
    mapping is translated to [{key: value}], and a field listed in
    [name_format_fields] (and not in [key_format_fields], which is tested
    first) to [{name: value}].  This is the whole translation of a map with
    just that field, and in any translation that succeeds it is the entry
    under the field's name, provided the field is not one the loop skips
    and no other field of the input is stored under that name. *)
Theorem format_fields_wrap_scalars jira_project exclude_fields f v key_type :
  (key_type = "key" /\ mem f (key_format_fields self) = true)
  \/ (key_type = "name" /\ mem f (key_format_fields self) = false
                        /\ mem f (name_format_fields self) = true) ->
  is_dict v = false ->
  skipped exclude_fields f = false ->
  (forall s,
      _build_issue_data serve self jira_project [(f, v)] exclude_fields s
      = (Ok [(f, VDict [(key_type, v)])], [], s))
  /\ (forall fields s out t s',
         NoDup (dict_keys fields) ->
         In (f, v) fields ->
         (forall g, In g (dict_keys fields) -> g <> f ->
                    skipped exclude_fields g = false ->
                    wire_key self g <> Some f) ->
         _build_issue_data serve self jira_project fields exclude_fields s
         = (Ok out, t, s') ->
         dict_get out f = Some (VDict [(key_type, v)])).
Proof.
  intros Hlisted Hscalar Hskip.
  assert (Hrule : format_rule self f = Some key_type).
  { unfold format_rule.
    destruct Hlisted as [[-> Hk]|(-> & Hk & Hn)]; rewrite Hk; [reflexivity|].
    now rewrite Hn. }
  assert (Hstore : forall acc s,
             build_field serve self jira_project exclude_fields acc f v s
             = (Ok (dict_set acc f (VDict [(key_type, v)])), [], s)).
  { intros acc s. rewrite (build_field_format _ _ _ _ _ key_type) by assumption.
    now rewrite transform_scalar. }
  split.
  - intros s. unfold _build_issue_data. simpl.
    erewrite bind_ok_run by apply Hstore. reflexivity.
  - intros fields s out t s' Hnd Hin Hfree H.
    eapply build_fields_writer; eauto.
Qed.

(** C2, as the code has it.  For a field of [key_format_fields] or
    [name_format_fields] whose value is a mapping, the translation is made
    from the keys of the mapping alone: each key is unpacked into its
    characters, so a key of two characters [ab] gives [{a: b}], any other
    key raises [ValueError], and the values of the mapping are never read.
    For a mapping that is not empty the result is never the list of
    [{entryKey: entryValue}] objects. *)
Theorem dict_valued_format_field_unpacks_keys jira_project exclude_fields f d
        key_type s :
  format_rule self f = Some key_type ->
  skipped exclude_fields f = false ->
  _build_issue_data serve self jira_project [(f, VDict d)] exclude_fields s
  = (objs <~ key_objects (dict_keys d) ;; Ok [(f, VList objs)], [], s)
  /\ (d <> [] ->
      outcome_of (_build_issue_data serve self jira_project [(f, VDict d)]
                                    exclude_fields s)
      <> Ok [(f, VList (spec_entry_objects d))]).
Proof.
  intros Hrule Hskip.
  assert (Hrun : _build_issue_data serve self jira_project [(f, VDict d)]
                                   exclude_fields s
                 = (objs <~ key_objects (dict_keys d) ;; Ok [(f, VList objs)],
                    [], s)).
  { unfold _build_issue_data. simpl. unfold bind.
    rewrite (build_field_format _ _ _ _ _ key_type) by assumption.
    simpl. destruct (key_objects (dict_keys d)); simpl; reflexivity. }
  split; [exact Hrun|].
  intros Hne. rewrite Hrun. unfold outcome_of. simpl.
  destruct d as [|[k v] d]; [contradiction|]. simpl.
  destruct k as [|a [|b [|c k]]]; simpl; try discriminate.
  destruct (key_objects (dict_keys d)); simpl; [|discriminate].
  intros H. inversion H.
Qed.

Lemma build_fields_raises jira_project exclude_fields f v items :
  (forall acc s,
      is_ok (outcome_of (build_field serve self jira_project exclude_fields
                                     acc f v s)) = false) ->
  In (f, v) items ->
  forall issue_fields s,
    is_ok (outcome_of (build_fields serve self jira_project exclude_fields
                                    items issue_fields s)) = false.
Proof.
  intros Hraise. induction items as [|[n w] items IH]; intros Hin acc s;
    [contradiction|].
  simpl. unfold bind.
  destruct (build_field serve self jira_project exclude_fields acc n w s)
    as [[[acc1|e] t1] s1] eqn:E; [|reflexivity].
  destruct Hin as [Heq|Hin].
  - inversion Heq; subst. specialize (Hraise acc s). rewrite E in Hraise.
    discriminate.
  - specialize (IH Hin acc1 s1).
    destruct (build_fields serve self jira_project exclude_fields items acc1 s1)
      as [[r t2] s2]. exact IH.
Qed.

(** C10.  A field that none of the earlier tests matches makes the loop
    index [custom_field_mapping['key_format_fields']] and, when the field is
    not a key of that table, [custom_field_mapping['name_format_fields']].
    If the configuration lacks the table that is indexed, translating the
    field raises [KeyError] for that table's name instead of copying the
    field, and no input that contains the field can be translated. *)
Theorem missing_nested_table_raises_KeyError jira_project exclude_fields f v
        table :
  reaches_nested_tables self exclude_fields f = true ->
  missing_nested_table self f = Some table ->
  (table = "key_format_fields" \/ table = "name_format_fields")
  /\ dict_get (custom_field_mapping self) table = None
  /\ (forall issue_fields s,
         build_field serve self jira_project exclude_fields issue_fields f v s
         = (Raise (KeyError table), [], s))
  /\ (forall fields s,
         In (f, v) fields ->
         is_ok (outcome_of (_build_issue_data serve self jira_project fields
                                              exclude_fields s)) = false).
Proof.
  unfold reaches_nested_tables, missing_nested_table. intros Hreach Hmiss.
  repeat (apply andb_true_iff in Hreach; destruct Hreach as [Hreach ?]).
  repeat match goal with H : negb _ = true |- _ => apply negb_true_iff in H end.
  rewrite dict_mem_get in H.
  assert (Hstep : (table = "key_format_fields" \/ table = "name_format_fields")
                  /\ dict_get (custom_field_mapping self) table = None
                  /\ forall issue_fields s,
                      build_field serve self jira_project exclude_fields
                                  issue_fields f v s
                      = (Raise (KeyError table), [], s)).
  { unfold build_field. unfold skipped in Hreach.
    destruct (f =? "issues")%string; [discriminate|].
    destruct (mem f exclude_fields); [discriminate|].
    destruct (f =? "issuelinks")%string; [discriminate|].
    rewrite H1, H0.
    destruct (dict_get (custom_field_mapping self) f); [discriminate|].
    destruct (dict_get (custom_field_mapping self) "key_format_fields")
      as [[id|key_table]|] eqn:Ek.
    - discriminate.
    - destruct (dict_get key_table f); [discriminate|].
      destruct (dict_get (custom_field_mapping self) "name_format_fields")
        eqn:En; [discriminate|].
      inversion Hmiss; subst. auto.
    - inversion Hmiss; subst. auto. }
  destruct Hstep as (Hname & Hlack & Hstep).
  repeat split; auto.
  intros fields s Hin. unfold _build_issue_data.
  apply build_fields_raises with (f := f) (v := v); [|exact Hin].
  intros acc s0. now rewrite Hstep.
Qed.
End Translation.

Lemma format_fields_wrap_scalars_witness :
  _build_issue_data scripted example_config "PROJ"
                    [("components", VStr "backend")] [] []
  = (Ok [("components", VDict [("key", VStr "backend")])], [], [])
  /\ exists out,
      outcome_of (_build_issue_data scripted example_config "PROJ"
                                    example_task [] []) = Ok out
      /\ dict_get out "assignee" = Some (VDict [("name", VStr "bob")]).
Proof.
  split.
  - apply (format_fields_wrap_scalars
             (list outcome) scripted example_config "PROJ" []
             "components" (VStr "backend") "key");
      [left; split; reflexivity | reflexivity | reflexivity].
  - destruct (format_fields_wrap_scalars
                (list outcome) scripted example_config "PROJ" []
                "assignee" (VStr "bob") "name") as [_ Hany];
      [right; repeat split; reflexivity | reflexivity | reflexivity |].
    eexists. split; [reflexivity|].
    apply (Hany example_task [] _ [] []).
    + repeat constructor; simpl; intuition discriminate.
    + simpl. auto.
    + simpl. intros g [<-|[<-|[<-|[<-|[]]]]] Hne Hskip;
        try discriminate; congruence.
    + reflexivity.
Defined.

Lemma dict_valued_format_field_witness :
  _build_issue_data scripted example_config "PROJ"
                    [("components", VDict [("id", VStr "10001")])] [] []
  = (Ok [("components", VList [VDict [("i", VStr "d")]])], [], [])
  /\ outcome_of (_build_issue_data scripted example_config "PROJ"
                    [("components", VDict [("id", VStr "10001")])] [] [])
     <> Ok [("components", VList [VDict [("id", VStr "10001")]])].
Proof.
  destruct (dict_valued_format_field_unpacks_keys
              (list outcome) scripted example_config "PROJ" []
              "components" [("id", VStr "10001")] "key" [])
    as [Hrun Hdiff]; [reflexivity | reflexivity |].
  split; [exact Hrun|]. apply Hdiff. discriminate.
Defined.

(** A key that does not have two characters cannot be unpacked. *)
Example dict_valued_format_field_raises :
  outcome_of (_build_issue_data scripted example_config "PROJ"
                [("components", VDict [("name", VStr "backend")])] [] [])
  = Raise (ValueError "wrong number of values to unpack").
Proof. reflexivity. Qed.

Lemma missing_nested_table_witness :
  build_field scripted bare_config "PROJ" [] [] "summary"
              (VStr "Write the report") []
  = (Raise (KeyError "key_format_fields"), [], [])
  /\ is_ok (outcome_of (_build_issue_data scripted bare_config "PROJ"
                                          example_task [] [])) = false.
Proof.
  destruct (missing_nested_table_raises_KeyError
              (list outcome) scripted bare_config "PROJ" []
              "summary" (VStr "Write the report") "key_format_fields")
    as (_ & _ & Hstep & Hall); [reflexivity | reflexivity |].
  split; [apply Hstep|]. apply Hall. simpl. auto.
Defined.

(** ** Creating one issue *)

Section Creation.
Variable W : Type.
Variable serve : W -> request -> outcome * W.
Variable self : Jira.

Lemma send_request_run api_type custom issue_key data method s :
  mem (lower method) ["post"; "put"; "get"] = true ->
  send_request serve api_type custom issue_key data method s
  = (handle_outcome
       (fst (serve s (mkRequest (http_method_of (lower method))
                                (request_url api_type custom issue_key method)
                                data))),
     [mkRequest (http_method_of (lower method))
                (request_url api_type custom issue_key method) data],
     snd (serve s (mkRequest (http_method_of (lower method))
                             (request_url api_type custom issue_key method)
                             data))).
Proof.
  intros Hm. unfold send_request. rewrite Hm. cbn [negb].
  unfold bind, http, lift.
  destruct (serve s _) as [o s1]. reflexivity.
Qed.

Lemma send_create_run issue_fields s :
  send_request serve (Some "issue") None VNone
               (Some (issue_data issue_fields)) "post" s
  = (handle_outcome (fst (serve s (create_request issue_fields))),
     [create_request issue_fields],
     snd (serve s (create_request issue_fields))).
Proof. exact (send_request_run _ _ _ _ "post" s eq_refl). Qed.

Lemma send_update_run issue_key issue_fields s :
  truthy issue_key = true ->
  send_request serve (Some "issue") None issue_key
               (Some (issue_data issue_fields)) "put" s
  = (handle_outcome (fst (serve s (update_request issue_key issue_fields))),
     [update_request issue_key issue_fields],
     snd (serve s (update_request issue_key issue_fields))).
Proof.
  intros Hk.
  rewrite (send_request_run _ _ _ _ "put" s eq_refl).
  assert (Hreq : mkRequest (http_method_of (lower "put"))
                           (request_url (Some "issue") None issue_key "put")
                           (Some (issue_data issue_fields))
                 = update_request issue_key issue_fields).
  { unfold request_url. rewrite Hk. reflexivity. }
  rewrite Hreq. reflexivity.
Qed.

Lemma link_jira_issues_run issue_key issue_parent_key link_type s :
  link_jira_issues serve issue_key issue_parent_key link_type s
  = (handle_outcome (fst (serve s (link_request issue_key issue_parent_key link_type))),
     [link_request issue_key issue_parent_key link_type],
     snd (serve s (link_request issue_key issue_parent_key link_type))).
Proof. exact (send_request_run _ _ _ _ "post" s eq_refl). Qed.

(** An exception in the body of a loop ends the loop. *)
Lemma for_each_raise {A} (x : A) (rest : list A) (body : A -> M W unit)
      s e t s' :
  body x s = (Raise e, t, s') ->
  for_each (x :: rest) body s = (Raise e, t, s').
Proof. intros H. simpl. unfold bind. now rewrite H. Qed.

(** C8, as the code has it.  When the answer to the creation request has a
    success status and what [send_request] returns for it has no entry
    [key], [response_data['key']] raises before the test that would raise
    the [ValueError] for a missing issue key is reached: [KeyError] for a
    JSON object without the entry, [TypeError] for an empty body or a JSON
    value that is not an object.  Nothing more is sent, and the walk over
    the epics ends with that exception; a [KeyError] passes through the
    handler for missing required fields. *)
Theorem create_response_without_key_raises_at_subscript
        jira_project jira_issue epic_key parent_key s issue_fields t1 s1 r
        response_data e s2 :
  initial_issue_data serve self jira_project jira_issue epic_key parent_key s
  = (Ok issue_fields, t1, s1) ->
  serve s1 (create_request issue_fields) = (Answer r, s2) ->
  (200 <= status_code r < 300)%Z ->
  handle_outcome (Answer r) = Ok response_data ->
  getitem_obj response_data "key" = Raise e ->
  (e = KeyError "key" \/ exists msg, e = TypeError msg)
  /\ create_new_jira_issue serve self jira_project jira_issue epic_key
                           parent_key s
     = (Raise e, t1 ++ [create_request issue_fields], s2)
  /\ (epic_key = VNone -> parent_key = VNone ->
      dict_mem jira_issue "epicName" = true ->
      forall fuel rest,
        create_epics_and_issues serve self fuel jira_project
                                (VList (VDict jira_issue :: rest)) s
        = (Raise e, t1 ++ [create_request issue_fields], s2)).
Proof.
  intros Hinit Hserve Hst Hresp Hkey.
  assert (Hrun : create_new_jira_issue serve self jira_project jira_issue
                                       epic_key parent_key s
                 = (Raise e, t1 ++ [create_request issue_fields], s2)).
  { unfold create_new_jira_issue.
    rewrite (bind_ok_run _ _ _ _ _ _ Hinit).
    assert (Hsend : send_request serve (Some "issue") None VNone
                                 (Some (issue_data issue_fields)) "post" s1
                    = (Ok response_data, [create_request issue_fields], s2)).
    { rewrite send_create_run, Hserve. cbn [fst snd]. now rewrite Hresp. }
    rewrite (bind_ok_run _ _ _ _ _ _ Hsend).
    now rewrite bind_lift_raise with (e := e). }
  split; [|split; [exact Hrun|]].
  - destruct response_data as [v|status]; simpl in Hkey.
    + destruct v; simpl in Hkey; try (inversion Hkey; eauto).
      destruct (dict_get d "key"); inversion Hkey. auto.
    + inversion Hkey. eauto.
  - intros -> -> Hname fuel rest.
    unfold create_epics_and_issues.
    rewrite bind_lift_ok with (a := VDict jira_issue :: rest) by reflexivity.
    apply for_each_raise.
    rewrite dict_mem_get in Hname.
    destruct (dict_get jira_issue "epicName") as [name|] eqn:En; [|discriminate].
    rewrite bind_lift_ok with (a := name) by (simpl; now rewrite En).
    unfold bind. now rewrite Hrun.
Qed.

(** *** What kinds of request a creation sends *)

Lemma reads_kinds r :
  reads r ->
  is_create_request r = false /\ is_update_request r = false
  /\ is_link_request r = false /\ body_fields r = None.
Proof.
  intros [Hm Hd].
  unfold is_create_request, is_update_request, is_link_request, body_fields.
  rewrite Hm, Hd. auto.
Qed.

Lemma initial_issue_data_reads jira_project jira_issue epic_key parent_key s :
  Forall reads (trace_of (initial_issue_data serve self jira_project jira_issue
                                             epic_key parent_key s)).
Proof.
  unfold initial_issue_data, _build_issue_data.
  apply bind_Forall; [apply build_fields_reads|].
  intros fs _ s1 _. apply lift_Forall.
Qed.

Lemma bind_ret_trace {A B} (m : M W A) (b : B) s :
  trace_of (bind m (fun _ => ret b) s) = trace_of (m s).
Proof.
  unfold bind, ret, trace_of. destruct (m s) as [[[a|e] t] s1]; simpl;
    [apply app_nil_r|reflexivity].
Qed.

(** Along a sequence whose first half sends no request of a kind, the
    requests of that kind are those of the second half. *)
Lemma bind_count (c : request -> bool) {A B} (m : M W A) (f : A -> M W B)
      s n :
  Forall (fun r => c r = false) (trace_of (m s)) ->
  (forall a t1 s1, m s = (Ok a, t1, s1) ->
                   length (filter c (trace_of (f a s1))) <= n) ->
  length (filter c (trace_of (bind m f s))) <= n.
Proof.
  intros Hm Hf.
  assert (Hnone : forall t, Forall (fun r => c r = false) t -> filter c t = []).
  { induction 1 as [|r t Hr _ IH]; simpl; [reflexivity|]. now rewrite Hr. }
  unfold bind. destruct (m s) as [[[a|e] t1] s1] eqn:E.
  - specialize (Hf a t1 s1 eq_refl).
    destruct (f a s1) as [[r t2] s2]. unfold trace_of in *. simpl in *.
    now rewrite filter_app, (Hnone _ Hm).
  - unfold trace_of in *. simpl in *. rewrite (Hnone _ Hm). simpl. lia.
Qed.

Lemma update_post_creation_fields_kinds jira_project jira_issue issue_key s :
  Forall (fun r => reads r \/ exists fs, r = update_request issue_key fs
                                         /\ truthy issue_key = true)
         (trace_of (update_post_creation_fields serve self jira_project
                                                jira_issue issue_key s))
  \/ truthy issue_key = false.
Proof.
  destruct (truthy issue_key) eqn:Hk; [left|now right].
  unfold update_post_creation_fields, _build_issue_data.
  apply bind_Forall.
  - eapply Forall_impl; [|apply build_fields_reads]. intros r Hr. now left.
  - intros fs _ s1 _. destruct (truthy (VDict fs)); [|constructor].
    rewrite bind_ret_trace, (send_update_run _ _ _ Hk). unfold trace_of. simpl.
    constructor; [|constructor]. right. eauto.
Qed.

(** The only request of the [issuelinks] block is the one link request
    made from the values the loop bound last. *)
Lemma link_issuelinks_sends jira_issue issue_key s :
  trace_of (link_issuelinks serve jira_issue issue_key s) = []
  \/ exists issuelinks links issue_parent_key link_type,
      dict_get jira_issue "issuelinks" = Some issuelinks
      /\ iter issuelinks = Ok links
      /\ scan_issuelinks links None = Ok (Some (link_type, issue_parent_key))
      /\ trace_of (link_issuelinks serve jira_issue issue_key s)
         = [link_request issue_key issue_parent_key link_type].
Proof.
  unfold link_issuelinks.
  destruct (dict_get jira_issue "issuelinks") as [issuelinks|]; [|now left].
  destruct (iter issuelinks) as [links|e] eqn:Hiter; [|now left].
  rewrite bind_lift_ok with (a := links) by reflexivity.
  destruct (scan_issuelinks links None)
    as [[[link_type issue_parent_key]|]|e] eqn:Hscan; [| now left | now left].
  rewrite bind_lift_ok with (a := Some (link_type, issue_parent_key))
    by reflexivity.
  right. exists issuelinks, links, issue_parent_key, link_type.
  rewrite bind_ret_trace, link_jira_issues_run. auto.
Qed.

Lemma link_issuelinks_trace jira_issue issue_key s :
  trace_of (link_issuelinks serve jira_issue issue_key s) = []
  \/ exists issue_parent_key link_type,
      trace_of (link_issuelinks serve jira_issue issue_key s)
      = [link_request issue_key issue_parent_key link_type].
Proof.
  destruct (link_issuelinks_sends jira_issue issue_key s)
    as [H|(_ & _ & pk & lt & _ & _ & _ & H)]; eauto.
Qed.

Lemma scan_issuelinks_app before after bound :
  scan_issuelinks (before ++ after) bound
  = (bound' <~ scan_issuelinks before bound ;; scan_issuelinks after bound').
Proof.
  revert bound. induction before as [|link before IH]; intros bound;
    [reflexivity|].
  simpl. destruct (getitem link "type") as [ty|]; [|reflexivity]. simpl.
  destruct (get_method ty "name" (VStr "Related")); [|reflexivity]. simpl.
  destruct (getitem link "outwardIssue") as [out|]; [|reflexivity]. simpl.
  destruct (get_method out "key" (VStr EmptyString)); [|reflexivity]. simpl.
  apply IH.
Qed.

(** What the loop binds depends on the last entry only. *)
Lemma scan_issuelinks_last before last bound :
  scan_issuelinks (before ++ [last]) None = Ok bound ->
  scan_issuelinks [last] None = Ok bound.
Proof.
  rewrite scan_issuelinks_app.
  destruct (scan_issuelinks before None) as [bound'|]; [|discriminate].
  simpl. destruct (getitem last "type") as [ty|]; [|discriminate]. simpl.
  destruct (get_method ty "name" (VStr "Related")); [|discriminate]. simpl.
  destruct (getitem last "outwardIssue") as [out|]; [|discriminate]. simpl.
  destruct (get_method out "key" (VStr EmptyString)); [|discriminate].
  trivial.
Qed.

(** Every link request of a creation is made from the values the loop
    over [issuelinks] bound last. *)
Lemma create_new_jira_issue_link_requests
      jira_project jira_issue epic_key parent_key s :
  Forall (fun r =>
            is_link_request r = true ->
            exists issuelinks links issue_key issue_parent_key link_type,
              dict_get jira_issue "issuelinks" = Some issuelinks
              /\ iter issuelinks = Ok links
              /\ scan_issuelinks links None
                 = Ok (Some (link_type, issue_parent_key))
              /\ r = link_request issue_key issue_parent_key link_type)
         (trace_of (create_new_jira_issue serve self jira_project jira_issue
                                          epic_key parent_key s)).
Proof.
  assert (Hreads : forall (Q : request -> Prop) t,
             Forall reads t -> Forall (fun r => is_link_request r = true -> Q r) t).
  { intros Q t Ht. eapply Forall_impl; [|exact Ht].
    intros r Hr Hl. destruct (reads_kinds r Hr) as (_ & _ & Hnl & _).
    congruence. }
  unfold create_new_jira_issue.
  apply bind_Forall; [apply Hreads, initial_issue_data_reads|].
  intros issue_fields _ s1 _.
  apply bind_Forall; [apply send_request_Forall; discriminate|].
  intros response_data _ s2 _.
  apply bind_Forall; [apply lift_Forall|].
  intros issue_key _ s3 _.
  destruct (truthy issue_key) eqn:Hk; simpl negb; cbv iota;
    [|apply raise_Forall].
  apply bind_Forall.
  - destruct (update_post_creation_fields_kinds jira_project jira_issue
                                                 issue_key s3) as [H|H];
      [|congruence].
    eapply Forall_impl; [|exact H].
    intros r [Hr|(fs & -> & _)]; [|discriminate].
    intros Hl. destruct (reads_kinds r Hr) as (_ & _ & Hnl & _). congruence.
  - intros _ _ s4 _. rewrite bind_ret_trace.
    destruct (link_issuelinks_sends jira_issue issue_key s4)
      as [->|(il & links & pk & lt & Hget & Hiter & Hscan & ->)];
      [constructor|].
    constructor; [|constructor]. intros _.
    exists il, links, issue_key, pk, lt. auto.
Qed.

(** C1, as the code has it.  The call of [link_jira_issues] stands after
    the loop over [issuelinks], so creating an issue sends at most one link
    request, however many entries the list has, and that request is made
    from the last entry of the list alone. *)
Theorem create_new_jira_issue_links_at_most_once
        jira_project jira_issue epic_key parent_key s :
  length (filter is_link_request
                 (trace_of (create_new_jira_issue serve self jira_project
                              jira_issue epic_key parent_key s))) <= 1
  /\ (forall before last,
         dict_get jira_issue "issuelinks" = Some (VList (before ++ [last])) ->
         forall r,
           In r (filter is_link_request
                        (trace_of (create_new_jira_issue serve self jira_project
                                     jira_issue epic_key parent_key s))) ->
           exists issue_key issue_parent_key link_type,
             scan_issuelinks [last] None
             = Ok (Some (link_type, issue_parent_key))
             /\ r = link_request issue_key issue_parent_key link_type).
Proof.
  split.
  - unfold create_new_jira_issue.
    apply bind_count.
    { eapply Forall_impl; [|apply initial_issue_data_reads].
      intros r Hr. apply (reads_kinds r Hr). }
    intros issue_fields _ s1 _.
    apply bind_count.
    { apply send_request_Forall. reflexivity. }
    intros response_data _ s2 _.
    apply bind_count; [apply lift_Forall|].
    intros issue_key _ s3 _.
    destruct (truthy issue_key) eqn:Hk; simpl negb; cbv iota.
    2:{ unfold trace_of, raise. simpl. lia. }
    apply bind_count.
    { destruct (update_post_creation_fields_kinds jira_project jira_issue
                                                   issue_key s3) as [H|H];
        [|congruence].
      eapply Forall_impl; [|exact H].
      intros r [Hr|(fs & -> & _)]; [apply (reads_kinds r Hr)|reflexivity]. }
    intros _ _ s4 _.
    rewrite bind_ret_trace.
    destruct (link_issuelinks_trace jira_issue issue_key s4)
      as [->|(pk & lt & ->)]; simpl; lia.
  - intros before last Hlinks r Hr.
    apply filter_In in Hr. destruct Hr as [Hin Hlink].
    pose proof (create_new_jira_issue_link_requests
                  jira_project jira_issue epic_key parent_key s) as Hall.
    rewrite Forall_forall in Hall.
    destruct (Hall r Hin Hlink)
      as (il & links & key & pk & lt & Hget & Hiter & Hscan & ->).
    rewrite Hlinks in Hget. inversion Hget; subst il.
    simpl in Hiter. inversion Hiter; subst links.
    exists key, pk, lt. split; [|reflexivity].
    now apply scan_issuelinks_last with (before := before).
Qed.

(** *** Structural keys *)

Lemma dict_get_In {A} (d : list (string * A)) k v :
  dict_get d k = Some v -> In (k, v) d.
Proof.
  induction d as [|[k' v'] d IH]; simpl; [discriminate|].
  destruct (String.eqb_spec k k') as [->|Hne].
  - intros H. inversion H. now left.
  - intros H. right. auto.
Qed.

Lemma wire_id_listed g id :
  dict_get (custom_field_mapping self) g = Some (WireId id) ->
  In id (wire_ids self).
Proof.
  intros H. apply dict_get_In in H. unfold wire_ids.
  apply in_flat_map. exists (g, WireId id). split; [exact H|now left].
Qed.

Lemma table_id_listed name tbl g id :
  dict_get (custom_field_mapping self) name = Some (Table tbl) ->
  dict_get tbl g = Some id ->
  In id (wire_ids self).
Proof.
  intros H Hg. apply dict_get_In in H. apply dict_get_In in Hg.
  unfold wire_ids. apply in_flat_map. exists (name, Table tbl).
  split; [exact H|]. simpl. change id with (snd (g, id)). now apply in_map.
Qed.

(** A wire key is the field's own name or an id from the configuration. *)
Lemma wire_key_origin g k :
  wire_key self g = Some k -> k = g \/ In k (wire_ids self).
Proof.
  unfold wire_key.
  destruct (mem g (key_format_fields self)); [intros H; inversion H; auto|].
  destruct (mem g (name_format_fields self)); [intros H; inversion H; auto|].
  destruct (dict_get (custom_field_mapping self) g) as [[id|tbl]|] eqn:Eg.
  - intros H. inversion H; subst. right. eapply wire_id_listed; eauto.
  - discriminate.
  - destruct (dict_get (custom_field_mapping self) "key_format_fields")
      as [[id|key_table]|] eqn:Ek; try discriminate.
    destruct (dict_get key_table g) as [id|] eqn:Ekg.
    { intros H. inversion H; subst. right. eapply table_id_listed; eauto. }
    destruct (dict_get (custom_field_mapping self) "name_format_fields")
      as [[id|name_table]|] eqn:En; try discriminate.
    destruct (dict_get name_table g) as [id|] eqn:Eng.
    { intros H. inversion H; subst. right. eapply table_id_listed; eauto. }
    intros H. inversion H; auto.
Qed.

Lemma wire_ids_proper_spec k :
  wire_ids_proper self = true ->
  structural k = true ->
  ~ In k (wire_ids self).
Proof.
  unfold wire_ids_proper, structural. intros Hp Hk Hin.
  apply andb_true_iff in Hp. destruct Hp as [H1 H2].
  apply negb_true_iff in H1, H2.
  apply mem_In in Hin.
  apply orb_true_iff in Hk. destruct Hk as [Hk|Hk];
    apply String.eqb_eq in Hk; subst; congruence.
Qed.

(** No structural key among the keys of a translation. *)
Lemma translation_has_no_structural_key jira_project fields exclude_fields s
      out t s' k :
  wire_ids_proper self = true ->
  _build_issue_data serve self jira_project fields exclude_fields s
  = (Ok out, t, s') ->
  structural k = true ->
  dict_mem out k = false.
Proof.
  intros Hp H Hk. unfold _build_issue_data in H.
  destruct (dict_mem out k) eqn:Hmem; [exfalso|reflexivity].
  apply (build_fields_keys _ _ _ _ _ _ _ _ _ _ _ H k) in Hmem.
  destruct Hmem as [Hmem|(g & Hg & Hskip & Hw)]; [discriminate|].
  destruct (wire_key_origin _ _ Hw) as [->|Hin].
  - rewrite (structural_skipped _ _ Hk) in Hskip. discriminate.
  - exact (wire_ids_proper_spec _ Hp Hk Hin).
Qed.

Lemma set_epic_or_parent_keys jira_issue initial_fields epic_key parent_key
      out k :
  set_epic_or_parent self jira_issue initial_fields epic_key parent_key = Ok out ->
  dict_mem out k = true ->
  dict_mem initial_fields k = true
  \/ k = "parent"
  \/ dict_get (custom_field_mapping self) "epicLink" = Some (WireId k).
Proof.
  unfold set_epic_or_parent.
  destruct (truthy epic_key && negb _).
  - destruct (dict_get (custom_field_mapping self) "epicLink") as [[id|tbl]|];
      simpl; try discriminate.
    intros H. inversion H; subst. rewrite dict_mem_set.
    intros Hk. apply orb_true_iff in Hk. destruct Hk as [Hk|Hk]; [|now left].
    apply String.eqb_eq in Hk. subst. auto.
  - destruct (py_eq _ _ && truthy parent_key).
    + intros H. inversion H; subst. rewrite dict_mem_set.
      intros Hk. apply orb_true_iff in Hk. destruct Hk as [Hk|Hk]; [|now left].
      apply String.eqb_eq in Hk. auto.
    + intros H. inversion H; subst. auto.
Qed.

Lemma set_epic_or_parent_keeps jira_issue initial_fields epic_key parent_key
      out k :
  set_epic_or_parent self jira_issue initial_fields epic_key parent_key = Ok out ->
  dict_mem initial_fields k = true ->
  dict_mem out k = true.
Proof.
  unfold set_epic_or_parent.
  destruct (truthy epic_key && negb _).
  - destruct (dict_get (custom_field_mapping self) "epicLink") as [[id|tbl]|];
      simpl; try discriminate.
    intros H Hk. inversion H; subst. rewrite dict_mem_set, Hk. apply orb_true_r.
  - destruct (py_eq _ _ && truthy parent_key).
    + intros H Hk. inversion H; subst. rewrite dict_mem_set, Hk. apply orb_true_r.
    + intros H Hk. inversion H; subst. exact Hk.
Qed.

Lemma initial_issue_data_inv jira_project jira_issue epic_key parent_key s
      out t s' :
  initial_issue_data serve self jira_project jira_issue epic_key parent_key s
  = (Ok out, t, s') ->
  exists translated,
    _build_issue_data serve self jira_project jira_issue
                      (post_creation_update_fields self) s
    = (Ok translated, t, s')
    /\ set_epic_or_parent self jira_issue
         (dict_set translated "project" (VDict [("key", VStr jira_project)]))
         epic_key parent_key = Ok out.
Proof.
  unfold initial_issue_data. intros H. apply bind_ok_inv in H.
  destruct H as (translated & t1 & s1 & t2 & H1 & H2 & ->).
  unfold lift in H2. inversion H2; subst.
  exists translated. rewrite app_nil_r. auto.
Qed.

Lemma initial_issue_data_clean jira_project jira_issue epic_key parent_key s
      out t s' :
  wire_ids_proper self = true ->
  initial_issue_data serve self jira_project jira_issue epic_key parent_key s
  = (Ok out, t, s') ->
  clean (create_request out).
Proof.
  intros Hp H fs Hfs. unfold body_fields in Hfs. simpl in Hfs.
  inversion Hfs; subst fs. clear Hfs.
  destruct (initial_issue_data_inv _ _ _ _ _ _ _ _ H) as (tr & Hb & Hset).
  assert (Hno : forall k, structural k = true -> dict_mem out k = false).
  { intros k Hk. destruct (dict_mem out k) eqn:Hmem; [exfalso|reflexivity].
    destruct (set_epic_or_parent_keys _ _ _ _ _ _ Hset Hmem) as [Hm|[->|He]].
    - rewrite dict_mem_set in Hm.
      rewrite (translation_has_no_structural_key _ _ _ _ _ _ _ _ Hp Hb Hk) in Hm.
      rewrite orb_false_r in Hm. apply String.eqb_eq in Hm. subst.
      discriminate.
    - discriminate.
    - apply (wire_ids_proper_spec _ Hp Hk). eapply wire_id_listed; eauto. }
  split; apply Hno; reflexivity.
Qed.

(** Every request that creating an issue sends is free of the two keys. *)
Lemma create_new_jira_issue_clean jira_project jira_issue epic_key parent_key s :
  wire_ids_proper self = true ->
  Forall clean (trace_of (create_new_jira_issue serve self jira_project
                            jira_issue epic_key parent_key s)).
Proof.
  intros Hp.
  assert (Hreads : forall t, Forall reads t -> Forall clean t).
  { intros t Ht. eapply Forall_impl; [|exact Ht].
    intros r Hr fs Hfs. destruct (reads_kinds r Hr) as (_ & _ & _ & Hnone).
    congruence. }
  unfold create_new_jira_issue.
  apply bind_Forall; [apply Hreads, initial_issue_data_reads|].
  intros issue_fields t1 s1 Hinit.
  apply bind_Forall.
  { apply send_request_Forall.
    exact (initial_issue_data_clean _ _ _ _ _ _ _ _ Hp Hinit). }
  intros response_data _ s2 _.
  apply bind_Forall; [apply lift_Forall|].
  intros issue_key _ s3 _.
  destruct (negb (truthy issue_key)); [apply raise_Forall|].
  apply bind_Forall.
  - unfold update_post_creation_fields.
    apply bind_Forall; [apply Hreads, build_fields_reads|].
    intros update_fields t2 s4 Hupd.
    destruct (truthy (VDict update_fields)); [|apply ret_Forall].
    rewrite bind_ret_trace. apply send_request_Forall.
    intros fs Hfs. unfold body_fields in Hfs. simpl in Hfs.
    inversion Hfs; subst fs.
    split; eapply translation_has_no_structural_key; eauto.
  - intros _ _ s4 _. rewrite bind_ret_trace.
    destruct (link_issuelinks_trace jira_issue issue_key s4)
      as [->|(pk & lt & ->)]; [constructor|].
    constructor; [|constructor]. intros fs Hfs. discriminate.
Qed.

(** *** Creation body and update body *)

Lemma filter_none (c : request -> bool) t :
  Forall (fun r => c r = false) t -> filter c t = [].
Proof.
  induction 1 as [|r t Hr _ IH]; simpl; [reflexivity|]. now rewrite Hr.
Qed.

Lemma reads_filter_create t : Forall reads t -> filter is_create_request t = [].
Proof.
  intros H. apply filter_none. eapply Forall_impl; [|exact H].
  intros r Hr. apply (reads_kinds r Hr).
Qed.

Lemma reads_filter_update t : Forall reads t -> filter is_update_request t = [].
Proof.
  intros H. apply filter_none. eapply Forall_impl; [|exact H].
  intros r Hr. apply (reads_kinds r Hr).
Qed.

(** In a translation that succeeds every field that is not skipped has a
    wire key. *)
Lemma build_fields_wire_key jira_project exclude_fields items f :
  forall issue_fields s out t s',
    build_fields serve self jira_project exclude_fields items issue_fields s
    = (Ok out, t, s') ->
    In f (dict_keys items) ->
    skipped exclude_fields f = false ->
    exists k, wire_key self f = Some k.
Proof.
  induction items as [|[n v] items IH]; intros acc s out t s' H Hin Hskip;
    [contradiction|].
  simpl in H. apply bind_ok_inv in H.
  destruct H as (acc1 & t1 & s1 & t2 & H1 & H2 & _).
  destruct Hin as [Heq|Hin].
  - simpl in Heq. subst n.
    destruct (build_field_stores _ _ _ _ _ _ _ _ _ _ _ _ H1 Hskip)
      as (k & x & Hw & _).
    eauto.
  - eapply IH; eauto.
Qed.

Lemma update_post_creation_fields_inv jira_project jira_issue issue_key s t s' :
  truthy issue_key = true ->
  update_post_creation_fields serve self jira_project jira_issue issue_key s
  = (Ok tt, t, s') ->
  exists update_fields lookups s1,
    _build_issue_data serve self jira_project jira_issue
                      (fields_set_during_issue_creation self jira_issue) s
    = (Ok update_fields, lookups, s1)
    /\ Forall reads lookups
    /\ t = lookups ++ (if truthy (VDict update_fields)
                       then [update_request issue_key update_fields]
                       else []).
Proof.
  intros Hk H. unfold update_post_creation_fields in H.
  apply bind_ok_inv in H.
  destruct H as (update_fields & lookups & s1 & t2 & Hb & H2 & ->).
  exists update_fields, lookups, s1. split; [exact Hb|]. split.
  - pose proof (build_fields_reads W serve self jira_project
                  (fields_set_during_issue_creation self jira_issue)
                  jira_issue [] s) as Hr.
    unfold _build_issue_data in Hb. rewrite Hb in Hr. exact Hr.
  - f_equal. destruct (truthy (VDict update_fields)).
    + apply bind_ok_inv in H2. destruct H2 as (o & t3 & s3 & t4 & H3 & H4 & ->).
      rewrite (send_update_run _ _ _ Hk) in H3. inversion H3; subst.
      inversion H4; subst. reflexivity.
    + inversion H2; subst. reflexivity.
Qed.

(** The trace of a creation that succeeds: the lookups of the first
    translation, the creation request, the lookups of the second
    translation, the update request if there is something to update, and
    at most one link request. *)
Lemma create_new_jira_issue_ok_inv jira_project jira_issue epic_key parent_key
      s response_data trace s' :
  create_new_jira_issue serve self jira_project jira_issue epic_key parent_key s
  = (Ok response_data, trace, s') ->
  exists initial_fields lookups1 s1 issue_key update_fields lookups2 s2 links,
    initial_issue_data serve self jira_project jira_issue epic_key parent_key s
    = (Ok initial_fields, lookups1, s1)
    /\ getitem_obj response_data "key" = Ok issue_key
    /\ truthy issue_key = true
    /\ _build_issue_data serve self jira_project jira_issue
                         (fields_set_during_issue_creation self jira_issue)
                         (snd (serve s1 (create_request initial_fields)))
       = (Ok update_fields, lookups2, s2)
    /\ Forall reads lookups1 /\ Forall reads lookups2
    /\ Forall (fun r => is_create_request r = false
                        /\ is_update_request r = false) links
    /\ trace = lookups1 ++ create_request initial_fields :: lookups2
               ++ (if truthy (VDict update_fields)
                   then [update_request issue_key update_fields]
                   else [])
               ++ links.
Proof.
  intros H. unfold create_new_jira_issue in H.
  apply bind_ok_inv in H.
  destruct H as (initial_fields & lookups1 & s1 & t2 & Hinit & H & ->).
  apply bind_ok_inv in H.
  destruct H as (response_data' & t3 & s3 & t4 & Hsend & H & ->).
  rewrite send_create_run in Hsend. inversion Hsend; subst t3 s3. clear Hsend.
  destruct (getitem_obj response_data' "key") as [issue_key|e] eqn:Hkey.
  2:{ rewrite bind_lift_raise with (e := e) in H by reflexivity. discriminate. }
  rewrite bind_lift_ok with (a := issue_key) in H by reflexivity.
  destruct (truthy issue_key) eqn:Hk; simpl negb in H; cbv iota in H;
    [|discriminate].
  apply bind_ok_inv in H. destruct H as ([] & t5 & s5 & t6 & Hupd & H & ->).
  apply bind_ok_inv in H. destruct H as ([] & t7 & s7 & t8 & Hlink & H & ->).
  inversion H; subst. clear H.
  destruct (update_post_creation_fields_inv _ _ _ _ _ _ Hk Hupd)
    as (update_fields & lookups2 & s2 & Hb & Hr2 & ->).
  exists initial_fields, lookups1, s1, issue_key, update_fields, lookups2, s2, t7.
  repeat split; auto.
  - pose proof (initial_issue_data_reads jira_project jira_issue epic_key
                                         parent_key s) as Hr.
    rewrite Hinit in Hr. exact Hr.
  - pose proof (link_issuelinks_trace jira_issue issue_key s5) as Ht.
    rewrite Hlink in Ht. unfold trace_of in Ht. simpl in Ht.
    destruct Ht as [->|(pk & lt & ->)]; repeat constructor.
  - rewrite app_nil_r. simpl. now rewrite <- app_assoc.
Qed.

Lemma mem_false_iff x names : mem x names = false <-> ~ In x names.
Proof.
  rewrite <- mem_In. destruct (mem x names); split; intros H; congruence.
Qed.

(** The second translation excludes exactly the fields of the input that
    are not post-creation fields. *)
Lemma fields_set_during_issue_creation_spec jira_issue f :
  In f (dict_keys jira_issue) ->
  mem f (fields_set_during_issue_creation self jira_issue)
  = negb (mem f (post_creation_update_fields self)).
Proof.
  intros Hin. unfold fields_set_during_issue_creation.
  destruct (mem f (post_creation_update_fields self)) eqn:Hp; simpl.
  - apply mem_false_iff. intros H. apply filter_In in H.
    destruct H as [_ H]. rewrite Hp in H. discriminate.
  - apply mem_In. apply filter_In. split; [exact Hin|]. now rewrite Hp.
Qed.

Lemma skipped_spec exclude_fields f :
  skipped exclude_fields f = structural f || mem f exclude_fields.
Proof.
  unfold skipped, structural.
  destruct (f =? "issues")%string, (mem f exclude_fields),
    (f =? "issuelinks")%string; reflexivity.
Qed.

Lemma first_bodies lookups1 initial_fields lookups2 issue_key update_fields
      links :
  Forall reads lookups1 -> Forall reads lookups2 ->
  Forall (fun r => is_create_request r = false
                   /\ is_update_request r = false) links ->
  let trace := lookups1 ++ create_request initial_fields :: lookups2
               ++ (if truthy (VDict update_fields)
                   then [update_request issue_key update_fields]
                   else [])
               ++ links in
  first_body is_create_request trace = Some initial_fields
  /\ first_body is_update_request trace
     = if truthy (VDict update_fields) then Some update_fields else None.
Proof.
  intros H1 H2 H3 trace. subst trace. unfold first_body.
  rewrite !filter_app. cbn [filter].
  rewrite (reads_filter_create _ H1), (reads_filter_update _ H1).
  rewrite !filter_app.
  rewrite (reads_filter_update _ H2).
  replace (filter is_update_request links) with (@nil request).
  2:{ symmetry. apply filter_none. eapply Forall_impl; [|exact H3].
      intros r Hr. apply Hr. }
  split; [reflexivity|].
  change (is_update_request (create_request initial_fields)) with false.
  cbn [app]. rewrite app_nil_r.
  destruct (truthy (VDict update_fields)); reflexivity.
Qed.

End Creation.

(** ** Recursion depth *)

(** Apart from the walk itself, nothing stops for lack of recursion
    depth. *)
Section Depth.
Variable W : Type.
Variable serve : W -> request -> outcome * W.
Variable self : Jira.

Lemma bind_within {A B} (m : M W A) (f : A -> M W B) s :
  within_depth (m s) ->
  (forall a t1 s1, m s = (Ok a, t1, s1) -> within_depth (f a s1)) ->
  within_depth (bind m f s).
Proof.
  unfold within_depth, outcome_of, bind. intros Hm Hf.
  destruct (m s) as [[[a|e] t1] s1].
  - specialize (Hf a t1 s1 eq_refl). now destruct (f a s1) as [[r t2] s2].
  - simpl in *. intros H. apply Hm. inversion H. reflexivity.
Qed.

Lemma lift_within {A} (r : result A) (s : W) :
  r <> Raise RecursionError -> within_depth (lift r s).
Proof. trivial. Qed.

Lemma ret_within {A} (a : A) (s : W) : within_depth (ret a s).
Proof. discriminate. Qed.

Lemma bind_result_within {A B} (r : result A) (f : A -> result B) :
  r <> Raise RecursionError ->
  (forall a, f a <> Raise RecursionError) ->
  bind_result r f <> Raise RecursionError.
Proof.
  destruct r as [a|e]; simpl; intros Hr Hf; [apply Hf|].
  intros H. apply Hr. inversion H. reflexivity.
Qed.

Lemma getitem_within v k : getitem v k <> Raise RecursionError.
Proof.
  destruct v; simpl; try discriminate. destruct (dict_get d k); discriminate.
Qed.

Lemma get_method_within v k default :
  get_method v k default <> Raise RecursionError.
Proof.
  destruct v; simpl; try discriminate. destruct (dict_get d k); discriminate.
Qed.

Lemma iter_within v : iter v <> Raise RecursionError.
Proof. destruct v; discriminate. Qed.

Lemma as_key_within entry : as_key entry <> Raise RecursionError.
Proof. destruct entry; discriminate. Qed.

Lemma getitem_obj_within o k : getitem_obj o k <> Raise RecursionError.
Proof. destruct o; simpl; [apply getitem_within|discriminate]. Qed.

Lemma get_method_obj_within o k default :
  get_method_obj o k default <> Raise RecursionError.
Proof. destruct o; simpl; [apply get_method_within|discriminate]. Qed.

Lemma iter_obj_within o : iter_obj o <> Raise RecursionError.
Proof. destruct o; simpl; [apply iter_within|discriminate]. Qed.

Lemma handle_outcome_within o : handle_outcome o <> Raise RecursionError.
Proof.
  destruct o as [r|]; simpl; [|discriminate].
  destruct (raises_for_status r); [discriminate|].
  destruct (negb (text r =? EmptyString)%string); [|discriminate].
  destruct (json r); discriminate.
Qed.

Lemma key_objects_within keys : key_objects keys <> Raise RecursionError.
Proof.
  induction keys as [|k keys IH]; simpl; [discriminate|].
  apply bind_result_within.
  - destruct k as [|a [|b [|c k]]]; discriminate.
  - intros kv. apply bind_result_within; [exact IH|discriminate].
Qed.

Lemma transform_field_value_within v key_type :
  transform_field_value v key_type <> Raise RecursionError.
Proof.
  destruct v; simpl; try discriminate.
  apply bind_result_within; [apply key_objects_within|discriminate].
Qed.

Lemma find_project_within projects project_key :
  find_project projects project_key <> Raise RecursionError.
Proof.
  induction projects as [|project projects IH]; simpl; [discriminate|].
  pose proof (getitem_within project "key") as Hk.
  destruct (getitem project "key") as [k|e]; [|congruence].
  destruct (py_eq k (VStr project_key)); [apply getitem_within|exact IH].
Qed.

Lemma find_sprint_within sprints sprint_name :
  find_sprint sprints sprint_name <> Raise RecursionError.
Proof.
  induction sprints as [|sprint sprints IH]; simpl; [discriminate|].
  pose proof (getitem_within sprint "name") as Hk.
  destruct (getitem sprint "name") as [k|e]; [|congruence].
  destruct (py_eq k sprint_name); [apply getitem_within|exact IH].
Qed.

Lemma scan_issuelinks_within links bound :
  scan_issuelinks links bound <> Raise RecursionError.
Proof.
  revert bound. induction links as [|link links IH]; intros bound; simpl;
    [discriminate|].
  apply bind_result_within; [apply getitem_within|]. intros ty.
  apply bind_result_within; [apply get_method_within|]. intros link_type.
  apply bind_result_within; [apply getitem_within|]. intros outward.
  apply bind_result_within; [apply get_method_within|]. intros pk.
  apply IH.
Qed.

Lemma set_epic_or_parent_within jira_issue initial_fields epic_key parent_key :
  set_epic_or_parent self jira_issue initial_fields epic_key parent_key
  <> Raise RecursionError.
Proof.
  unfold set_epic_or_parent.
  destruct (truthy epic_key && negb _).
  - destruct (dict_get (custom_field_mapping self) "epicLink") as [[id|tbl]|];
      discriminate.
  - destruct (py_eq _ _ && truthy parent_key); discriminate.
Qed.

Lemma send_request_within api_type custom issue_key data method s :
  within_depth (send_request serve api_type custom issue_key data method s).
Proof.
  unfold send_request.
  destruct (negb (mem (lower method) ["post"; "put"; "get"])); [discriminate|].
  apply bind_within.
  - unfold within_depth, outcome_of, http. now destruct (serve s _).
  - intros o _ s1 _. apply lift_within, handle_outcome_within.
Qed.

Lemma get_project_id_by_key_within project_key s :
  within_depth (get_project_id_by_key serve project_key s).
Proof.
  unfold get_project_id_by_key.
  apply bind_within; [apply send_request_within|]. intros response _ s1 _.
  apply bind_within; [apply lift_within, iter_obj_within|].
  intros projects _ s2 _. apply lift_within, find_project_within.
Qed.

Lemma get_board_id_by_project_key_within project_key s :
  within_depth (get_board_id_by_project_key serve project_key s).
Proof.
  unfold get_board_id_by_project_key.
  apply bind_within; [apply get_project_id_by_key_within|].
  intros project_id _ s1 _.
  apply bind_within; [apply send_request_within|]. intros response _ s2 _.
  apply bind_within; [apply lift_within, get_method_obj_within|].
  intros values _ s3 _.
  apply bind_within; [apply lift_within, iter_within|].
  intros [|board boards] _ s4 _; [discriminate|].
  apply lift_within, getitem_within.
Qed.

Lemma get_sprint_id_within board_id sprint_name s :
  within_depth (get_sprint_id serve board_id sprint_name s).
Proof.
  unfold get_sprint_id.
  apply bind_within; [apply send_request_within|]. intros response _ s1 _.
  apply bind_within; [apply lift_within, get_method_obj_within|].
  intros values _ s2 _.
  apply bind_within; [apply lift_within, iter_within|].
  intros sprints _ s3 _. apply lift_within, find_sprint_within.
Qed.

Ltac store_within :=
  apply bind_within;
  [apply lift_within; first [apply transform_field_value_within
                            |apply as_key_within]
  |intros; apply ret_within].

Lemma build_field_within jira_project exclude_fields issue_fields field_name
      field_value s :
  within_depth (build_field serve self jira_project exclude_fields
                            issue_fields field_name field_value s).
Proof.
  unfold build_field.
  destruct (field_name =? "issues")%string; [apply ret_within|].
  destruct (mem field_name exclude_fields); [apply ret_within|].
  destruct (field_name =? "issuelinks")%string; [apply ret_within|].
  destruct (mem field_name (key_format_fields self)); [store_within|].
  destruct (mem field_name (name_format_fields self)); [store_within|].
  destruct (dict_get (custom_field_mapping self) field_name) as [entry|].
  - destruct (field_name =? "sprint")%string; [|store_within].
    apply bind_within; [apply get_board_id_by_project_key_within|].
    intros board _ s1 _.
    apply bind_within; [apply get_sprint_id_within|].
    intros sprint_id _ s2 _. store_within.
  - destruct (dict_get (custom_field_mapping self) "key_format_fields")
      as [[id|key_table]|]; try discriminate.
    destruct (dict_get key_table field_name); [store_within|].
    destruct (dict_get (custom_field_mapping self) "name_format_fields")
      as [[id|name_table]|]; try discriminate.
    destruct (dict_get name_table field_name); [store_within|apply ret_within].
Qed.

Lemma build_fields_within jira_project exclude_fields items issue_fields s :
  within_depth (build_fields serve self jira_project exclude_fields items
                             issue_fields s).
Proof.
  revert issue_fields s.
  induction items as [|[n v] items IH]; intros issue_fields s; simpl.
  - apply ret_within.
  - apply bind_within; [apply build_field_within|].
    intros acc _ s1 _. apply IH.
Qed.

Lemma link_jira_issues_step_within issue_key issue_parent_key link_type s :
  within_depth ((link_jira_issues serve issue_key issue_parent_key link_type ;;;
                 ret tt) s).
Proof.
  apply bind_within; [apply send_request_within|]. intros; apply ret_within.
Qed.

Lemma create_new_jira_issue_within jira_project jira_issue epic_key parent_key s :
  within_depth (create_new_jira_issue serve self jira_project jira_issue
                                      epic_key parent_key s).
Proof.
  unfold create_new_jira_issue, initial_issue_data, update_post_creation_fields,
    link_issuelinks, _build_issue_data.
  apply bind_within.
  { apply bind_within; [apply build_fields_within|].
    intros fs _ s1 _. apply lift_within, set_epic_or_parent_within. }
  intros initial_fields _ s1 _.
  apply bind_within; [apply send_request_within|]. intros response _ s2 _.
  apply bind_within; [apply lift_within, getitem_obj_within|].
  intros issue_key _ s3 _.
  destruct (negb (truthy issue_key)); [discriminate|].
  apply bind_within.
  { apply bind_within; [apply build_fields_within|].
    intros update_fields _ s4 _.
    destruct (truthy (VDict update_fields)); [|apply ret_within].
    apply bind_within; [apply send_request_within|]. intros; apply ret_within. }
  intros _ _ s4 _.
  apply bind_within; [|intros; apply ret_within].
  destruct (dict_get jira_issue "issuelinks") as [issuelinks|];
    [|apply ret_within].
  apply bind_within; [apply lift_within, iter_within|]. intros links _ s5 _.
  apply bind_within; [apply lift_within, scan_issuelinks_within|].
  intros [[link_type issue_parent_key]|] _ s6 _; [|discriminate].
  apply link_jira_issues_step_within.
Qed.

Lemma for_each_within {A} (l : list A) (body : A -> M W unit) s :
  (forall x s1, In x l -> within_depth (body x s1)) ->
  within_depth (for_each l body s).
Proof.
  revert s. induction l as [|x l IH]; intros s H; simpl.
  - apply ret_within.
  - apply bind_within; [apply H; now left|].
    intros _ _ s1 _. apply IH. intros y s2 Hy. apply H. now right.
Qed.
End Depth.

(** ** Walking the tree *)

Section Walk.
Variable W : Type.
Variable serve : W -> request -> outcome * W.
Variable self : Jira.

(** A property of requests that holds for what a creation sends and for
    link requests holds along the whole walk. *)
Lemma create_list_of_jira_issues_Forall (P : request -> Prop) :
  (forall jira_project jira_issue epic_key parent_key s,
      Forall P (trace_of (create_new_jira_issue serve self jira_project
                            jira_issue epic_key parent_key s))) ->
  (forall issue_key issue_parent_key link_type,
      P (link_request issue_key issue_parent_key link_type)) ->
  forall fuel jira_project jira_issues epic_key issue_parent_key s,
    Forall P (trace_of (create_list_of_jira_issues serve self fuel jira_project
                          jira_issues epic_key issue_parent_key s)).
Proof.
  intros Hcreate Hlink.
  induction fuel as [|fuel IH];
    intros jira_project jira_issues epic_key issue_parent_key s; simpl.
  - apply raise_Forall.
  - apply bind_Forall; [apply lift_Forall|].
    intros issues _ s1 _. apply for_each_Forall.
    intros [| | | | |d] s2 _;
      try (apply bind_Forall; [apply lift_Forall|]; intros; apply ret_Forall).
    apply bind_Forall; [apply lift_Forall|]. intros issuetype _ s3 _.
    apply bind_Forall; [apply lift_Forall|]. intros _ _ s4 _.
    apply bind_Forall; [apply Hcreate|]. intros response _ s5 _.
    apply bind_Forall; [apply lift_Forall|]. intros issue_key _ s6 _.
    apply bind_Forall.
    + destruct (truthy issue_parent_key && negb _); [|apply ret_Forall].
      rewrite bind_ret_trace. apply send_request_Forall. apply Hlink.
    + intros _ _ s7 _.
      destruct (dict_get d "issues"); [apply IH|apply ret_Forall].
Qed.

Lemma create_epics_and_issues_Forall (P : request -> Prop) :
  (forall jira_project jira_issue epic_key parent_key s,
      Forall P (trace_of (create_new_jira_issue serve self jira_project
                            jira_issue epic_key parent_key s))) ->
  (forall issue_key issue_parent_key link_type,
      P (link_request issue_key issue_parent_key link_type)) ->
  forall fuel jira_project epics s,
    Forall P (trace_of (create_epics_and_issues serve self fuel jira_project
                                                epics s)).
Proof.
  intros Hcreate Hlink fuel jira_project epics s.
  unfold create_epics_and_issues.
  apply bind_Forall; [apply lift_Forall|].
  intros epic_list _ s1 _. apply for_each_Forall.
  intros [| | | | |d] s2 _;
    try (apply bind_Forall; [apply lift_Forall|]; intros; apply ret_Forall).
  apply bind_Forall; [apply lift_Forall|]. intros _ _ s3 _.
  apply bind_Forall; [apply Hcreate|]. intros response _ s4 _.
  apply bind_Forall; [apply lift_Forall|]. intros epic_key _ s5 _.
  destruct (dict_get d "issues"); [|apply ret_Forall].
  now apply create_list_of_jira_issues_Forall.
Qed.


(** *** Order of the creation requests *)

Lemma follows_bind {A B} jira_project nodes1 nodes2 (m : M W A)
      (f : A -> M W B) s :
  follows serve self jira_project nodes1 (m s) ->
  (forall a t1 s1, m s = (Ok a, t1, s1) ->
                   follows serve self jira_project nodes2 (f a s1)) ->
  follows serve self jira_project (nodes1 ++ nodes2) (bind m f s).
Proof.
  intros (done1 & rest1 & -> & HF1 & Hok1) Hf. unfold bind.
  destruct (m s) as [[[a|e] t1] s1] eqn:E.
  - rewrite (Hok1 eq_refl), app_nil_r in *.
    destruct (Hf a t1 s1 eq_refl) as (done2 & rest2 & -> & HF2 & Hok2).
    destruct (f a s1) as [[r t2] s2].
    exists (done1 ++ done2), rest2. unfold trace_of, outcome_of in *. simpl in *.
    split; [now rewrite app_assoc|]. split; [|exact Hok2].
    rewrite filter_app. now apply Forall2_app.
  - exists done1, (rest1 ++ nodes2). unfold trace_of, outcome_of in *. simpl in *.
    split; [now rewrite app_assoc|]. split; [exact HF1|discriminate].
Qed.

(** A run that sends no creation request creates no node. *)
Lemma follows_quiet {A} jira_project (run : result A * list request * W) :
  Forall (fun r => is_create_request r = false) (trace_of run) ->
  follows serve self jira_project [] run.
Proof.
  intros H. exists [], []. split; [reflexivity|]. split; [|reflexivity].
  rewrite (filter_none _ _ H). constructor.
Qed.

Lemma follows_lift {A} jira_project (r : result A) s :
  follows serve self jira_project [] (lift r s).
Proof. apply follows_quiet. constructor. Qed.

Lemma follows_ret {A} jira_project (a : A) (s : W) :
  follows serve self jira_project [] (ret a s).
Proof. apply follows_quiet. constructor. Qed.

(** What follows the creation request sends no other creation request. *)
Lemma after_creation_quiet jira_project jira_issue response_data s :
  Forall (fun r => is_create_request r = false)
         (trace_of
            ((issue_key <- lift (getitem_obj response_data "key") ;;
              if negb (truthy issue_key) then
                raise (ValueError
                         "Failed to retrieve issue key from the Jira response")
              else
                update_post_creation_fields serve self jira_project jira_issue
                                            issue_key ;;;
                link_issuelinks serve jira_issue issue_key ;;;
                ret response_data) s)).
Proof.
  apply bind_Forall; [apply lift_Forall|].
  intros issue_key _ s1 _.
  destruct (truthy issue_key) eqn:Hk; simpl negb; cbv iota;
    [|apply raise_Forall].
  apply bind_Forall.
  - destruct (update_post_creation_fields_kinds W serve self jira_project
                jira_issue issue_key s1) as [H|H]; [|congruence].
    eapply Forall_impl; [|exact H].
    intros r [Hr|(fs & -> & _)]; [apply (reads_kinds r Hr)|reflexivity].
  - intros _ _ s2 _. rewrite bind_ret_trace.
    destruct (link_issuelinks_trace W serve jira_issue issue_key s2)
      as [->|(pk & lt & ->)]; repeat constructor.
Qed.

(** Creating one issue sends its creation request, once, if it gets as far
    as sending it. *)
Lemma create_new_jira_issue_follows jira_project jira_issue epic_key
      parent_key s :
  follows serve self jira_project [jira_issue]
          (create_new_jira_issue serve self jira_project jira_issue
                                 epic_key parent_key s).
Proof.
  unfold create_new_jira_issue.
  change [jira_issue] with ([] ++ [jira_issue] ++ []).
  apply follows_bind.
  { apply follows_quiet. eapply Forall_impl;
      [|apply initial_issue_data_reads].
    intros r Hr. apply (reads_kinds r Hr). }
  intros initial_fields t1 s1 Hinit.
  apply follows_bind.
  - rewrite send_create_run.
    exists [jira_issue], []. split; [reflexivity|]. split; [|reflexivity].
    unfold trace_of. simpl. constructor; [|constructor].
    exists epic_key, parent_key, s, initial_fields, t1, s1. auto.
  - intros response_data _ s2 _.
    apply follows_quiet. apply after_creation_quiet.
Qed.

Lemma all_some_cons {A} (o : option A) l (out : list A) :
  all_some (o :: l) = Some out ->
  exists x rest, o = Some x /\ all_some l = Some rest /\ out = x :: rest.
Proof.
  simpl. destruct o as [x|]; [|discriminate].
  destruct (all_some l) as [rest|]; simpl; [|discriminate].
  intros H. inversion H. eauto.
Qed.

Lemma link_step_quiet jira_project (cond : bool) issue_key issue_parent_key
      link_type s :
  follows serve self jira_project []
          ((if cond then
              link_jira_issues serve issue_key issue_parent_key link_type ;;;
              ret tt
            else ret tt) s).
Proof.
  apply follows_quiet. destruct cond; [|constructor].
  rewrite bind_ret_trace, link_jira_issues_run. repeat constructor.
Qed.

(** The creation requests of [create_list_of_jira_issues] follow the
    depth-first order of the forest under the list. *)
Lemma create_list_of_jira_issues_follows fuel :
  forall jira_project jira_issues forest epic_key issue_parent_key s,
    forest_of fuel jira_issues = Some forest ->
    follows serve self jira_project (flat_map preorder forest)
            (create_list_of_jira_issues serve self fuel jira_project
                                        jira_issues epic_key issue_parent_key s).
Proof.
  induction fuel as [|fuel IH];
    intros jira_project jira_issues forest epic_key issue_parent_key s Hforest;
    [discriminate|].
  simpl in Hforest. simpl create_list_of_jira_issues.
  destruct (iter jira_issues) as [issues|e]; [|discriminate].
  rewrite bind_lift_ok with (a := issues) by reflexivity.
  revert forest Hforest s.
  induction issues as [|issue issues IHissues]; intros forest Hforest s.
  - inversion Hforest; subst. simpl. apply follows_ret.
  - apply all_some_cons in Hforest.
    destruct Hforest as (node & forest' & Hnode & Hrest & ->).
    cbn [flat_map for_each].
    apply follows_bind; [|intros; now apply IHissues].
    destruct issue as [| | | | |d]; try discriminate.
    assert (Hchildren :
              exists children,
                node = Node d children
                /\ forall issue_key s',
                    follows serve self jira_project
                            (flat_map preorder children)
                            (match dict_get d "issues" with
                             | Some nested =>
                                 create_list_of_jira_issues
                                   serve self fuel jira_project nested
                                   epic_key issue_key
                             | None => ret tt
                             end s')).
    { destruct (dict_get d "issues") as [nested|].
      - destruct (forest_of fuel nested) as [children|] eqn:Hc; [|discriminate].
        inversion Hnode; subst. exists children. split; [reflexivity|].
        intros. now apply IH.
      - inversion Hnode; subst. exists []. split; [reflexivity|].
        intros. apply follows_ret. }
    destruct Hchildren as (children & -> & Hnested).
    change (preorder (Node d children))
      with ([] ++ [] ++ [d] ++ [] ++ [] ++ flat_map preorder children).
    apply follows_bind; [apply follows_lift|]. intros issuetype _ s1 _.
    apply follows_bind; [apply follows_lift|]. intros _ _ s2 _.
    apply follows_bind; [apply create_new_jira_issue_follows|].
    intros response _ s3 _.
    apply follows_bind; [apply follows_lift|]. intros issue_key _ s4 _.
    apply follows_bind; [apply link_step_quiet|]. intros _ _ s5 _.
    apply Hnested.
Qed.

Lemma all_some_In {A B} (g : A -> option B) l out x :
  all_some (map g l) = Some out -> In x l -> exists y, g x = Some y.
Proof.
  revert out. induction l as [|a l IH]; intros out H Hin; [contradiction|].
  apply all_some_cons in H. destruct H as (y & rest & Hy & Hrest & _).
  destruct Hin as [->|Hin]; eauto.
Qed.

(** With enough depth for the nesting, the walk does not stop for lack
    of recursion depth. *)
Lemma create_list_of_jira_issues_within fuel :
  forall jira_project jira_issues forest epic_key issue_parent_key s,
    forest_of fuel jira_issues = Some forest ->
    within_depth (create_list_of_jira_issues serve self fuel jira_project
                    jira_issues epic_key issue_parent_key s).
Proof.
  induction fuel as [|fuel IH];
    intros jira_project jira_issues forest epic_key issue_parent_key s Hforest;
    [discriminate|].
  simpl in Hforest. simpl create_list_of_jira_issues.
  destruct (iter jira_issues) as [issues|e]; [|discriminate].
  rewrite bind_lift_ok with (a := issues) by reflexivity.
  apply for_each_within. intros issue s1 Hin.
  destruct (all_some_In _ _ _ _ Hforest Hin) as (node & Hnode).
  destruct issue as [| | | | |d]; try discriminate.
  apply bind_within; [apply lift_within, getitem_within|]. intros ty _ s2 _.
  apply bind_within; [apply lift_within, getitem_within|]. intros _ _ s3 _.
  apply bind_within; [apply create_new_jira_issue_within|].
  intros response _ s4 _.
  apply bind_within; [apply lift_within, getitem_obj_within|].
  intros issue_key _ s5 _.
  apply bind_within.
  { destruct (truthy issue_parent_key && negb _); [|apply ret_within].
    apply link_jira_issues_step_within. }
  intros _ _ s6 _.
  destruct (dict_get d "issues") as [nested|]; [|apply ret_within].
  destruct (forest_of fuel nested) as [children|] eqn:Hc; [|discriminate].
  now apply IH with (forest := children).
Qed.

Lemma create_epics_and_issues_within fuel jira_project epics forest s :
  forest_of (S fuel) epics = Some forest ->
  within_depth (create_epics_and_issues serve self fuel jira_project epics s).
Proof.
  intros Hforest. simpl in Hforest. unfold create_epics_and_issues.
  destruct (iter epics) as [epic_list|e]; [|discriminate].
  rewrite bind_lift_ok with (a := epic_list) by reflexivity.
  apply for_each_within. intros epic s1 Hin.
  destruct (all_some_In _ _ _ _ Hforest Hin) as (node & Hnode).
  destruct epic as [| | | | |d]; try discriminate.
  apply bind_within; [apply lift_within, getitem_within|]. intros _ _ s2 _.
  apply bind_within; [apply create_new_jira_issue_within|].
  intros response _ s3 _.
  apply bind_within; [apply lift_within, getitem_obj_within|].
  intros epic_key _ s4 _.
  destruct (dict_get d "issues") as [nested|]; [|apply ret_within].
  destruct (forest_of fuel nested) as [children|] eqn:Hc; [|discriminate].
  now apply create_list_of_jira_issues_within with (forest := children).
Qed.

(** C4.  For a nested specification of epics and issues, the creation
    requests are sent in the depth-first order of its tree, lists in input
    order: the request for a node comes before those for its children and
    the request for an epic before those for all its descendants.  If the
    walk stops on an exception the requests sent so far are those for the
    first nodes in that order; if it completes there is one for each node.
    With a recursion depth that covers the nesting the walk never stops
    for lack of depth. *)
Theorem creation_order_is_preorder fuel jira_project epics forest s :
  forest_of (S fuel) epics = Some forest ->
  (exists done rest,
      flat_map preorder forest = done ++ rest
      /\ Forall2 (creates serve self jira_project) done
                 (filter is_create_request
                         (trace_of (create_epics_and_issues serve self fuel
                                      jira_project epics s)))
      /\ (is_ok (outcome_of (create_epics_and_issues serve self fuel
                               jira_project epics s)) = true ->
          rest = []))
  /\ outcome_of (create_epics_and_issues serve self fuel jira_project epics s)
     <> Raise RecursionError.
Proof.
  intros Hforest.
  split; [|now apply create_epics_and_issues_within with (forest := forest)].
  change (follows serve self jira_project
                  (flat_map preorder forest)
                  (create_epics_and_issues serve self fuel
                     jira_project epics s)).
  simpl in Hforest. unfold create_epics_and_issues.
  destruct (iter epics) as [epic_list|e]; [|discriminate].
  rewrite bind_lift_ok with (a := epic_list) by reflexivity.
  revert forest Hforest s.
  induction epic_list as [|epic epic_list IH]; intros forest Hforest s.
  - inversion Hforest; subst. simpl. apply follows_ret.
  - apply all_some_cons in Hforest.
    destruct Hforest as (node & forest' & Hnode & Hrest & ->).
    cbn [flat_map for_each].
    apply follows_bind; [|intros; now apply IH].
    destruct epic as [| | | | |d]; try discriminate.
    change (match dict_get d "issues" with
            | Some children => option_map (Node d) (forest_of fuel children)
            | None => Some (Node d [])
            end = Some node) in Hnode.
    destruct (dict_get d "issues") as [nested|].
    + destruct (forest_of fuel nested) as [children|] eqn:Hc; [|discriminate].
      inversion Hnode; subst.
      change (preorder (Node d children))
        with ([] ++ [d] ++ [] ++ flat_map preorder children).
      apply follows_bind; [apply follows_lift|]. intros _ _ s1 _.
      apply follows_bind; [apply create_new_jira_issue_follows|].
      intros response _ s2 _.
      apply follows_bind; [apply follows_lift|]. intros epic_key _ s3 _.
      now apply create_list_of_jira_issues_follows.
    + inversion Hnode; subst.
      change (preorder (Node d [])) with ([] ++ [d] ++ [] ++ []).
      apply follows_bind; [apply follows_lift|]. intros _ _ s1 _.
      apply follows_bind; [apply create_new_jira_issue_follows|].
      intros response _ s2 _.
      apply follows_bind; [apply follows_lift|]. intros epic_key _ s3 _.
      apply follows_ret.
Qed.
End Walk.

(** ** The properties on concrete runs *)

Lemma create_response_without_key_witness :
  outcome_of (create_new_jira_issue scripted example_config "PROJ" example_task
                VNone VNone
                [Answer (json_response 201 (VDict [("id", VStr "10000")]))])
  = Raise (KeyError "key")
  /\ outcome_of (create_epics_and_issues scripted example_config 2 "PROJ"
                   (VList [VDict epic_E])
                   [Answer (json_response 201 (VDict [("id", VStr "10000")]))])
     = Raise (KeyError "key").
Proof.
  split.
  - edestruct (create_response_without_key_raises_at_subscript
                 (list outcome) scripted example_config "PROJ" example_task
                 VNone VNone
                 [Answer (json_response 201 (VDict [("id", VStr "10000")]))])
      as (_ & Hrun & _);
      [reflexivity | reflexivity | simpl; lia | reflexivity | reflexivity |].
    rewrite Hrun. reflexivity.
  - edestruct (create_response_without_key_raises_at_subscript
                 (list outcome) scripted example_config "PROJ" epic_E
                 VNone VNone
                 [Answer (json_response 201 (VDict [("id", VStr "10000")]))])
      as (_ & _ & Hwalk);
      [reflexivity | reflexivity | simpl; lia | reflexivity | reflexivity |].
    rewrite (Hwalk eq_refl eq_refl eq_refl 2 []). reflexivity.
Defined.

(** The [ValueError] meant for a missing key is raised only when the
    answer has the entry and its value is empty. *)
Example create_response_with_empty_key :
  outcome_of (create_new_jira_issue scripted example_config "PROJ" example_task
                VNone VNone
                [Answer (json_response 201 (VDict [("key", VStr EmptyString)]))])
  = Raise (ValueError "Failed to retrieve issue key from the Jira response").
Proof. reflexivity. Qed.

(** An empty answer to the creation request ends in a [TypeError]. *)
Example create_response_with_empty_body :
  outcome_of (create_new_jira_issue scripted example_config "PROJ" example_task
                VNone VNone [no_content 201])
  = Raise (TypeError "Response object is not subscriptable").
Proof. reflexivity. Qed.

Lemma links_at_most_once_witness :
  length (filter is_link_request
                 (trace_of (create_new_jira_issue scripted example_config "PROJ"
                              linked_task VNone VNone
                              [created "PROJ-7"; no_content 201]))) <= 1
  /\ Forall (fun r => exists issue_key,
                r = link_request issue_key (VStr "PROJ-2") (VStr "Relates"))
            (filter is_link_request
                    (trace_of (create_new_jira_issue scripted example_config
                                 "PROJ" linked_task VNone VNone
                                 [created "PROJ-7"; no_content 201]))).
Proof.
  destruct (create_new_jira_issue_links_at_most_once
              (list outcome) scripted example_config "PROJ" linked_task
              VNone VNone [created "PROJ-7"; no_content 201])
    as [Hcount Hlast].
  split; [exact Hcount|].
  apply Forall_forall. intros r Hr.
  destruct (Hlast
              [VDict [("type", VDict [("name", VStr "Blocks")]);
                      ("outwardIssue", VDict [("key", VStr "PROJ-1")])]]
              (VDict [("type", VDict [("name", VStr "Relates")]);
                      ("outwardIssue", VDict [("key", VStr "PROJ-2")])])
              eq_refl r Hr)
    as (key & pk & lt & Hscan & ->).
  inversion Hscan; subst. now exists key.
Defined.

(** Of the two entries of [issuelinks] only the last one is linked. *)
Example only_the_last_issuelink_is_linked :
  filter is_link_request
         (trace_of (create_new_jira_issue scripted example_config "PROJ"
                      linked_task VNone VNone
                      [created "PROJ-7"; no_content 201]))
  = [link_request (VStr "PROJ-7") (VStr "PROJ-2") (VStr "Relates")].
Proof. reflexivity. Qed.




Lemma creation_order_witness :
  Forall2 (creates scripted example_config "PROJ")
          [epic_E; issue_I1; subtask_S; issue_I2]
          (filter is_create_request
                  (trace_of (create_epics_and_issues scripted example_config 2
                               "PROJ" example_epics
                               [created "PROJ-1"; created "PROJ-2";
                                created "PROJ-3"; created "PROJ-4"]))).
Proof.
  destruct (creation_order_is_preorder
              (list outcome) scripted example_config 2 "PROJ" example_epics
              example_forest
              [created "PROJ-1"; created "PROJ-2"; created "PROJ-3";
               created "PROJ-4"] eq_refl)
    as [(done & rest & Hsplit & Hdone & Hall) _].
  rewrite (Hall eq_refl), app_nil_r in Hsplit. subst done. exact Hdone.
Defined.

(** The walk over the example creates E, I1, S and I2 in that order. *)
Example creation_order_on_the_example :
  created_summaries
    (trace_of (create_epics_and_issues scripted example_config 2 "PROJ"
                 example_epics
                 [created "PROJ-1"; created "PROJ-2"; created "PROJ-3";
                  created "PROJ-4"]))
  = [Some (VStr "E"); Some (VStr "I1"); Some (VStr "S"); Some (VStr "I2")].
Proof. reflexivity. Qed.

(** * Further properties *)

(** ** Transport: methods, statuses, bodies *)

Lemma lower_ascii_idempotent c : lower_ascii (lower_ascii c) = lower_ascii c.
Proof.
  unfold lower_ascii.
  destruct ((65 <=? nat_of_ascii c)%nat && (nat_of_ascii c <=? 90)%nat) eqn:E.
  - apply andb_true_iff in E. destruct E as [Hlo Hhi].
    apply Nat.leb_le in Hlo. apply Nat.leb_le in Hhi.
    rewrite nat_ascii_embedding by lia.
    replace ((nat_of_ascii c + 32 <=? 90)%nat) with false
      by (symmetry; apply Nat.leb_gt; lia).
    rewrite andb_false_r. reflexivity.
  - rewrite E. reflexivity.
Qed.

Lemma lower_idempotent s : lower (lower s) = lower s.
Proof.
  induction s as [|c s IH]; [reflexivity|].
  simpl. now rewrite lower_ascii_idempotent, IH.
Qed.

Section TransportMore.
Variable W : Type.
Variable serve : W -> request -> outcome * W.

(** X1.  A method other than post, put and get is refused before
    anything is sent: [send_request] raises [ValueError], the trace is
    empty and the tracker is in the state it was in. *)
Theorem send_request_rejects_unknown_method
        api_type custom issue_key data method s :
  mem (lower method) ["post"; "put"; "get"] = false ->
  send_request serve api_type custom issue_key data method s
  = (Raise (ValueError "Invalid HTTP method"), [], s).
Proof.
  intros H. unfold send_request. rewrite H. reflexivity.
Qed.

(** X2.  The method is read without regard to case: a call with a method
    name and the call with the name in lower case are the same run, with
    the same request, outcome and final state. *)
Theorem send_request_method_case_insensitive
        api_type custom issue_key data method s :
  send_request serve api_type custom issue_key data method s
  = send_request serve api_type custom issue_key data (lower method) s.
Proof.
  unfold send_request, request_url.
  rewrite !lower_idempotent. reflexivity.
Qed.

(** X3.  For a call that is answered, [send_request] raises exactly on
    the statuses from 400 to 599, and then the HTTP error of that status.
    Every other status, also an informational or a redirect one, counts as
    success: a non-empty body is returned parsed, and a non-empty body
    that is not JSON is returned as [{'response_text': text}]. *)
Theorem send_request_raises_exactly_on_error_status
        api_type custom issue_key data method s r s' :
  mem (lower method) ["post"; "put"; "get"] = true ->
  serve s (mkRequest (http_method_of (lower method))
                     (request_url api_type custom issue_key method) data)
  = (Answer r, s') ->
  ((400 <= status_code r < 600)%Z ->
   outcome_of (send_request serve api_type custom issue_key data method s)
   = Raise (HTTPError (status_code r)))
  /\ (~ (400 <= status_code r < 600)%Z ->
      is_ok (outcome_of (send_request serve api_type custom issue_key data
                                      method s)) = true
      /\ (text r <> EmptyString ->
          outcome_of (send_request serve api_type custom issue_key data method s)
          = Ok (Json match json r with
                     | Some response_json => response_json
                     | None => VDict [("response_text", VStr (text r))]
                     end))).
Proof.
  intros Hm Hs.
  rewrite (send_request_answer _ serve _ _ _ _ _ _ _ _ Hm Hs).
  unfold outcome_of, handle_outcome, raises_for_status. simpl. split.
  - intros [Hlo Hhi].
    apply Z.leb_le in Hlo. apply Z.ltb_lt in Hhi. now rewrite Hlo, Hhi.
  - intros Hno.
    assert (E : (400 <=? status_code r)%Z && (status_code r <? 600)%Z = false).
    { destruct ((400 <=? status_code r)%Z) eqn:Hlo;
        destruct ((status_code r <? 600)%Z) eqn:Hhi; try reflexivity.
      exfalso. apply Hno. apply Z.leb_le in Hlo. apply Z.ltb_lt in Hhi. lia. }
    rewrite E. split.
    + destruct (negb (text r =? EmptyString)%string); [|reflexivity].
      destruct (json r); reflexivity.
    + intros Htxt. apply String.eqb_neq in Htxt. rewrite Htxt. simpl.
      destruct (json r); reflexivity.
Qed.

(** X4.  When the call fails before there is a response, the handler of
    the transport's exception reads the local [response], which was never
    bound: the caller gets [UnboundLocalError] in place of the transport's
    exception.  The request still counts as sent. *)
Theorem send_request_transport_failure_is_masked
        api_type custom issue_key data method s s' :
  mem (lower method) ["post"; "put"; "get"] = true ->
  serve s (mkRequest (http_method_of (lower method))
                     (request_url api_type custom issue_key method) data)
  = (NoResponse, s') ->
  send_request serve api_type custom issue_key data method s
  = (Raise (UnboundLocalError "response"),
     [mkRequest (http_method_of (lower method))
                (request_url api_type custom issue_key method) data], s').
Proof.
  intros Hm Hs. unfold send_request. rewrite Hm. cbn [negb].
  unfold bind, http, lift. rewrite Hs. reflexivity.
Qed.
End TransportMore.

Lemma send_request_rejects_unknown_method_witness :
  send_request scripted (Some "issue") None (VStr "PROJ-1") None "DELETE"
               [no_content 204]
  = (Raise (ValueError "Invalid HTTP method"), [], [no_content 204]).
Proof.
  apply (send_request_rejects_unknown_method
           (list outcome) scripted (Some "issue") None (VStr "PROJ-1") None
           "DELETE" [no_content 204]).
  reflexivity.
Defined.

Lemma send_request_error_status_witness :
  outcome_of (send_request scripted (Some "issue") None VNone None "get"
                [Answer (mkResponse 404 "Issue Does Not Exist" None)])
  = Raise (HTTPError 404)
  /\ outcome_of (send_request scripted (Some "issue") None VNone None "get"
                   [Answer (mkResponse 302 "<html>moved</html>" None)])
     = Ok (Json (VDict [("response_text", VStr "<html>moved</html>")])).
Proof.
  split.
  - destruct (send_request_raises_exactly_on_error_status
                (list outcome) scripted (Some "issue") None VNone None "get"
                [Answer (mkResponse 404 "Issue Does Not Exist" None)]
                (mkResponse 404 "Issue Does Not Exist" None) [])
      as [Herr _]; [reflexivity | reflexivity |].
    apply Herr. simpl. lia.
  - destruct (send_request_raises_exactly_on_error_status
                (list outcome) scripted (Some "issue") None VNone None "get"
                [Answer (mkResponse 302 "<html>moved</html>" None)]
                (mkResponse 302 "<html>moved</html>" None) [])
      as [_ Hok]; [reflexivity | reflexivity |].
    destruct Hok as [_ Hbody]; [simpl; lia|].
    apply Hbody. discriminate.
Defined.

Lemma send_request_transport_failure_witness :
  send_request scripted (Some "project") None VNone None "get" [NoResponse]
  = (Raise (UnboundLocalError "response"),
     [mkRequest GET (ApiUrl (Some "project") None) None], []).
Proof.
  apply (send_request_transport_failure_is_masked
           (list outcome) scripted (Some "project") None VNone None "get"
           [NoResponse] []).
  - reflexivity.
  - reflexivity.
Defined.

(** ** Looking up the project and its board *)

Section LookupsMore.
Variable W : Type.
Variable serve : W -> request -> outcome * W.

Lemma getitem_project key id project :
  is_project key id project ->
  getitem project "key" = Ok (VStr key) /\ getitem project "id" = Ok id.
Proof.
  intros (d & -> & Hk & Hi). simpl. now rewrite Hk, Hi.
Qed.

Lemma find_project_first described before key id after projects :
  Forall2 (fun p v => is_project (fst p) (snd p) v) described projects ->
  described = before ++ (key, id) :: after ->
  ~ In key (map fst before) ->
  find_project projects key = Ok id.
Proof.
  intros HF. revert before.
  induction HF as [|[k i] v described projects Hv HF IH]; intros before Heq Hnot.
  - destruct before; discriminate.
  - destruct (getitem_project _ _ _ Hv) as [Hk Hi]. simpl in Hk, Hi.
    destruct before as [|[k' i'] before]; simpl in Heq; inversion Heq; subst.
    + simpl. rewrite Hk. simpl. rewrite String.eqb_refl. exact Hi.
    + simpl. rewrite Hk. simpl.
      destruct (String.eqb_spec k' key) as [->|Hne].
      * exfalso. apply Hnot. now left.
      * apply (IH before); [reflexivity|].
        intros Hin. apply Hnot. now right.
Qed.

Lemma find_project_absent described key projects :
  Forall2 (fun p v => is_project (fst p) (snd p) v) described projects ->
  ~ In key (map fst described) ->
  find_project projects key = Raise (RuntimeError "Project key not found").
Proof.
  induction 1 as [|[k i] v described projects Hv HF IH]; intros Hnot.
  - reflexivity.
  - destruct (getitem_project _ _ _ Hv) as [Hk _]. simpl in Hk.
    simpl. rewrite Hk. simpl.
    destruct (String.eqb_spec k key) as [->|Hne].
    + exfalso. apply Hnot. now left.
    + apply IH. intros Hin. apply Hnot. now right.
Qed.

Lemma send_get_json api_type custom s r body s' :
  serve s (mkRequest GET (request_url api_type custom VNone "get") None)
  = (Answer r, s') ->
  (200 <= status_code r < 300)%Z ->
  text r <> EmptyString ->
  json r = Some body ->
  send_request serve api_type custom VNone None "get" s
  = (Ok (Json body),
     [mkRequest GET (request_url api_type custom VNone "get") None], s').
Proof.
  intros Hs Hst Htxt Hjson.
  erewrite send_request_answer; [|reflexivity|exact Hs].
  unfold handle_outcome. rewrite success_status_passes by exact Hst.
  apply String.eqb_neq in Htxt. rewrite Htxt, Hjson. reflexivity.
Qed.

Lemma get_project_id_by_key_run project_key s r projects s' :
  serve s (mkRequest GET (ApiUrl (Some "project") None) None) = (Answer r, s') ->
  (200 <= status_code r < 300)%Z ->
  text r <> EmptyString ->
  json r = Some (VList projects) ->
  get_project_id_by_key serve project_key s
  = (find_project projects project_key,
     [mkRequest GET (ApiUrl (Some "project") None) None], s').
Proof.
  intros Hs Hst Htxt Hjson. unfold get_project_id_by_key.
  erewrite bind_ok_run
    by (apply (send_get_json (Some "project") None _ _ _ _ Hs Hst Htxt Hjson)).
  reflexivity.
Qed.

(** X5.  [get_project_id_by_key] asks for the project list once.  If a
    project of the list has the key, the id returned is that of the first
    such project; if none has it, the call raises [RuntimeError].  Keys
    are compared as they are, so a key in another case is not found. *)
Theorem get_project_id_by_key_first_match
        project_key s r described projects s' :
  serve s (mkRequest GET (ApiUrl (Some "project") None) None) = (Answer r, s') ->
  (200 <= status_code r < 300)%Z ->
  text r <> EmptyString ->
  json r = Some (VList projects) ->
  Forall2 (fun p v => is_project (fst p) (snd p) v) described projects ->
  (In project_key (map fst described) ->
   exists before id after,
     described = before ++ (project_key, id) :: after
     /\ ~ In project_key (map fst before)
     /\ get_project_id_by_key serve project_key s
        = (Ok id, [mkRequest GET (ApiUrl (Some "project") None) None], s'))
  /\ (~ In project_key (map fst described) ->
      get_project_id_by_key serve project_key s
      = (Raise (RuntimeError "Project key not found"),
         [mkRequest GET (ApiUrl (Some "project") None) None], s')).
Proof.
  intros Hs Hst Htxt Hjson HF.
  rewrite (get_project_id_by_key_run _ _ _ _ _ Hs Hst Htxt Hjson). split.
  - intros Hin.
    destruct (in_first_occurrence _ _ Hin) as (before & id & after & Heq & Hnot).
    exists before, id, after. repeat split; auto.
    now rewrite (find_project_first _ _ _ _ _ _ HF Heq Hnot).
  - intros Hnot. now rewrite (find_project_absent _ _ _ HF Hnot).
Qed.

(** X6.  [get_board_id_by_project_key] first looks the project up and
    then searches the boards of the id it found.  A failed project lookup
    ends the call with the same exception and the board search is never
    sent.  Otherwise the id of the first board listed under [values] is
    returned, and a body without [values], or with an empty list there,
    raises [RuntimeError]. *)
Theorem get_board_id_by_project_key_first_board project_key s :
  (forall e t1 s1,
      get_project_id_by_key serve project_key s = (Raise e, t1, s1) ->
      get_board_id_by_project_key serve project_key s = (Raise e, t1, s1))
  /\ (forall project_id t1 s1 r body s2,
         get_project_id_by_key serve project_key s = (Ok project_id, t1, s1) ->
         serve s1 (mkRequest GET (BoardSearchUrl project_id) None)
         = (Answer r, s2) ->
         (200 <= status_code r < 300)%Z ->
         text r <> EmptyString ->
         json r = Some (VDict body) ->
         (forall board boards,
             dict_get body "values" = Some (VList (board :: boards)) ->
             get_board_id_by_project_key serve project_key s
             = (getitem board "id",
                t1 ++ [mkRequest GET (BoardSearchUrl project_id) None], s2))
         /\ (dict_get body "values" = None
             \/ dict_get body "values" = Some (VList []) ->
             get_board_id_by_project_key serve project_key s
             = (Raise (RuntimeError "No boards found for project key"),
                t1 ++ [mkRequest GET (BoardSearchUrl project_id) None], s2))).
Proof.
  split.
  - intros e t1 s1 Hp. unfold get_board_id_by_project_key, bind at 1.
    rewrite Hp. reflexivity.
  - intros project_id t1 s1 r body s2 Hp Hs Hst Htxt Hjson.
    assert (Hsend := send_get_json None (Some (BoardSearchUrl project_id))
                                   _ _ _ _ Hs Hst Htxt Hjson).
    split.
    + intros board boards Hv. unfold get_board_id_by_project_key.
      rewrite (bind_ok_run _ _ _ _ _ _ Hp).
      rewrite (bind_ok_run _ _ _ _ _ _ Hsend).
      simpl. rewrite Hv. reflexivity.
    + intros Hv. unfold get_board_id_by_project_key.
      rewrite (bind_ok_run _ _ _ _ _ _ Hp).
      rewrite (bind_ok_run _ _ _ _ _ _ Hsend).
      simpl. destruct Hv as [Hv|Hv]; rewrite Hv; reflexivity.
Qed.
End LookupsMore.

Lemma get_project_id_by_key_witness :
  get_project_id_by_key scripted "PROJ"
    [Answer (json_response 200
               (VList [VDict [("id", VStr "10000"); ("key", VStr "OTHER")];
                       VDict [("id", VStr "10001"); ("key", VStr "PROJ")]]))]
  = (Ok (VStr "10001"), [mkRequest GET (ApiUrl (Some "project") None) None], [])
  /\ get_project_id_by_key scripted "proj"
       [Answer (json_response 200
                  (VList [VDict [("id", VStr "10000"); ("key", VStr "OTHER")];
                          VDict [("id", VStr "10001"); ("key", VStr "PROJ")]]))]
     = (Raise (RuntimeError "Project key not found"),
        [mkRequest GET (ApiUrl (Some "project") None) None], []).
Proof.
  pose (projects := [VDict [("id", VStr "10000"); ("key", VStr "OTHER")];
                     VDict [("id", VStr "10001"); ("key", VStr "PROJ")]]).
  pose (described := [("OTHER", VStr "10000"); ("PROJ", VStr "10001")]).
  assert (HF : Forall2 (fun p v => is_project (fst p) (snd p) v)
                       described projects).
  { repeat constructor; eexists; (split; [reflexivity|]); split; reflexivity. }
  split.
  - destruct (get_project_id_by_key_first_match
                (list outcome) scripted "PROJ"
                [Answer (json_response 200 (VList projects))]
                (json_response 200 (VList projects)) described projects [])
      as [Hfound _];
      [reflexivity | simpl; lia | discriminate | reflexivity | exact HF |].
    destruct Hfound as (before & id & after & Heq & Hnot & Hrun);
      [simpl; auto|].
    destruct before as [|[k i] [|[k' i'] before]]; simpl in Heq.
    + discriminate.
    + inversion Heq; subst. exact Hrun.
    + inversion Heq. destruct before; discriminate.
  - destruct (get_project_id_by_key_first_match
                (list outcome) scripted "proj"
                [Answer (json_response 200 (VList projects))]
                (json_response 200 (VList projects)) described projects [])
      as [_ Habsent];
      [reflexivity | simpl; lia | discriminate | reflexivity | exact HF |].
    apply Habsent. simpl. intros [H|[H|[]]]; discriminate.
Defined.

Lemma get_board_id_by_project_key_witness :
  get_board_id_by_project_key scripted "PROJ"
    [Answer (json_response 200
               (VList [VDict [("id", VStr "10001"); ("key", VStr "PROJ")]]));
     Answer (json_response 200
               (VDict [("values", VList [VDict [("id", VNum 7)];
                                         VDict [("id", VNum 8)]])]))]
  = (Ok (VNum 7),
     [mkRequest GET (ApiUrl (Some "project") None) None;
      mkRequest GET (BoardSearchUrl (VStr "10001")) None], [])
  /\ get_board_id_by_project_key scripted "PROJ"
       [Answer (json_response 200
                  (VList [VDict [("id", VStr "10001"); ("key", VStr "PROJ")]]));
        Answer (json_response 200 (VDict [("total", VNum 0)]))]
     = (Raise (RuntimeError "No boards found for project key"),
        [mkRequest GET (ApiUrl (Some "project") None) None;
         mkRequest GET (BoardSearchUrl (VStr "10001")) None], [])
  /\ get_board_id_by_project_key scripted "NONE"
       [Answer (json_response 200
                  (VList [VDict [("id", VStr "10001"); ("key", VStr "PROJ")]]));
        Answer (json_response 200 (VDict [("total", VNum 0)]))]
     = (Raise (RuntimeError "Project key not found"),
        [mkRequest GET (ApiUrl (Some "project") None) None],
        [Answer (json_response 200 (VDict [("total", VNum 0)]))]).
Proof.
  pose (projects :=
          Answer (json_response 200
                    (VList [VDict [("id", VStr "10001"); ("key", VStr "PROJ")]]))).
  pose (boards := VDict [("values", VList [VDict [("id", VNum 7)];
                                           VDict [("id", VNum 8)]])]).
  pose (none := VDict [("total", VNum 0)]).
  split; [|split].
  - destruct (get_board_id_by_project_key_first_board
                (list outcome) scripted "PROJ"
                [projects; Answer (json_response 200 boards)]) as [_ Hok].
    destruct (Hok (VStr "10001")
                  [mkRequest GET (ApiUrl (Some "project") None) None]
                  [Answer (json_response 200 boards)]
                  (json_response 200 boards)
                  [("values", VList [VDict [("id", VNum 7)];
                                     VDict [("id", VNum 8)]])] [])
      as [Hfirst _];
      [reflexivity | reflexivity | simpl; lia | discriminate | reflexivity |].
    apply (Hfirst (VDict [("id", VNum 7)]) [VDict [("id", VNum 8)]]).
    reflexivity.
  - destruct (get_board_id_by_project_key_first_board
                (list outcome) scripted "PROJ"
                [projects; Answer (json_response 200 none)]) as [_ Hok].
    destruct (Hok (VStr "10001")
                  [mkRequest GET (ApiUrl (Some "project") None) None]
                  [Answer (json_response 200 none)]
                  (json_response 200 none) [("total", VNum 0)] [])
      as [_ Hnone];
      [reflexivity | reflexivity | simpl; lia | discriminate | reflexivity |].
    apply Hnone. left. reflexivity.
  - destruct (get_board_id_by_project_key_first_board
                (list outcome) scripted "NONE"
                [projects; Answer (json_response 200 none)]) as [Hfail _].
    apply Hfail. reflexivity.
Defined.

(** ** The constructor *)

Section ConstructorFacts.
Variable W : Type.
Variable serve : W -> request -> outcome * W.

(** X7.  Constructing a [Jira] object sends exactly one request, the GET
    of [myself] without parameters, and an answer to it decides the
    construction: with status 200 the object is built, with any other
    status, also another success status such as 204, [__init__] raises
    [RuntimeError].  The object built has the lists and the mapping given
    in [jira_special_fields], an empty list or mapping standing in for
    each entry that is missing. *)
Theorem init_validates_with_status_200
        url api_base_url token jira_special_fields s r s' :
  serve s validate_request = (Answer r, s') ->
  trace_of_construction
    (__init__ serve url api_base_url token jira_special_fields s)
  = [mkRequest GET (ApiUrl (Some "myself") None) None]
  /\ (status_code r = 200%Z ->
      exists self,
        __init__ serve url api_base_url token jira_special_fields s
        = (Constructed self, [validate_request], s')
        /\ name_format_fields (attributes self)
           = get_or (sf_name_format_fields jira_special_fields) []
        /\ key_format_fields (attributes self)
           = get_or (sf_key_format_fields jira_special_fields) []
        /\ custom_field_mapping (attributes self)
           = get_or (sf_custom_field_mapping jira_special_fields) []
        /\ post_creation_update_fields (attributes self)
           = get_or (sf_post_creation_update_fields jira_special_fields) [])
  /\ (status_code r <> 200%Z ->
      __init__ serve url api_base_url token jira_special_fields s
      = (Failed (RuntimeError
                   "Failed to validate Jira URL or token. Check log for details."),
         [validate_request], s')).
Proof.
  intros Hs. unfold __init__, _validate_credentials, trace_of_construction.
  rewrite Hs. repeat split.
  - destruct (negb (status_code r =? 200)%Z); reflexivity.
  - intros Hst. rewrite Hst. simpl. eexists. repeat split.
  - intros Hst. apply Z.eqb_neq in Hst. rewrite Hst. reflexivity.
Qed.

(** X8.  The slash between the Jira URL and the API base path is the
    constructor's business: a path given with a leading slash and the
    same path given without one construct the same object, by the same
    run. *)
Theorem init_base_url_leading_slash
        url path token jira_special_fields s :
  String.prefix "/" path = false ->
  __init__ serve url ("/" ++ path) token jira_special_fields s
  = __init__ serve url path token jira_special_fields s.
Proof.
  intros H. unfold __init__.
  replace (String.prefix "/" ("/" ++ path)) with true
    by (destruct path; reflexivity).
  rewrite H. reflexivity.
Qed.
End ConstructorFacts.

Lemma init_validates_with_status_200_witness :
  (exists self,
      __init__ scripted "https://jira.example.com" "rest/api/2" "secret"
               (mkSpecialFields None (Some ["components"]) None None)
               [Answer (json_response 200 (VDict [("name", VStr "bob")]))]
      = (Constructed self, [validate_request], [])
      /\ key_format_fields (attributes self) = ["components"]
      /\ custom_field_mapping (attributes self) = [])
  /\ __init__ scripted "https://jira.example.com" "rest/api/2" "secret"
              (mkSpecialFields None (Some ["components"]) None None)
              [no_content 204]
     = (Failed (RuntimeError
                  "Failed to validate Jira URL or token. Check log for details."),
        [validate_request], []).
Proof.
  split.
  - destruct (init_validates_with_status_200
                (list outcome) scripted "https://jira.example.com" "rest/api/2"
                "secret" (mkSpecialFields None (Some ["components"]) None None)
                [Answer (json_response 200 (VDict [("name", VStr "bob")]))]
                (json_response 200 (VDict [("name", VStr "bob")])) [])
      as (_ & Hok & _); [reflexivity|].
    destruct Hok as (self & Hrun & _ & Hkey & Hmap & _); [reflexivity|].
    exists self. repeat split; assumption.
  - destruct (init_validates_with_status_200
                (list outcome) scripted "https://jira.example.com" "rest/api/2"
                "secret" (mkSpecialFields None (Some ["components"]) None None)
                [no_content 204] (mkResponse 204 EmptyString None) [])
      as (_ & _ & Hfail); [reflexivity|].
    apply Hfail. discriminate.
Defined.

Lemma init_base_url_leading_slash_witness :
  __init__ scripted "https://jira.example.com" "/rest/api/2" "secret"
           (mkSpecialFields None None None None) [no_content 200]
  = __init__ scripted "https://jira.example.com" "rest/api/2" "secret"
             (mkSpecialFields None None None None) [no_content 200].
Proof.
  apply (init_base_url_leading_slash
           (list outcome) scripted "https://jira.example.com" "rest/api/2"
           "secret" (mkSpecialFields None None None None) [no_content 200]).
  reflexivity.
Defined.

(** ** Field translation: renaming, exclusion, lookups *)

Lemma dict_set_fresh {A} (d : list (string * A)) k v :
  dict_mem d k = false -> dict_set d k v = d ++ [(k, v)].
Proof.
  induction d as [|[k' v'] d IH]; intros H; [reflexivity|].
  unfold dict_mem, dict_keys in H. simpl in H.
  apply orb_false_iff in H as [Hk Hd].
  simpl. rewrite Hk. f_equal. now apply IH.
Qed.

Lemma run_eta {W A} (x : result A * list request * W) :
  (fst (fst x), [] ++ snd (fst x), snd x) = x.
Proof. destruct x as [[r t] s]. reflexivity. Qed.

Section TranslationMore.
Variable W : Type.
Variable serve : W -> request -> outcome * W.
Variable self : Jira.

Lemma skipped_false exclude_fields f :
  skipped exclude_fields f = false ->
  String.eqb f "issues" = false
  /\ mem f exclude_fields = false
  /\ String.eqb f "issuelinks" = false.
Proof.
  unfold skipped. intros H.
  apply orb_false_iff in H as [H H3]. apply orb_false_iff in H as [H1 H2]. auto.
Qed.

Lemma format_rule_none f :
  format_rule self f = None ->
  mem f (key_format_fields self) = false
  /\ mem f (name_format_fields self) = false.
Proof.
  unfold format_rule.
  destruct (mem f (key_format_fields self)); [discriminate|].
  destruct (mem f (name_format_fields self)); [discriminate|]. auto.
Qed.

Lemma build_field_verbatim jira_project exclude_fields issue_fields f v s k :
  verbatim_key self exclude_fields f = Some k ->
  build_field serve self jira_project exclude_fields issue_fields f v s
  = (Ok (dict_set issue_fields k v), [], s).
Proof.
  unfold verbatim_key.
  destruct (skipped exclude_fields f) eqn:Hsk; [discriminate|].
  destruct (format_rule self f) eqn:Hfr; [discriminate|].
  destruct (skipped_false _ _ Hsk) as (H1 & H2 & H3).
  destruct (format_rule_none _ Hfr) as [H4 H5].
  unfold build_field. rewrite H1, H2, H3, H4, H5.
  destruct (dict_get (custom_field_mapping self) f) as [[id|tbl]|] eqn:Hc.
  - destruct (String.eqb f "sprint"); [discriminate|].
    intros [= <-]. reflexivity.
  - discriminate.
  - destruct (dict_get (custom_field_mapping self) "key_format_fields")
      as [[?|key_table]|];
      destruct (dict_get (custom_field_mapping self) "name_format_fields")
      as [[?|name_table]|]; try discriminate.
    rewrite !dict_mem_get.
    destruct (dict_get key_table f); [discriminate|].
    destruct (dict_get name_table f); [discriminate|].
    intros [= <-]. reflexivity.
Qed.

Lemma build_fields_renamed jira_project exclude_fields items :
  forall issue_fields s,
    Forall (fun f => skipped exclude_fields f = true
                     \/ verbatim_key self exclude_fields f <> None)
           (dict_keys items) ->
    NoDup (dict_keys (renamed self exclude_fields items)) ->
    (forall k, In k (dict_keys (renamed self exclude_fields items)) ->
               dict_mem issue_fields k = false) ->
    build_fields serve self jira_project exclude_fields items issue_fields s
    = (Ok (issue_fields ++ renamed self exclude_fields items), [], s).
Proof.
  induction items as [|[f v] rest IH]; intros acc s HF Hnd Hfresh.
  - simpl. rewrite app_nil_r. reflexivity.
  - inversion HF as [|? ? Hf HF']; subst. simpl in Hnd, Hfresh |- *.
    destruct (verbatim_key self exclude_fields f) as [k|] eqn:Hk.
    + rewrite (bind_ok_run _ _ _ _ _ _
                 (build_field_verbatim jira_project _ acc _ v s _ Hk)).
      simpl in Hnd. inversion Hnd as [|? ? Hnotin Hnd']; subst.
      assert (Hacc : dict_mem acc k = false) by (apply Hfresh; now left).
      rewrite (dict_set_fresh _ _ _ Hacc).
      rewrite IH; [|assumption|assumption|].
      * simpl. rewrite <- app_assoc. reflexivity.
      * intros k' Hin. rewrite <- (dict_set_fresh _ _ v Hacc).
        rewrite dict_mem_set. apply orb_false_iff. split.
        -- apply String.eqb_neq. intros ->. contradiction.
        -- apply Hfresh. now right.
    + destruct Hf as [Hsk|Hv]; [|contradiction].
      rewrite (bind_ok_run _ _ _ _ _ _
                 (build_field_skipped _ serve self jira_project _ acc _ v s Hsk)).
      rewrite IH by assumption. reflexivity.
Qed.

(** X9.  Fields that no rule wraps or looks up go into the request body
    as they are: a field mapped at the top level of
    [custom_field_mapping] under its wire id, any other field under its
    own name, each with the value it has in the input, in the order of the
    input, and without a request being sent.  Holds for an input all of
    whose fields are skipped or of these two kinds, as long as no two of
    them go to the same key. *)
Theorem verbatim_fields_are_renamed jira_project fields exclude_fields s :
  Forall (fun f => skipped exclude_fields f = true
                   \/ verbatim_key self exclude_fields f <> None)
         (dict_keys fields) ->
  NoDup (dict_keys (renamed self exclude_fields fields)) ->
  _build_issue_data serve self jira_project fields exclude_fields s
  = (Ok (renamed self exclude_fields fields), [], s).
Proof.
  intros HF Hnd. unfold _build_issue_data.
  rewrite build_fields_renamed; auto.
Qed.

Lemma build_field_not_excluded jira_project exclude_fields issue_fields f v s :
  mem f exclude_fields = false ->
  build_field serve self jira_project exclude_fields issue_fields f v s
  = build_field serve self jira_project [] issue_fields f v s.
Proof.
  intros H. unfold build_field. rewrite H. reflexivity.
Qed.

Lemma build_fields_exclusion jira_project exclude_fields items :
  forall issue_fields s,
    build_fields serve self jira_project exclude_fields items issue_fields s
    = build_fields serve self jira_project []
        (filter (fun entry => negb (mem (fst entry) exclude_fields)) items)
        issue_fields s.
Proof.
  induction items as [|[f v] rest IH]; intros acc s; [reflexivity|].
  simpl. destruct (mem f exclude_fields) eqn:Hex; simpl.
  - assert (Hsk : skipped exclude_fields f = true).
    { unfold skipped. rewrite Hex. now rewrite orb_true_r. }
    rewrite (bind_ok_run _ _ _ _ _ _
               (build_field_skipped _ serve self jira_project _ acc _ v s Hsk)).
    rewrite run_eta. apply IH.
  - unfold bind. rewrite (build_field_not_excluded _ _ _ _ _ _ Hex).
    destruct (build_field serve self jira_project [] acc f v s)
      as [[[acc'|e] t] s1]; [|reflexivity].
    now rewrite IH.
Qed.

(** X10.  Excluding a field is the same as not giving it: translating an
    input with a list of excluded fields is, as a run, translating the
    input that lacks those fields with nothing excluded.  The same result
    or exception, the same lookups, the same final state. *)
Theorem excluded_fields_are_as_if_absent jira_project fields exclude_fields s :
  _build_issue_data serve self jira_project fields exclude_fields s
  = _build_issue_data serve self jira_project
      (filter (fun entry => negb (mem (fst entry) exclude_fields)) fields) [] s.
Proof.
  apply build_fields_exclusion.
Qed.

Lemma build_field_silent jira_project exclude_fields issue_fields f v s :
  (f = "sprint" ->
   dict_mem (custom_field_mapping self) "sprint" = false
   \/ skipped exclude_fields "sprint" = true
   \/ format_rule self "sprint" <> None) ->
  exists r,
    build_field serve self jira_project exclude_fields issue_fields f v s
    = (r, [], s).
Proof.
  intros Hsprint. unfold build_field.
  destruct (String.eqb f "issues") eqn:H1; [eexists; reflexivity|].
  destruct (mem f exclude_fields) eqn:H2; [eexists; reflexivity|].
  destruct (String.eqb f "issuelinks") eqn:H3; [eexists; reflexivity|].
  destruct (mem f (key_format_fields self)) eqn:H4.
  { unfold bind, lift, ret.
    destruct (transform_field_value v "key"); eexists; reflexivity. }
  destruct (mem f (name_format_fields self)) eqn:H5.
  { unfold bind, lift, ret.
    destruct (transform_field_value v "name"); eexists; reflexivity. }
  destruct (dict_get (custom_field_mapping self) f) as [entry|] eqn:Hc.
  - destruct (String.eqb_spec f "sprint") as [->|Hne].
    + exfalso. destruct (Hsprint eq_refl) as [Hm|[Hsk|Hfr]].
      * rewrite dict_mem_get, Hc in Hm. discriminate.
      * unfold skipped in Hsk. rewrite H2 in Hsk. discriminate.
      * apply Hfr. unfold format_rule. now rewrite H4, H5.
    + unfold bind, lift, ret. destruct (as_key entry); eexists; reflexivity.
  - destruct (dict_get (custom_field_mapping self) "key_format_fields")
      as [[?|key_table]|]; try (eexists; reflexivity).
    destruct (dict_get key_table f).
    { unfold bind, lift, ret.
      destruct (transform_field_value v "key"); eexists; reflexivity. }
    destruct (dict_get (custom_field_mapping self) "name_format_fields")
      as [[?|name_table]|]; try (eexists; reflexivity).
    destruct (dict_get name_table f); [|eexists; reflexivity].
    unfold bind, lift, ret.
    destruct (transform_field_value v "name"); eexists; reflexivity.
Qed.

Lemma build_fields_silent jira_project exclude_fields items :
  forall issue_fields s,
    (In "sprint" (dict_keys items) ->
     dict_mem (custom_field_mapping self) "sprint" = false
     \/ skipped exclude_fields "sprint" = true
     \/ format_rule self "sprint" <> None) ->
    exists r,
      build_fields serve self jira_project exclude_fields items issue_fields s
      = (r, [], s).
Proof.
  induction items as [|[f v] rest IH]; intros acc s Hsprint.
  - eexists. reflexivity.
  - simpl.
    destruct (build_field_silent jira_project exclude_fields acc f v s)
      as [r Hr].
    { intros ->. apply Hsprint. now left. }
    unfold bind. rewrite Hr. destruct r as [acc'|e]; [|eexists; reflexivity].
    destruct (IH acc' s) as [r' Hr'].
    { intros Hin. apply Hsprint. now right. }
    rewrite Hr'. eexists. reflexivity.
Qed.

(** X11.  Translating fields never writes to the tracker: every request
    it sends is a GET without parameters.  And it sends nothing at all,
    leaving the tracker as it was, unless the input has a [sprint] field
    that is not excluded, is in neither format list and has an entry in
    [custom_field_mapping]. *)
Theorem translation_sends_only_for_sprint jira_project fields exclude_fields s :
  Forall reads
         (trace_of (_build_issue_data serve self jira_project fields
                                      exclude_fields s))
  /\ (looks_up_sprint self exclude_fields fields = false ->
      trace_of (_build_issue_data serve self jira_project fields
                                  exclude_fields s) = []
      /\ snd (_build_issue_data serve self jira_project fields
                                exclude_fields s) = s).
Proof.
  split; [apply build_fields_reads|].
  intros Hno. unfold _build_issue_data.
  destruct (build_fields_silent jira_project exclude_fields fields [] s)
    as [r Hr]; [|rewrite Hr; split; reflexivity].
  intros Hin. apply mem_In in Hin.
  unfold looks_up_sprint, dict_mem in Hno. rewrite Hin in Hno. simpl in Hno.
  unfold skipped. simpl.
  destruct (mem "sprint" exclude_fields); [right; left; reflexivity|].
  destruct (format_rule self "sprint"); [right; right; discriminate|].
  left. exact Hno.
Qed.

(** X12.  A [sprint] field that reaches the custom mapping is stored
    under the mapped wire id with the id of the sprint as its value, found
    by three lookups in a row: project, board, sprints of the board.  When
    no sprint of the board has the name given, nothing is raised: the
    field is stored with the value [None]. *)
Theorem sprint_field_stores_the_sprint_id
        jira_project exclude_fields issue_fields name s id board_id t1 s1 r
        body sprints described s2 :
  skipped exclude_fields "sprint" = false ->
  format_rule self "sprint" = None ->
  dict_get (custom_field_mapping self) "sprint" = Some (WireId id) ->
  get_board_id_by_project_key serve jira_project s = (Ok board_id, t1, s1) ->
  serve s1 (mkRequest GET (BoardSprintsUrl board_id) None) = (Answer r, s2) ->
  (200 <= status_code r < 300)%Z ->
  text r <> EmptyString ->
  json r = Some (VDict body) ->
  dict_get body "values" = Some (VList sprints) ->
  Forall2 (fun sp v => is_sprint (fst sp) (snd sp) v) described sprints ->
  (forall before sprint_id after,
      described = before ++ (name, sprint_id) :: after ->
      ~ In name (map fst before) ->
      build_field serve self jira_project exclude_fields issue_fields
                  "sprint" (VStr name) s
      = (Ok (dict_set issue_fields id sprint_id),
         t1 ++ [mkRequest GET (BoardSprintsUrl board_id) None], s2))
  /\ (~ In name (map fst described) ->
      build_field serve self jira_project exclude_fields issue_fields
                  "sprint" (VStr name) s
      = (Ok (dict_set issue_fields id VNone),
         t1 ++ [mkRequest GET (BoardSprintsUrl board_id) None], s2)).
Proof.
  intros Hsk Hfr Hc Hboard Hs Hst Htxt Hjson Hv HF.
  destruct (skipped_false _ _ Hsk) as (_ & H2 & _).
  destruct (format_rule_none _ Hfr) as [H4 H5].
  assert (Hrun : forall sprint_id,
             find_sprint sprints (VStr name) = Ok sprint_id ->
             build_field serve self jira_project exclude_fields issue_fields
                         "sprint" (VStr name) s
             = (Ok (dict_set issue_fields id sprint_id),
                t1 ++ [mkRequest GET (BoardSprintsUrl board_id) None], s2)).
  { intros sprint_id Hfind. unfold build_field.
    rewrite H2, H4, H5, Hc.
    change (String.eqb "sprint" "issues") with false.
    change (String.eqb "sprint" "issuelinks") with false.
    change (String.eqb "sprint" "sprint") with true. cbv iota.
    rewrite (bind_ok_run _ _ _ _ _ _ Hboard).
    assert (Hsprint := get_sprint_id_run _ serve board_id (VStr name) _ _ _ _ _
                                         Hs Hst Htxt Hjson Hv).
    rewrite Hfind in Hsprint.
    rewrite (bind_ok_run _ _ _ _ _ _ Hsprint). reflexivity. }
  split.
  - intros before sprint_id after Heq Hnot.
    apply Hrun. eapply find_sprint_first; eauto.
  - intros Hnot. apply Hrun. eapply find_sprint_absent; eauto.
Qed.

End TranslationMore.

Lemma verbatim_fields_are_renamed_witness :
  _build_issue_data scripted mapped_config "PROJ"
                    [("summary", VStr "Plan the sprint");
                     ("issues", VList []);
                     ("storyPoints", VDict [("value", VNum 5)]);
                     ("issuetype", VStr "Task")] [] []
  = (Ok [("summary", VStr "Plan the sprint");
         ("customfield_10016", VDict [("value", VNum 5)]);
         ("issuetype", VStr "Task")], [], []).
Proof.
  apply (verbatim_fields_are_renamed
           (list outcome) scripted mapped_config "PROJ"
           [("summary", VStr "Plan the sprint");
            ("issues", VList []);
            ("storyPoints", VDict [("value", VNum 5)]);
            ("issuetype", VStr "Task")] [] []).
  - repeat (constructor;
            [first [left; reflexivity | right; discriminate]|]).
    constructor.
  - simpl. repeat constructor; simpl; intuition discriminate.
Defined.

Lemma translation_sends_only_for_sprint_witness :
  trace_of (_build_issue_data scripted example_config "PROJ" example_task []
                              [project_list; board_list; sprint_board]) = []
  /\ snd (_build_issue_data scripted example_config "PROJ" example_task []
                            [project_list; board_list; sprint_board])
     = [project_list; board_list; sprint_board].
Proof.
  destruct (translation_sends_only_for_sprint
              (list outcome) scripted example_config "PROJ" example_task []
              [project_list; board_list; sprint_board]) as [_ Hsilent].
  apply Hsilent. reflexivity.
Defined.

Lemma sprint_field_witness :
  build_field scripted example_config "PROJ" [] [] "sprint" (VStr "Sprint 1")
              [project_list; board_list; sprint_board]
  = (Ok [("customfield_10104", VStr "10")],
     [mkRequest GET (ApiUrl (Some "project") None) None;
      mkRequest GET (BoardSearchUrl (VStr "10001")) None;
      mkRequest GET (BoardSprintsUrl (VNum 7)) None], [])
  /\ build_field scripted example_config "PROJ" [] [] "sprint" (VStr "Sprint 9")
                 [project_list; board_list; sprint_board]
     = (Ok [("customfield_10104", VNone)],
        [mkRequest GET (ApiUrl (Some "project") None) None;
         mkRequest GET (BoardSearchUrl (VStr "10001")) None;
         mkRequest GET (BoardSprintsUrl (VNum 7)) None], []).
Proof.
  assert (HF : Forall2 (fun sp v => is_sprint (fst sp) (snd sp) v)
                       [("Sprint 1", VStr "10")] [sprint_1]).
  { repeat constructor. eexists. split; [reflexivity|]. split; reflexivity. }
  split.
  - destruct (sprint_field_stores_the_sprint_id
                (list outcome) scripted example_config "PROJ" [] [] "Sprint 1"
                [project_list; board_list; sprint_board] "customfield_10104"
                (VNum 7)
                [mkRequest GET (ApiUrl (Some "project") None) None;
                 mkRequest GET (BoardSearchUrl (VStr "10001")) None]
                [sprint_board]
                (json_response 200 (VDict [("maxResults", VNum 50);
                                           ("values", VList [sprint_1])]))
                [("maxResults", VNum 50); ("values", VList [sprint_1])]
                [sprint_1] [("Sprint 1", VStr "10")] [])
      as [Hfound _];
      [reflexivity | reflexivity | reflexivity | reflexivity | reflexivity
       | simpl; lia | discriminate | reflexivity | reflexivity | exact HF |].
    apply (Hfound [] (VStr "10") []); [reflexivity|]. intros [].
  - destruct (sprint_field_stores_the_sprint_id
                (list outcome) scripted example_config "PROJ" [] [] "Sprint 9"
                [project_list; board_list; sprint_board] "customfield_10104"
                (VNum 7)
                [mkRequest GET (ApiUrl (Some "project") None) None;
                 mkRequest GET (BoardSearchUrl (VStr "10001")) None]
                [sprint_board]
                (json_response 200 (VDict [("maxResults", VNum 50);
                                           ("values", VList [sprint_1])]))
                [("maxResults", VNum 50); ("values", VList [sprint_1])]
                [sprint_1] [("Sprint 1", VStr "10")] [])
      as [_ Habsent];
      [reflexivity | reflexivity | reflexivity | reflexivity | reflexivity
       | simpl; lia | discriminate | reflexivity | reflexivity | exact HF |].
    apply Habsent. simpl. intros [H|[]]. discriminate.
Defined.


(** ** Creating one issue: what is written in, what is sent, what comes back *)

Lemma lift_ok_inv {W A} (r : result A) (s : W) a t s1 :
  lift r s = (Ok a, t, s1) -> r = Ok a /\ t = [] /\ s1 = s.
Proof.
  unfold lift. intros H. inversion H; subst. auto.
Qed.

Section CreationMore.
Variable W : Type.
Variable serve : W -> request -> outcome * W.
Variable self : Jira.

(** The steps of a creation that returns. *)
Lemma create_new_jira_issue_success jira_project jira_issue epic_key parent_key
      s response_data trace s' :
  create_new_jira_issue serve self jira_project jira_issue epic_key parent_key s
  = (Ok response_data, trace, s') ->
  exists initial_fields t1 s1 issue_key t2 s2 t3,
    initial_issue_data serve self jira_project jira_issue epic_key parent_key s
    = (Ok initial_fields, t1, s1)
    /\ handle_outcome (fst (serve s1 (create_request initial_fields)))
       = Ok response_data
    /\ getitem_obj response_data "key" = Ok issue_key
    /\ truthy issue_key = true
    /\ update_post_creation_fields serve self jira_project jira_issue issue_key
         (snd (serve s1 (create_request initial_fields)))
       = (Ok tt, t2, s2)
    /\ link_issuelinks serve jira_issue issue_key s2 = (Ok tt, t3, s')
    /\ trace = t1 ++ create_request initial_fields :: t2 ++ t3.
Proof.
  unfold create_new_jira_issue. intros H.
  apply bind_ok_inv in H as (fs & t1 & s1 & ta & Hinit & H & ->).
  apply bind_ok_inv in H as (resp & tb & sb & tc & Hsend & H & ->).
  rewrite send_create_run in Hsend. inversion Hsend as [[Hresp Htb Hsb]].
  subst tb sb. clear Hsend.
  apply bind_ok_inv in H as (key & td & sd & te & Hkey & H & ->).
  apply lift_ok_inv in Hkey as (Hkey & -> & ->).
  destruct (truthy key) eqn:Htr; cbn [negb] in H; [|discriminate].
  apply bind_ok_inv in H as ([] & t2 & s2 & tf & Hupd & H & ->).
  apply bind_ok_inv in H as ([] & t3 & s3 & tg & Hlink & H & ->).
  unfold ret in H. inversion H; subst.
  exists fs, t1, s1, key, t2, s2, t3.
  repeat split; try assumption.
  simpl. now rewrite app_nil_r.
Qed.

(** X14.  What [create_new_jira_issue] itself writes into the creation
    body.  The [project] entry is [{'key': jira_project}] whatever the
    input says about the project (provided the epic link is not mapped to
    the id [project]).  An issue other than a Sub-task that is created
    under an epic carries the epic's key in the field [epicLink] is mapped
    to.  A Sub-task created under a parent carries
    [parent = {'key': parent_key}]. *)
Theorem creation_body_project_epic_parent
        jira_project jira_issue epic_key parent_key s initial_fields t s' :
  initial_issue_data serve self jira_project jira_issue epic_key parent_key s
  = (Ok initial_fields, t, s') ->
  (dict_get (custom_field_mapping self) "epicLink" <> Some (WireId "project") ->
   dict_get initial_fields "project" = Some (VDict [("key", VStr jira_project)]))
  /\ (is_subtask jira_issue = false -> truthy epic_key = true ->
      exists id,
        dict_get (custom_field_mapping self) "epicLink" = Some (WireId id)
        /\ dict_get initial_fields id = Some epic_key)
  /\ (is_subtask jira_issue = true -> truthy parent_key = true ->
      dict_get initial_fields "parent" = Some (VDict [("key", parent_key)])).
Proof.
  intros Hinit.
  destruct (initial_issue_data_inv _ serve self _ _ _ _ _ _ _ _ Hinit)
    as (translated & _ & Hset).
  unfold set_epic_or_parent in Hset. fold (is_subtask jira_issue) in Hset.
  destruct (is_subtask jira_issue) eqn:Hsub.
  - rewrite andb_false_r in Hset. cbn [andb] in Hset.
    destruct (truthy parent_key) eqn:Hp; inversion Hset; subst; clear Hset.
    + split; [|split]; try discriminate.
      * intros _. rewrite dict_get_set_other by discriminate.
        apply dict_get_set_same.
      * intros _ _. apply dict_get_set_same.
    + split; [|split]; try discriminate.
      intros _. apply dict_get_set_same.
  - rewrite andb_true_r in Hset. cbn [andb] in Hset.
    destruct (truthy epic_key) eqn:He.
    + destruct (dict_get (custom_field_mapping self) "epicLink")
        as [[id|tbl]|]; try discriminate.
      simpl in Hset. inversion Hset; subst; clear Hset.
      split; [|split]; try discriminate.
      * intros Hne. rewrite dict_get_set_other.
        -- apply dict_get_set_same.
        -- intros Heq. apply Hne. now rewrite Heq.
      * intros _ _. exists id. split; [reflexivity|]. apply dict_get_set_same.
    + inversion Hset; subst; clear Hset.
      split; [|split]; try discriminate.
      intros _. apply dict_get_set_same.
Qed.

(** X15.  Creating an issue other than a Sub-task under an epic needs
    the [epicLink] entry of [custom_field_mapping].  Without it the
    creation never succeeds and sends nothing but lookups, so no issue is
    created; once the fields are translated it raises
    [KeyError('epicLink')]. *)
Theorem missing_epic_link_mapping_stops_creation
        jira_project jira_issue epic_key parent_key s :
  truthy epic_key = true ->
  is_subtask jira_issue = false ->
  dict_get (custom_field_mapping self) "epicLink" = None ->
  is_ok (outcome_of (create_new_jira_issue serve self jira_project jira_issue
                                           epic_key parent_key s)) = false
  /\ Forall reads
            (trace_of (create_new_jira_issue serve self jira_project jira_issue
                                             epic_key parent_key s))
  /\ (forall translated t s',
         _build_issue_data serve self jira_project jira_issue
                           (post_creation_update_fields self) s
         = (Ok translated, t, s') ->
         create_new_jira_issue serve self jira_project jira_issue epic_key
                               parent_key s
         = (Raise (KeyError "epicLink"), t, s')).
Proof.
  intros He Hsub Hmap.
  assert (Hreads := build_fields_reads W serve self jira_project
                      (post_creation_update_fields self) jira_issue [] s).
  fold (_build_issue_data serve self jira_project jira_issue
                          (post_creation_update_fields self)) in Hreads.
  destruct (_build_issue_data serve self jira_project jira_issue
                              (post_creation_update_fields self) s)
    as [[[translated|e] t] s1] eqn:Hb; unfold trace_of in Hreads;
    simpl in Hreads.
  - assert (Hinit : initial_issue_data serve self jira_project jira_issue
                                       epic_key parent_key s
                    = (Raise (KeyError "epicLink"), t, s1)).
    { unfold initial_issue_data. rewrite (bind_ok_run _ _ _ _ _ _ Hb).
      unfold lift, set_epic_or_parent. fold (is_subtask jira_issue).
      rewrite He, Hsub, Hmap. simpl. now rewrite app_nil_r. }
    assert (Hrun : create_new_jira_issue serve self jira_project jira_issue
                                         epic_key parent_key s
                   = (Raise (KeyError "epicLink"), t, s1)).
    { unfold create_new_jira_issue, bind at 1. now rewrite Hinit. }
    rewrite Hrun. repeat split; [exact Hreads|].
    intros ? ? ? [= <- <- <-]. reflexivity.
  - assert (Hrun : create_new_jira_issue serve self jira_project jira_issue
                                         epic_key parent_key s
                   = (Raise e, t, s1)).
    { unfold create_new_jira_issue, initial_issue_data, bind at 1 2.
      now rewrite Hb. }
    rewrite Hrun. repeat split; [exact Hreads|]. intros ? ? ? [=].
Qed.

Lemma build_fields_all_skipped jira_project exclude_fields items :
  (forall f, In f (dict_keys items) -> skipped exclude_fields f = true) ->
  forall issue_fields s,
    build_fields serve self jira_project exclude_fields items issue_fields s
    = (Ok issue_fields, [], s).
Proof.
  induction items as [|[f v] rest IH]; intros Hall acc s; [reflexivity|].
  simpl.
  rewrite (bind_ok_run _ _ _ _ _ _
             (build_field_skipped _ serve self jira_project _ acc _ v s
                                  (Hall f (or_introl eq_refl)))).
  rewrite IH; [reflexivity|]. intros g Hg. apply Hall. now right.
Qed.

Lemma update_post_creation_fields_nothing jira_project jira_issue issue_key s :
  (forall f, In f (dict_keys jira_issue) ->
             mem f (post_creation_update_fields self) = true ->
             structural f = true) ->
  update_post_creation_fields serve self jira_project jira_issue issue_key s
  = (Ok tt, [], s).
Proof.
  intros Hnone. unfold update_post_creation_fields, _build_issue_data.
  assert (Hb : build_fields serve self jira_project
                 (fields_set_during_issue_creation self jira_issue)
                 jira_issue [] s = (Ok [], [], s)).
  { apply build_fields_all_skipped. intros f Hf.
    rewrite skipped_spec.
    rewrite (fields_set_during_issue_creation_spec self _ _ Hf).
    destruct (mem f (post_creation_update_fields self)) eqn:Hp.
    - now rewrite (Hnone f Hf Hp).
    - apply orb_true_r. }
  rewrite (bind_ok_run _ _ _ _ _ _ Hb). reflexivity.
Qed.

(** X16.  An issue none of whose fields is a post-creation field is
    created without an update: no PUT is sent, whatever the tracker
    answers.  (The [issues] and [issuelinks] keys do not count as fields,
    also when they are listed in [post_creation_update_fields].) *)
Theorem no_update_without_post_creation_fields
        jira_project jira_issue epic_key parent_key s :
  (forall f, In f (dict_keys jira_issue) ->
             mem f (post_creation_update_fields self) = true ->
             structural f = true) ->
  filter is_update_request
         (trace_of (create_new_jira_issue serve self jira_project jira_issue
                                          epic_key parent_key s)) = [].
Proof.
  intros Hnone. apply filter_none. unfold create_new_jira_issue.
  apply bind_Forall.
  { eapply Forall_impl; [|apply initial_issue_data_reads].
    intros r Hr. apply (reads_kinds r Hr). }
  intros initial_fields _ s1 _.
  apply bind_Forall; [apply send_request_Forall; reflexivity|].
  intros response_data _ s2 _.
  apply bind_Forall; [apply lift_Forall|].
  intros issue_key _ s3 _.
  destruct (negb (truthy issue_key)); [apply raise_Forall|].
  apply bind_Forall.
  - rewrite (update_post_creation_fields_nothing _ _ _ _ Hnone). constructor.
  - intros _ _ s4 _. rewrite bind_ret_trace.
    destruct (link_issuelinks_trace W serve jira_issue issue_key s4)
      as [->|(pk & lt & ->)]; repeat constructor.
Qed.

(** X17.  An [issuelinks] entry with nothing in it makes the creation
    fail, and only after the issue exists: the loop over the links binds
    nothing, and the call that follows it reads [link_type].  Such a
    creation never returns; when the steps before the links go through, it
    ends with [UnboundLocalError], the creation request and any update
    already sent. *)
Theorem empty_issuelinks_fail_after_creation
        jira_project jira_issue epic_key parent_key s issuelinks :
  dict_get jira_issue "issuelinks" = Some issuelinks ->
  iter issuelinks = Ok [] ->
  is_ok (outcome_of (create_new_jira_issue serve self jira_project jira_issue
                                           epic_key parent_key s)) = false
  /\ (forall initial_fields t1 s1 response_data issue_key t2 s2,
         initial_issue_data serve self jira_project jira_issue epic_key
                            parent_key s
         = (Ok initial_fields, t1, s1) ->
         handle_outcome (fst (serve s1 (create_request initial_fields)))
         = Ok response_data ->
         getitem_obj response_data "key" = Ok issue_key ->
         truthy issue_key = true ->
         update_post_creation_fields serve self jira_project jira_issue
           issue_key (snd (serve s1 (create_request initial_fields)))
         = (Ok tt, t2, s2) ->
         create_new_jira_issue serve self jira_project jira_issue epic_key
                               parent_key s
         = (Raise (UnboundLocalError "link_type"),
            t1 ++ create_request initial_fields :: t2, s2)).
Proof.
  intros Hl Hiter.
  assert (Hlink : forall issue_key s2,
             link_issuelinks serve jira_issue issue_key s2
             = (Raise (UnboundLocalError "link_type"), [], s2)).
  { intros issue_key s2. unfold link_issuelinks. rewrite Hl.
    rewrite (bind_lift_ok _ _ _ _ Hiter). reflexivity. }
  split.
  - destruct (create_new_jira_issue serve self jira_project jira_issue epic_key
                                    parent_key s) as [[[resp|e] trace] s'] eqn:E;
      [|reflexivity].
    apply create_new_jira_issue_success in E.
    destruct E as (fs & t1 & s1 & key & t2 & s2 & t3 & _ & _ & _ & _ & _ & E & _).
    rewrite Hlink in E. discriminate.
  - intros fs t1 s1 resp key t2 s2 Hinit Hresp Hkey Htr Hupd.
    unfold create_new_jira_issue.
    rewrite (bind_ok_run _ _ _ _ _ _ Hinit).
    assert (Hsend : send_request serve (Some "issue") None VNone
                                 (Some (issue_data fs)) "post" s1
                    = (Ok resp, [create_request fs],
                       snd (serve s1 (create_request fs))))
      by (rewrite send_create_run, Hresp; reflexivity).
    rewrite (bind_ok_run _ _ _ _ _ _ Hsend).
    rewrite (bind_lift_ok _ _ _ _ Hkey). rewrite Htr. cbn [negb].
    rewrite (bind_ok_run _ _ _ _ _ _ Hupd).
    unfold bind. rewrite Hlink. simpl. now rewrite app_nil_r.
Qed.

(** X18.  A creation that returns has sent exactly one creation request,
    and what it returns is what the tracker answered to that request, an
    answer with a truthy [key].  It has sent at most one update, with a
    body that is not empty, to the issue of that key. *)
Theorem successful_creation_returns_the_created_issue
        jira_project jira_issue epic_key parent_key s response_data trace s' :
  create_new_jira_issue serve self jira_project jira_issue epic_key parent_key s
  = (Ok response_data, trace, s') ->
  exists initial_fields t1 s1 issue_key,
    initial_issue_data serve self jira_project jira_issue epic_key parent_key s
    = (Ok initial_fields, t1, s1)
    /\ handle_outcome (fst (serve s1 (create_request initial_fields)))
       = Ok response_data
    /\ getitem_obj response_data "key" = Ok issue_key
    /\ truthy issue_key = true
    /\ filter is_create_request trace = [create_request initial_fields]
    /\ (filter is_update_request trace = []
        \/ exists update_fields,
            update_fields <> []
            /\ filter is_update_request trace
               = [update_request issue_key update_fields]).
Proof.
  intros Hrun.
  destruct (create_new_jira_issue_success _ _ _ _ _ _ _ _ Hrun)
    as (fs & t1 & s1 & key & t2 & s2 & t3
        & Hinit & Hresp & Hkey & Htr & Hupd & Hlink & ->).
  exists fs, t1, s1, key. repeat (split; [assumption|]).
  assert (Hreads1 : Forall reads t1).
  { generalize (initial_issue_data_reads W serve self jira_project jira_issue
                                         epic_key parent_key s).
    rewrite Hinit. exact (fun H => H). }
  destruct (update_post_creation_fields_inv W serve self _ _ _ _ _ _ Htr Hupd)
    as (ufs & lookups & s3 & _ & Hreads2 & ->).
  assert (Hlinks : Forall (fun r => is_create_request r = false
                                    /\ is_update_request r = false) t3).
  { generalize (link_issuelinks_trace W serve jira_issue key s2).
    rewrite Hlink. unfold trace_of. simpl.
    intros [->|(pk & lt & ->)]; repeat constructor. }
  assert (Hc3 : filter is_create_request t3 = []).
  { apply filter_none. eapply Forall_impl; [|exact Hlinks]. now intros r []. }
  assert (Hu3 : filter is_update_request t3 = []).
  { apply filter_none. eapply Forall_impl; [|exact Hlinks]. now intros r []. }
  split.
  - rewrite filter_app. simpl. rewrite !filter_app.
    rewrite (reads_filter_create _ Hreads1), (reads_filter_create _ Hreads2), Hc3.
    destruct ufs; reflexivity.
  - rewrite filter_app. simpl. rewrite !filter_app.
    rewrite (reads_filter_update _ Hreads1), (reads_filter_update _ Hreads2), Hu3.
    destruct ufs as [|entry ufs]; simpl.
    + left. reflexivity.
    + right. exists (entry :: ufs). split; [discriminate|]. reflexivity.
Qed.
End CreationMore.

Lemma creation_body_witness :
  (exists initial_fields,
      initial_issue_data scripted example_config "PROJ"
        [("summary", VStr "Fix the build"); ("issuetype", VStr "Task");
         ("project", VStr "OTHER")] (VStr "PROJ-1") VNone []
      = (Ok initial_fields, [], [])
      /\ dict_get initial_fields "project"
         = Some (VDict [("key", VStr "PROJ")])
      /\ dict_get initial_fields "customfield_10100" = Some (VStr "PROJ-1"))
  /\ (exists initial_fields,
         initial_issue_data scripted example_config "PROJ" subtask_S
                            (VStr "PROJ-1") (VStr "PROJ-2") []
         = (Ok initial_fields, [], [])
         /\ dict_get initial_fields "parent"
            = Some (VDict [("key", VStr "PROJ-2")])).
Proof.
  split.
  - destruct (creation_body_project_epic_parent
                (list outcome) scripted example_config "PROJ"
                [("summary", VStr "Fix the build"); ("issuetype", VStr "Task");
                 ("project", VStr "OTHER")] (VStr "PROJ-1") VNone []
                [("summary", VStr "Fix the build"); ("issuetype", VStr "Task");
                 ("project", VDict [("key", VStr "PROJ")]);
                 ("customfield_10100", VStr "PROJ-1")] [] [] eq_refl)
      as (Hproject & Hepic & _).
    eexists. split; [reflexivity|]. split; [apply Hproject; discriminate|].
    destruct Hepic as (id & Hid & Hget); [reflexivity | reflexivity |].
    inversion Hid; subst. exact Hget.
  - destruct (creation_body_project_epic_parent
                (list outcome) scripted example_config "PROJ" subtask_S
                (VStr "PROJ-1") (VStr "PROJ-2") []
                [("summary", VStr "S"); ("issuetype", VStr "Sub-task");
                 ("project", VDict [("key", VStr "PROJ")]);
                 ("parent", VDict [("key", VStr "PROJ-2")])] [] [] eq_refl)
      as (_ & _ & Hparent).
    eexists. split; [reflexivity|]. apply Hparent; reflexivity.
Defined.

Lemma missing_epic_link_mapping_witness :
  create_new_jira_issue scripted mapped_config "PROJ" issue_I2 (VStr "PROJ-1")
                        VNone [created "PROJ-2"]
  = (Raise (KeyError "epicLink"), [], [created "PROJ-2"]).
Proof.
  destruct (missing_epic_link_mapping_stops_creation
              (list outcome) scripted mapped_config "PROJ" issue_I2
              (VStr "PROJ-1") VNone [created "PROJ-2"])
    as (_ & _ & Hrun); [reflexivity | reflexivity | reflexivity |].
  apply (Hrun issue_I2 [] [created "PROJ-2"]). reflexivity.
Defined.

Lemma no_update_without_post_creation_fields_witness :
  filter is_update_request
         (trace_of (create_new_jira_issue scripted example_config "PROJ"
                      issue_I2 VNone VNone [created "PROJ-7"])) = [].
Proof.
  apply (no_update_without_post_creation_fields
           (list outcome) scripted example_config "PROJ" issue_I2 VNone VNone
           [created "PROJ-7"]).
  intros f [<-|[<-|[]]]; discriminate.
Defined.

Lemma empty_issuelinks_witness :
  create_new_jira_issue scripted example_config "PROJ"
    [("summary", VStr "Fix the build"); ("issuetype", VStr "Task");
     ("issuelinks", VList [])] VNone VNone [created "PROJ-7"]
  = (Raise (UnboundLocalError "link_type"),
     [create_request [("summary", VStr "Fix the build");
                      ("issuetype", VStr "Task");
                      ("project", VDict [("key", VStr "PROJ")])]], []).
Proof.
  destruct (empty_issuelinks_fail_after_creation
              (list outcome) scripted example_config "PROJ"
              [("summary", VStr "Fix the build"); ("issuetype", VStr "Task");
               ("issuelinks", VList [])] VNone VNone [created "PROJ-7"]
              (VList []) eq_refl eq_refl) as [_ Hrun].
  apply (Hrun [("summary", VStr "Fix the build"); ("issuetype", VStr "Task");
               ("project", VDict [("key", VStr "PROJ")])]
              [] [created "PROJ-7"]
              (Json (VDict [("id", VStr "10000"); ("key", VStr "PROJ-7")]))
              (VStr "PROJ-7") [] []); reflexivity.
Defined.

Lemma successful_creation_witness :
  exists initial_fields t1 s1 issue_key,
    initial_issue_data scripted example_config "PROJ" example_task VNone VNone
                       [created "PROJ-7"; no_content 204]
    = (Ok initial_fields, t1, s1)
    /\ handle_outcome (fst (scripted s1 (create_request initial_fields)))
       = Ok (Json (VDict [("id", VStr "10000"); ("key", VStr "PROJ-7")]))
    /\ getitem_obj (Json (VDict [("id", VStr "10000"); ("key", VStr "PROJ-7")]))
                   "key" = Ok issue_key
    /\ truthy issue_key = true
    /\ filter is_create_request
              (trace_of (create_new_jira_issue scripted example_config "PROJ"
                           example_task VNone VNone
                           [created "PROJ-7"; no_content 204]))
       = [create_request initial_fields]
    /\ (filter is_update_request
               (trace_of (create_new_jira_issue scripted example_config "PROJ"
                            example_task VNone VNone
                            [created "PROJ-7"; no_content 204])) = []
        \/ exists update_fields,
            update_fields <> []
            /\ filter is_update_request
                      (trace_of (create_new_jira_issue scripted example_config
                                   "PROJ" example_task VNone VNone
                                   [created "PROJ-7"; no_content 204]))
               = [update_request issue_key update_fields]).
Proof.
  apply (successful_creation_returns_the_created_issue
           (list outcome) scripted example_config "PROJ" example_task VNone
           VNone [created "PROJ-7"; no_content 204]
           (Json (VDict [("id", VStr "10000"); ("key", VStr "PROJ-7")]))
           (trace_of (create_new_jira_issue scripted example_config "PROJ"
                        example_task VNone VNone
                        [created "PROJ-7"; no_content 204]))
           []).
  reflexivity.
Defined.

(** ** Walking the tree: epic keys, links, kinds of request *)

Section WalkMore.
Variable W : Type.
Variable serve : W -> request -> outcome * W.
Variable self : Jira.

Lemma initial_issue_data_epic_link jira_project jira_issue epic_key parent_key
      s initial_fields t s' :
  initial_issue_data serve self jira_project jira_issue epic_key parent_key s
  = (Ok initial_fields, t, s') ->
  truthy epic_key = true -> is_subtask jira_issue = false ->
  exists id,
    dict_get (custom_field_mapping self) "epicLink" = Some (WireId id)
    /\ dict_get initial_fields id = Some epic_key.
Proof.
  intros Hinit He Hsub.
  destruct (initial_issue_data_inv _ serve self _ _ _ _ _ _ _ _ Hinit)
    as (translated & _ & Hset).
  unfold set_epic_or_parent in Hset. fold (is_subtask jira_issue) in Hset.
  rewrite He, Hsub in Hset. simpl in Hset.
  destruct (dict_get (custom_field_mapping self) "epicLink")
    as [[id|tbl]|]; try discriminate.
  simpl in Hset. inversion Hset; subst.
  exists id. split; [reflexivity|]. apply dict_get_set_same.
Qed.

Lemma create_new_jira_issue_creates jira_project jira_issue epic_key parent_key s :
  Forall (fun r =>
            is_create_request r = true ->
            exists s0 issue_fields t s1,
              initial_issue_data serve self jira_project jira_issue epic_key
                                 parent_key s0
              = (Ok issue_fields, t, s1)
              /\ r = create_request issue_fields)
         (trace_of (create_new_jira_issue serve self jira_project jira_issue
                                          epic_key parent_key s)).
Proof.
  unfold create_new_jira_issue. apply bind_Forall.
  { eapply Forall_impl; [|apply initial_issue_data_reads].
    intros r Hr Hc. destruct (reads_kinds r Hr) as [Hno _]. congruence. }
  intros initial_fields t1 s1 Hinit. apply bind_Forall.
  { apply send_request_Forall. intros _.
    exists s, initial_fields, t1, s1. split; [exact Hinit|reflexivity]. }
  intros response_data _ s2 _.
  eapply Forall_impl;
    [|apply (after_creation_quiet W serve self jira_project jira_issue
                                  response_data s2)].
  intros r Hr Hc. simpl in Hr. congruence.
Qed.

Lemma getitem_dict_mem d k v : getitem (VDict d) k = Ok v -> dict_mem d k = true.
Proof.
  simpl. rewrite dict_mem_get. destruct (dict_get d k); [reflexivity|discriminate].
Qed.

Lemma create_list_of_jira_issues_created_under jira_project epic_key fuel :
  forall jira_issues issue_parent_key s,
    Forall (fun r => is_create_request r = true ->
                     created_under serve self jira_project epic_key r)
           (trace_of (create_list_of_jira_issues serve self fuel jira_project
                        jira_issues epic_key issue_parent_key s)).
Proof.
  induction fuel as [|fuel IH]; intros jira_issues issue_parent_key s; simpl.
  - apply raise_Forall.
  - apply bind_Forall; [apply lift_Forall|].
    intros issues _ s1 _. apply for_each_Forall.
    intros [| | | | |d] s2 _;
      try (apply bind_Forall; [apply lift_Forall|]; intros; apply ret_Forall).
    apply bind_Forall; [apply lift_Forall|]. intros issuetype t3 s3 Hit.
    apply lift_ok_inv in Hit as (Hit & _ & _).
    apply bind_Forall; [apply lift_Forall|]. intros summary t4 s4 Hsum.
    apply lift_ok_inv in Hsum as (Hsum & _ & _).
    apply bind_Forall.
    { eapply Forall_impl; [|apply create_new_jira_issue_creates].
      intros r Hr Hc. destruct (Hr Hc) as (s0 & fs & t & s' & Hinit & ->).
      exists d, issue_parent_key, s0, fs, t, s'.
      split; [exact (getitem_dict_mem _ _ _ Hit)|].
      split; [exact (getitem_dict_mem _ _ _ Hsum)|].
      split; [exact Hinit|]. split; [reflexivity|].
      intros He Hsub. exact (initial_issue_data_epic_link _ _ _ _ _ _ _ _
                                                          Hinit He Hsub). }
    intros response _ s5 _.
    apply bind_Forall; [apply lift_Forall|]. intros issue_key _ s6 _.
    apply bind_Forall.
    + destruct (truthy issue_parent_key && negb _); [|apply ret_Forall].
      rewrite bind_ret_trace. apply send_request_Forall. discriminate.
    + intros _ _ s7 _.
      destruct (dict_get d "issues"); [apply IH|apply ret_Forall].
Qed.


Lemma reads_filter_link t : Forall reads t -> filter is_link_request t = [].
Proof.
  intros H. apply filter_none. eapply Forall_impl; [|exact H].
  intros r Hr. apply (reads_kinds r Hr).
Qed.

Lemma link_issuelinks_success_count jira_issue issue_key s t s' :
  link_issuelinks serve jira_issue issue_key s = (Ok tt, t, s') ->
  length (filter is_link_request t)
  = if dict_mem jira_issue "issuelinks" then 1 else 0.
Proof.
  unfold link_issuelinks. rewrite dict_mem_get.
  destruct (dict_get jira_issue "issuelinks") as [issuelinks|].
  - intros H.
    apply bind_ok_inv in H as (links & ta & sa & tb & Hi & H & ->).
    apply lift_ok_inv in Hi as (Hi & -> & ->).
    apply bind_ok_inv in H as (bound & tc & sc & td & Hb & H & ->).
    apply lift_ok_inv in Hb as (Hb & -> & ->).
    destruct bound as [[link_type issue_parent_key]|]; [|discriminate].
    apply bind_ok_inv in H as (x & te & se & tf & Hl & H & ->).
    rewrite link_jira_issues_run in Hl. inversion Hl; subst.
    unfold ret in H. inversion H; subst. reflexivity.
  - intros H. unfold ret in H. inversion H; subst. reflexivity.
Qed.

Lemma create_new_jira_issue_success_link_count
      jira_project jira_issue epic_key parent_key s response_data trace s' :
  create_new_jira_issue serve self jira_project jira_issue epic_key parent_key s
  = (Ok response_data, trace, s') ->
  length (filter is_link_request trace)
  = if dict_mem jira_issue "issuelinks" then 1 else 0.
Proof.
  intros Hrun.
  destruct (create_new_jira_issue_success W serve self _ _ _ _ _ _ _ _ Hrun)
    as (fs & t1 & s1 & key & t2 & s2 & t3
        & Hinit & Hresp & Hkey & Htr & Hupd & Hlink & ->).
  assert (Hreads1 : Forall reads t1).
  { generalize (initial_issue_data_reads W serve self jira_project jira_issue
                                         epic_key parent_key s).
    rewrite Hinit. exact (fun H => H). }
  destruct (update_post_creation_fields_inv W serve self _ _ _ _ _ _ Htr Hupd)
    as (ufs & lookups & s3 & _ & Hreads2 & ->).
  rewrite filter_app. simpl. rewrite !filter_app.
  rewrite (reads_filter_link _ Hreads1), (reads_filter_link _ Hreads2).
  rewrite <- (link_issuelinks_success_count _ _ _ _ _ Hlink).
  destruct ufs; reflexivity.
Qed.

Lemma link_step_count (cond : bool) issue_key issue_parent_key link_type
      s t s' :
  (if cond then
     link_jira_issues serve issue_key issue_parent_key link_type ;;; ret tt
   else ret tt) s = (Ok tt, t, s') ->
  length (filter is_link_request t) = if cond then 1 else 0.
Proof.
  destruct cond; intros H.
  - apply bind_ok_inv in H as (x & ta & sa & tb & Hl & H & ->).
    rewrite link_jira_issues_run in Hl. inversion Hl; subst.
    unfold ret in H. inversion H; subst. reflexivity.
  - unfold ret in H. inversion H; subst. reflexivity.
Qed.

Lemma create_list_of_jira_issues_link_count jira_project epic_key fuel :
  forall jira_issues forest issue_parent_key s trace s',
    forest_of fuel jira_issues = Some forest ->
    create_list_of_jira_issues serve self fuel jira_project jira_issues
                               epic_key issue_parent_key s
    = (Ok tt, trace, s') ->
    length (filter is_link_request trace)
    = list_sum (map (expected_links (truthy issue_parent_key)) forest).
Proof.
  induction fuel as [|fuel IH];
    intros jira_issues forest issue_parent_key s trace s' Hforest Hrun;
    [discriminate|].
  simpl in Hforest. simpl create_list_of_jira_issues in Hrun.
  destruct (iter jira_issues) as [issues|e]; [|discriminate].
  rewrite bind_lift_ok with (a := issues) in Hrun by reflexivity.
  revert forest Hforest s trace Hrun.
  induction issues as [|issue issues IHissues]; intros forest Hforest s trace Hrun.
  - inversion Hforest; subst. unfold for_each, ret in Hrun.
    inversion Hrun; subst. reflexivity.
  - apply all_some_cons in Hforest.
    destruct Hforest as (node & forest' & Hnode & Hrest & ->).
    cbn [for_each] in Hrun.
    apply bind_ok_inv in Hrun as ([] & ta & sa & tb & Hbody & Hrun & ->).
    rewrite filter_app, length_app. cbn [map]. simpl list_sum.
    rewrite (IHissues _ Hrest _ _ Hrun).
    destruct issue as [| | | | |d]; try discriminate.
    apply bind_ok_inv in Hbody as (issuetype & t1 & s1 & t2 & Hit & Hbody & ->).
    apply lift_ok_inv in Hit as (Hit & -> & ->).
    apply bind_ok_inv in Hbody as (summary & t3 & s3 & t4 & Hsum & Hbody & ->).
    apply lift_ok_inv in Hsum as (Hsum & -> & ->).
    apply bind_ok_inv in Hbody as (response & t5 & s5 & t6 & Hcreate & Hbody & ->).
    apply bind_ok_inv in Hbody as (issue_key & t7 & s7 & t8 & Hkey & Hbody & ->).
    apply lift_ok_inv in Hkey as (Hkey & -> & ->).
    apply bind_ok_inv in Hbody as ([] & t9 & s9 & t10 & Hlink & Hchildren & ->).
    assert (Htruthy : truthy issue_key = true).
    { destruct (create_new_jira_issue_success W serve self _ _ _ _ _ _ _ _
                                              Hcreate)
        as (_ & _ & _ & key & _ & _ & _ & _ & _ & Hkey' & Htr & _).
      congruence. }
    assert (Hsub : is_subtask d = py_eq issuetype (VStr "Sub-task")).
    { unfold is_subtask, dict_get_default. simpl in Hit.
      destruct (dict_get d "issuetype"); inversion Hit; subst. reflexivity. }
    simpl app. rewrite !filter_app, !length_app.
    rewrite (create_new_jira_issue_success_link_count _ _ _ _ _ _ _ _ Hcreate).
    rewrite (link_step_count _ _ _ _ _ _ _ Hlink).
    destruct (dict_get d "issues") as [nested|].
    + destruct (forest_of fuel nested) as [children|] eqn:Hc; [|discriminate].
      inversion Hnode; subst node.
      rewrite (IH _ _ _ _ _ _ Hc Hchildren), Htruthy.
      cbn [expected_links]. rewrite Hsub. lia.
    + inversion Hnode; subst node. unfold ret in Hchildren.
      inversion Hchildren; subst.
      cbn [expected_links map filter length]. simpl list_sum.
      rewrite Hsub. lia.
Qed.

(** X20.  The links of a walk that completes can be counted on the
    input.  Each specification with an [issuelinks] key costs one link
    request, however many links it lists, and each issue nested under
    another issue costs one more, to its parent, unless it is a Sub-task.
    Issues directly under an epic, and the epics, are not linked to
    anything on account of their position. *)
Theorem completed_walk_link_count fuel jira_project epics forest s trace s' :
  forest_of (S fuel) epics = Some forest ->
  create_epics_and_issues serve self fuel jira_project epics s
  = (Ok tt, trace, s') ->
  length (filter is_link_request trace)
  = list_sum (map expected_epic_links forest).
Proof.
  intros Hforest Hrun. simpl in Hforest. unfold create_epics_and_issues in Hrun.
  destruct (iter epics) as [epic_list|e]; [|discriminate].
  rewrite bind_lift_ok with (a := epic_list) in Hrun by reflexivity.
  revert forest Hforest s trace Hrun.
  induction epic_list as [|epic epic_list IHepics];
    intros forest Hforest s trace Hrun.
  - inversion Hforest; subst. unfold for_each, ret in Hrun.
    inversion Hrun; subst. reflexivity.
  - apply all_some_cons in Hforest.
    destruct Hforest as (node & forest' & Hnode & Hrest & ->).
    cbn [for_each] in Hrun.
    apply bind_ok_inv in Hrun as ([] & ta & sa & tb & Hbody & Hrun & ->).
    rewrite filter_app, length_app. cbn [map]. simpl list_sum.
    rewrite (IHepics _ Hrest _ _ Hrun).
    destruct epic as [| | | | |d]; try discriminate.
    apply bind_ok_inv in Hbody as (epic_name & t1 & s1 & t2 & Hname & Hbody & ->).
    apply lift_ok_inv in Hname as (Hname & -> & ->).
    apply bind_ok_inv in Hbody as (response & t5 & s5 & t6 & Hcreate & Hbody & ->).
    apply bind_ok_inv in Hbody as (epic_key & t7 & s7 & t8 & Hkey & Hchildren & ->).
    apply lift_ok_inv in Hkey as (Hkey & -> & ->).
    simpl app. rewrite !filter_app, !length_app.
    rewrite (create_new_jira_issue_success_link_count _ _ _ _ _ _ _ _ Hcreate).
    destruct (dict_get d "issues") as [nested|].
    + destruct (forest_of fuel nested) as [children|] eqn:Hc; [|discriminate].
      inversion Hnode; subst node.
      rewrite (create_list_of_jira_issues_link_count _ _ _ _ _ _ _ _ _
                 Hc Hchildren).
      cbn [expected_epic_links truthy]. lia.
    + inversion Hnode; subst node. unfold ret in Hchildren.
      inversion Hchildren; subst.
      cbn [expected_epic_links map filter length]. simpl list_sum. lia.
Qed.
End WalkMore.

Lemma completed_walk_link_count_witness :
  length (filter is_link_request
                 (trace_of (create_epics_and_issues scripted example_config 2
                              "PROJ" (VList [VDict epic_N])
                              [created "PROJ-1"; created "PROJ-2";
                               created "PROJ-3"; no_content 201;
                               no_content 201; created "PROJ-4"])))
  = 2.
Proof.
  apply (completed_walk_link_count
           (list outcome) scripted example_config 2 "PROJ"
           (VList [VDict epic_N]) nested_forest
           [created "PROJ-1"; created "PROJ-2"; created "PROJ-3";
            no_content 201; no_content 201; created "PROJ-4"]
           (trace_of (create_epics_and_issues scripted example_config 2
                        "PROJ" (VList [VDict epic_N])
                        [created "PROJ-1"; created "PROJ-2";
                         created "PROJ-3"; no_content 201;
                         no_content 201; created "PROJ-4"]))
           []).
  - reflexivity.
  - reflexivity.
Defined.

Section Requests.
Variable W : Type.
Variable serve : W -> request -> outcome * W.
Variable self : Jira.

Lemma get_project_id_by_key_known project_key s :
  Forall known_request (trace_of (get_project_id_by_key serve project_key s)).
Proof.
  unfold get_project_id_by_key.
  apply bind_Forall; [apply send_request_Forall; left; reflexivity|].
  intros response _ s1 _.
  apply bind_Forall; [apply lift_Forall|].
  intros projects _ s2 _. apply lift_Forall.
Qed.

Lemma get_board_id_by_project_key_known project_key s :
  Forall known_request
         (trace_of (get_board_id_by_project_key serve project_key s)).
Proof.
  unfold get_board_id_by_project_key.
  apply bind_Forall; [apply get_project_id_by_key_known|].
  intros project_id _ s1 _.
  apply bind_Forall.
  { apply send_request_Forall. right. left. exists project_id. reflexivity. }
  intros response _ s2 _.
  apply bind_Forall; [apply lift_Forall|].
  intros values _ s3 _.
  apply bind_Forall; [apply lift_Forall|].
  intros [|board boards] _ s4 _; [apply raise_Forall|apply lift_Forall].
Qed.

Lemma get_sprint_id_known board_id sprint_name s :
  Forall known_request (trace_of (get_sprint_id serve board_id sprint_name s)).
Proof.
  unfold get_sprint_id.
  apply bind_Forall.
  { apply send_request_Forall. right. right. left. exists board_id.
    reflexivity. }
  intros response _ s1 _.
  apply bind_Forall; [apply lift_Forall|].
  intros values _ s2 _.
  apply bind_Forall; [apply lift_Forall|].
  intros sprints _ s3 _. apply lift_Forall.
Qed.

Ltac store_known :=
  apply bind_Forall; [apply lift_Forall|]; intros; apply ret_Forall.

Lemma build_field_known jira_project exclude_fields issue_fields field_name
      field_value s :
  Forall known_request
         (trace_of (build_field serve self jira_project exclude_fields
                                issue_fields field_name field_value s)).
Proof.
  unfold build_field.
  destruct (field_name =? "issues")%string; [apply ret_Forall|].
  destruct (mem field_name exclude_fields); [apply ret_Forall|].
  destruct (field_name =? "issuelinks")%string; [apply ret_Forall|].
  destruct (mem field_name (key_format_fields self)); [store_known|].
  destruct (mem field_name (name_format_fields self)); [store_known|].
  destruct (dict_get (custom_field_mapping self) field_name) as [entry|].
  - destruct (field_name =? "sprint")%string; [|store_known].
    apply bind_Forall; [apply get_board_id_by_project_key_known|].
    intros board _ s1 _.
    apply bind_Forall; [apply get_sprint_id_known|].
    intros sprint_id _ s2 _. store_known.
  - destruct (dict_get (custom_field_mapping self) "key_format_fields")
      as [[id|key_table]|]; try apply raise_Forall.
    destruct (dict_get key_table field_name); [store_known|].
    destruct (dict_get (custom_field_mapping self) "name_format_fields")
      as [[id|name_table]|]; try apply raise_Forall.
    destruct (dict_get name_table field_name); [store_known|apply ret_Forall].
Qed.

Lemma build_fields_known jira_project exclude_fields items issue_fields s :
  Forall known_request
         (trace_of (build_fields serve self jira_project exclude_fields
                                 items issue_fields s)).
Proof.
  revert issue_fields s.
  induction items as [|[n v] items IH]; intros issue_fields s; simpl.
  - apply ret_Forall.
  - apply bind_Forall; [apply build_field_known|].
    intros acc _ s1 _. apply IH.
Qed.

Lemma create_new_jira_issue_known jira_project jira_issue epic_key parent_key s :
  Forall known_request
         (trace_of (create_new_jira_issue serve self jira_project jira_issue
                                          epic_key parent_key s)).
Proof.
  unfold create_new_jira_issue.
  apply bind_Forall.
  { unfold initial_issue_data, _build_issue_data.
    apply bind_Forall; [apply build_fields_known|].
    intros fs _ s1 _. apply lift_Forall. }
  intros initial_fields _ s1 _.
  apply bind_Forall.
  { apply send_request_Forall. right. right. right. left.
    exists initial_fields. reflexivity. }
  intros response_data _ s2 _.
  apply bind_Forall; [apply lift_Forall|].
  intros issue_key _ s3 _.
  destruct (truthy issue_key) eqn:Hk; cbn [negb]; [|apply raise_Forall].
  apply bind_Forall.
  - unfold update_post_creation_fields, _build_issue_data.
    apply bind_Forall; [apply build_fields_known|].
    intros update_fields _ s4 _.
    destruct (truthy (VDict update_fields)); [|apply ret_Forall].
    rewrite bind_ret_trace, (send_update_run _ serve _ _ _ Hk).
    unfold trace_of. simpl. constructor; [|constructor].
    right. right. right. right. left. eauto.
  - intros _ _ s4 _. rewrite bind_ret_trace.
    destruct (link_issuelinks_trace W serve jira_issue issue_key s4)
      as [->|(pk & lt & ->)]; [constructor|].
    constructor; [|constructor].
    right. right. right. right. right. eauto.
Qed.

(** X21.  Whatever the input and whatever the tracker answers, a walk
    sends requests of six kinds only: the GET of the project list, of the
    boards of a project, of the sprints of a board; the POST that creates
    an issue; the PUT that updates the fields of an issue, always
    addressed to a truthy key; the POST that links two issues.  Nothing
    else ever leaves, in [create_list_of_jira_issues] as in
    [create_epics_and_issues]. *)
Theorem walk_sends_known_requests_only fuel jira_project :
  (forall jira_issues epic_key issue_parent_key s,
      Forall known_request
             (trace_of (create_list_of_jira_issues serve self fuel jira_project
                          jira_issues epic_key issue_parent_key s)))
  /\ (forall epics s,
         Forall known_request
                (trace_of (create_epics_and_issues serve self fuel jira_project
                             epics s))).
Proof.
  assert (Hlink : forall issue_key issue_parent_key link_type,
             known_request (link_request issue_key issue_parent_key link_type)).
  { intros. right. right. right. right. right. eauto. }
  split.
  - intros. apply create_list_of_jira_issues_Forall;
      [intros; apply create_new_jira_issue_known | exact Hlink].
  - intros. apply create_epics_and_issues_Forall;
      [intros; apply create_new_jira_issue_known | exact Hlink].
Qed.
End Requests.

(** ** An object constructed without a custom mapping *)

Section Defaults.
Variable W : Type.
Variable serve : W -> request -> outcome * W.

Lemma init_constructed url api_base_url token jira_special_fields s self t s' :
  __init__ serve url api_base_url token jira_special_fields s
  = (Constructed self, t, s') ->
  custom_field_mapping (attributes self)
  = get_or (sf_custom_field_mapping jira_special_fields) [].
Proof.
  unfold __init__.
  destruct (_validate_credentials serve s) as [[[[[]|e]|] t0] s0];
    intros H; inversion H; subst. reflexivity.
Qed.

(** X22.  The default of the constructor for a missing
    [custom_field_mapping] is the empty mapping, and with it the two
    nested tables that field translation indexes are missing.  So an
    object constructed without [custom_field_mapping] can create no issue
    that has a field outside the format lists and the post-creation
    fields, such as a summary: [create_new_jira_issue] raises, and it does
    so before it has sent anything. *)
Theorem object_without_mapping_creates_no_plain_issue
        url api_base_url token jira_special_fields s self t s'
        jira_project jira_issue epic_key parent_key s0 f :
  sf_custom_field_mapping jira_special_fields = None ->
  __init__ serve url api_base_url token jira_special_fields s
  = (Constructed self, t, s') ->
  In f (dict_keys jira_issue) ->
  structural f = false ->
  mem f (post_creation_update_fields (attributes self)) = false ->
  format_rule (attributes self) f = None ->
  is_ok (outcome_of (create_new_jira_issue serve (attributes self) jira_project
                       jira_issue epic_key parent_key s0)) = false
  /\ trace_of (create_new_jira_issue serve (attributes self) jira_project
                 jira_issue epic_key parent_key s0) = []
  /\ snd (create_new_jira_issue serve (attributes self) jira_project
            jira_issue epic_key parent_key s0) = s0.
Proof.
  intros Hnone Hinit Hin Hstr Hpost Hfr.
  assert (Hmap : custom_field_mapping (attributes self) = []).
  { rewrite (init_constructed _ _ _ _ _ _ _ _ Hinit), Hnone. reflexivity. }
  assert (Hsk : skipped (post_creation_update_fields (attributes self)) f = false).
  { rewrite skipped_spec, Hstr, Hpost. reflexivity. }
  apply in_map_iff in Hin. destruct Hin as ([f' v] & Hf & Hin).
  simpl in Hf. subst f'.
  assert (Hraise : is_ok (outcome_of
                            (_build_issue_data serve (attributes self)
                               jira_project jira_issue
                               (post_creation_update_fields (attributes self))
                               s0)) = false).
  { unfold _build_issue_data.
    apply (build_fields_raises W serve (attributes self) jira_project _ f v);
      [|exact Hin].
    intros acc s1.
    destruct (skipped_false _ _ Hsk) as (H1 & H2 & H3).
    destruct (format_rule_none _ _ Hfr) as [H4 H5].
    unfold build_field. rewrite H1, H2, H3, H4, H5, Hmap. reflexivity. }
  destruct (build_fields_silent W serve (attributes self) jira_project
              (post_creation_update_fields (attributes self)) jira_issue [] s0)
    as [r Hr].
  { intros _. left. rewrite Hmap. reflexivity. }
  unfold _build_issue_data in Hraise. rewrite Hr in Hraise.
  destruct r as [fs|e]; [discriminate|].
  assert (Hrun : create_new_jira_issue serve (attributes self) jira_project
                   jira_issue epic_key parent_key s0 = (Raise e, [], s0)).
  { unfold create_new_jira_issue, initial_issue_data, _build_issue_data,
      bind at 1 2.
    now rewrite Hr. }
  rewrite Hrun. repeat split.
Qed.
End Defaults.

Lemma object_without_mapping_witness :
  exists self,
    __init__ scripted "https://jira.example.com" "rest/api/2" "secret"
             (mkSpecialFields None (Some ["components"]) None None)
             [no_content 200; created "PROJ-1"]
    = (Constructed self, [validate_request], [created "PROJ-1"])
    /\ is_ok (outcome_of (create_new_jira_issue scripted (attributes self)
                            "PROJ" issue_I2 VNone VNone [created "PROJ-1"]))
       = false
    /\ trace_of (create_new_jira_issue scripted (attributes self) "PROJ"
                   issue_I2 VNone VNone [created "PROJ-1"]) = []
    /\ snd (create_new_jira_issue scripted (attributes self) "PROJ" issue_I2
              VNone VNone [created "PROJ-1"]) = [created "PROJ-1"].
Proof.
  eexists. split; [reflexivity|].
  apply (object_without_mapping_creates_no_plain_issue
           (list outcome) scripted "https://jira.example.com" "rest/api/2"
           "secret" (mkSpecialFields None (Some ["components"]) None None)
           [no_content 200; created "PROJ-1"] _ [validate_request]
           [created "PROJ-1"] "PROJ" issue_I2 VNone VNone [created "PROJ-1"]
           "summary"); reflexivity || (simpl; auto).
Defined.

(** ** The link requests *)

Section Links.
Variable W : Type.
Variable serve : W -> request -> outcome * W.
Variable self : Jira.

(** X23.  A creation that returns, for a specification whose
    [issuelinks] list ends with a link that has a [type] and an
    [outwardIssue], has sent exactly one link request.  Its body names the
    created issue, by the key the tracker returned, as [inwardIssue]; the
    [key] of the last link's [outwardIssue] as [outwardIssue], or the
    empty string if there is no such key; and the [name] of the last
    link's [type] as the type, or [Related] if there is none. *)
Theorem successful_creation_links_the_last_issuelink
        jira_project jira_issue epic_key parent_key s response_data trace s'
        before link link_type outward :
  create_new_jira_issue serve self jira_project jira_issue epic_key parent_key s
  = (Ok response_data, trace, s') ->
  dict_get jira_issue "issuelinks" = Some (VList (before ++ [VDict link])) ->
  dict_get link "type" = Some (VDict link_type) ->
  dict_get link "outwardIssue" = Some (VDict outward) ->
  exists issue_key,
    getitem_obj response_data "key" = Ok issue_key
    /\ filter is_link_request trace
       = [mkRequest POST (ApiUrl (Some "issueLink") None)
            (Some (VDict
                     [("type",
                       VDict [("name",
                               dict_get_default link_type "name"
                                                (VStr "Related"))]);
                      ("inwardIssue", VDict [("key", issue_key)]);
                      ("outwardIssue",
                       VDict [("key",
                               dict_get_default outward "key"
                                                (VStr EmptyString))])]))].
Proof.
  intros Hrun Hl Hty Hout.
  destruct (create_new_jira_issue_success W serve self _ _ _ _ _ _ _ _ Hrun)
    as (fs & t1 & s1 & key & t2 & s2 & t3
        & Hinit & Hresp & Hkey & Htr & Hupd & Hlink & ->).
  exists key. split; [exact Hkey|].
  assert (Hreads1 : Forall reads t1).
  { generalize (initial_issue_data_reads W serve self jira_project jira_issue
                                         epic_key parent_key s).
    rewrite Hinit. exact (fun H => H). }
  destruct (update_post_creation_fields_inv W serve self _ _ _ _ _ _ Htr Hupd)
    as (ufs & lookups & s3 & _ & Hreads2 & ->).
  assert (Ht3 : t3 = [link_request key
                        (dict_get_default outward "key" (VStr EmptyString))
                        (dict_get_default link_type "name" (VStr "Related"))]).
  { unfold link_issuelinks in Hlink. rewrite Hl in Hlink.
    apply bind_ok_inv in Hlink as (links & ta & sa & tb & Hi & Hlink & ->).
    apply lift_ok_inv in Hi as (Hi & -> & ->).
    simpl in Hi. inversion Hi; subst links. clear Hi.
    apply bind_ok_inv in Hlink as (bound & tc & sc & td & Hb & Hlink & ->).
    apply lift_ok_inv in Hb as (Hb & -> & ->).
    apply scan_issuelinks_last in Hb. simpl in Hb. rewrite Hty, Hout in Hb.
    simpl in Hb.
    assert (Hbound : bound
                     = Some (dict_get_default link_type "name" (VStr "Related"),
                             dict_get_default outward "key" (VStr EmptyString))).
    { unfold dict_get_default.
      destruct (dict_get link_type "name"), (dict_get outward "key");
        simpl in Hb; inversion Hb; reflexivity. }
    subst bound.
    apply bind_ok_inv in Hlink as (x & te & se & tf & Hsend & Hlink & ->).
    rewrite link_jira_issues_run in Hsend. inversion Hsend; subst.
    unfold ret in Hlink. inversion Hlink; subst. reflexivity. }
  subst t3.
  rewrite filter_app. simpl. rewrite !filter_app.
  rewrite (reads_filter_link _ Hreads1), (reads_filter_link _ Hreads2).
  destruct ufs; reflexivity.
Qed.

Lemma create_list_of_jira_issues_links jira_project fuel :
  forall jira_issues epic_key issue_parent_key s,
    Forall (fun r => is_link_request r = true ->
                     parent_link r \/ issuelinks_link r)
           (trace_of (create_list_of_jira_issues serve self fuel jira_project
                        jira_issues epic_key issue_parent_key s)).
Proof.
  induction fuel as [|fuel IH]; intros jira_issues epic_key issue_parent_key s;
    simpl.
  - apply raise_Forall.
  - apply bind_Forall; [apply lift_Forall|].
    intros issues _ s1 _. apply for_each_Forall.
    intros [| | | | |d] s2 _;
      try (apply bind_Forall; [apply lift_Forall|]; intros; apply ret_Forall).
    apply bind_Forall; [apply lift_Forall|]. intros issuetype t3 s3 Hit.
    apply lift_ok_inv in Hit as (Hit & _ & _).
    assert (Hsub : is_subtask d = py_eq issuetype (VStr "Sub-task")).
    { unfold is_subtask, dict_get_default. simpl in Hit.
      destruct (dict_get d "issuetype"); inversion Hit; subst. reflexivity. }
    apply bind_Forall; [apply lift_Forall|]. intros _ _ s4 _.
    apply bind_Forall.
    { eapply Forall_impl;
        [|apply (create_new_jira_issue_link_requests W serve self)].
      intros r Hr Hc. right.
      destruct (Hr Hc) as (ls & links & key & pk & lt & H1 & H2 & H3 & ->).
      exists d, ls, links, key, pk, lt. auto. }
    intros response _ s5 _.
    apply bind_Forall; [apply lift_Forall|]. intros issue_key _ s6 _.
    apply bind_Forall.
    + destruct (truthy issue_parent_key) eqn:Hp; cbn [andb];
        [|apply ret_Forall].
      destruct (py_eq issuetype (VStr "Sub-task")) eqn:Hs; cbn [negb];
        [apply ret_Forall|].
      rewrite bind_ret_trace. apply send_request_Forall. intros _. left.
      exists d, issue_key, issue_parent_key.
      split; [exact Hp|]. split; [congruence|reflexivity].
    + intros _ _ s7 _.
      destruct (dict_get d "issues"); [apply IH|apply ret_Forall].
Qed.

End Links.

Lemma successful_creation_links_witness :
  exists issue_key,
    getitem_obj (Json (VDict [("id", VStr "10000"); ("key", VStr "PROJ-7")]))
                "key" = Ok issue_key
    /\ filter is_link_request
              (trace_of (create_new_jira_issue scripted example_config "PROJ"
                           linked_task VNone VNone
                           [created "PROJ-7"; no_content 201]))
       = [mkRequest POST (ApiUrl (Some "issueLink") None)
            (Some (VDict
                     [("type", VDict [("name", VStr "Relates")]);
                      ("inwardIssue", VDict [("key", issue_key)]);
                      ("outwardIssue", VDict [("key", VStr "PROJ-2")])]))].
Proof.
  apply (successful_creation_links_the_last_issuelink
           (list outcome) scripted example_config "PROJ" linked_task VNone
           VNone [created "PROJ-7"; no_content 201]
           (Json (VDict [("id", VStr "10000"); ("key", VStr "PROJ-7")]))
           (trace_of (create_new_jira_issue scripted example_config "PROJ"
                        linked_task VNone VNone
                        [created "PROJ-7"; no_content 201]))
           []
           [VDict [("type", VDict [("name", VStr "Blocks")]);
                   ("outwardIssue", VDict [("key", VStr "PROJ-1")])]]
           [("type", VDict [("name", VStr "Relates")]);
            ("outwardIssue", VDict [("key", VStr "PROJ-2")])]
           [("name", VStr "Relates")] [("key", VStr "PROJ-2")]);
    reflexivity.
Defined.
